(** * Verification model of the salt-extras PostgreSQL cache plugins

    The development embeds the two cache back ends of the repository,
    [_cache/pgbytea.py] and [_cache/pgjsonb_encoded.py], as functions of a
    state-and-exception monad over an explicit world: the host options,
    the relational table, the connection, the trace of driver calls and
    the log.  The query texts are built by interpolation exactly as the
    Python f-strings build them, and a small reader of the SQL fragment
    the plugins emit plays the part of the server.  The loop with which
    [_fileserver/cifs_roots.py] sorts the entries of a directory is
    embedded as well. *)

From Stdlib Require Import ZArith NArith String Ascii List Bool Lia.
From stdpp Require Import base option list strings pretty gmap.
Import ListNotations.

Set Warnings "-register-all".

Local Open Scope string_scope.
Local Open Scope list_scope.
Local Open Scope Z_scope.

(** ** Python values and exceptions *)

(** The values that cross the plugin interface.  A [VStr] holds the UTF-8
    encoding of the text, a [VBytes] an arbitrary byte string. *)
Inductive PyVal : Type :=
| VNone
| VBool (b : bool)
| VInt (z : Z)
| VStr (s : string)
| VBytes (s : string)
| VUUID (n : N)
| VList (l : list PyVal)
| VTuple (l : list PyVal)
| VDict (d : list (string * PyVal)).

(** The classes of [psycopg2]'s exception hierarchy. *)
Inductive PgClass : Type :=
| PgError
| PgInterfaceError
| PgDatabaseError
| PgDataError
| PgOperationalError
| PgIntegrityError
| PgInternalError
| PgProgrammingError
| PgNotSupportedError.

Inductive Exn : Type :=
| Psycopg (c : PgClass) (msg : string)
| TypeError (msg : string)
| ValueError (msg : string)
| IndexError (msg : string)
| AttributeError (msg : string)
| UnicodeDecodeError (msg : string)
| BinasciiError (msg : string)
| CodecError (msg : string)
| SaltMasterError (msg : string).

(** [isinstance(e, psycopg2.Error)]: every driver exception. *)
Definition is_psycopg_Error (e : Exn) : bool :=
  match e with Psycopg _ _ => true | _ => false end.

(** [isinstance(e, psycopg2.DatabaseError)]: [DatabaseError] and its
    subclasses; [Error] itself and [InterfaceError] are outside. *)
Definition is_DatabaseError (e : Exn) : bool :=
  match e with
  | Psycopg PgError _ | Psycopg PgInterfaceError _ => false
  | Psycopg _ _ => true
  | _ => false
  end.

Definition is_OperationalError (e : Exn) : bool :=
  match e with Psycopg PgOperationalError _ => true | _ => false end.

Definition is_IntegrityError (e : Exn) : bool :=
  match e with Psycopg PgIntegrityError _ => true | _ => false end.

Definition is_DataError (e : Exn) : bool :=
  match e with Psycopg PgDataError _ => true | _ => false end.

Definition is_TypeError (e : Exn) : bool :=
  match e with TypeError _ => true | _ => false end.

Definition is_IndexError (e : Exn) : bool :=
  match e with IndexError _ => true | _ => false end.

Definition is_UnicodeDecodeError (e : Exn) : bool :=
  match e with UnicodeDecodeError _ => true | _ => false end.

(** [str(exc)] *)
Definition exn_text (e : Exn) : string :=
  match e with
  | Psycopg _ m | TypeError m | ValueError m | IndexError m
  | AttributeError m | UnicodeDecodeError m | BinasciiError m
  | CodecError m | SaltMasterError m => m
  end.

(** The outcome of a Python call: a value, or a raised exception. *)
Inductive Result (A : Type) : Type :=
| Ok (a : A)
| Raise (e : Exn).
Arguments Ok {A} a.
Arguments Raise {A} e.

Definition raised {A} (r : Result A) : bool :=
  match r with Ok _ => false | Raise _ => true end.

(** ** Builtins used by the plugins *)

Definition is_space (a : ascii) : bool :=
  let n := N_of_ascii a in
  ((n =? 32) || ((9 <=? n) && (n <=? 13)))%N.

Definition is_digit (a : ascii) : bool :=
  let n := N_of_ascii a in ((48 <=? n) && (n <=? 57))%N.

Definition is_alpha (a : ascii) : bool :=
  let n := N_of_ascii a in
  (((65 <=? n) && (n <=? 90)) || ((97 <=? n) && (n <=? 122)))%N.

Fixpoint lstrip (s : string) : string :=
  match s with
  | String a s' => if is_space a then lstrip s' else s
  | EmptyString => EmptyString
  end.

Fixpoint string_rev_onto (s acc : string) : string :=
  match s with
  | String a s' => string_rev_onto s' (String a acc)
  | EmptyString => acc
  end.

Definition string_rev (s : string) : string := string_rev_onto s "".

Definition strip (s : string) : string :=
  string_rev (lstrip (string_rev (lstrip s))).

(** Decimal digits with single underscores between them, as [int()]
    reads them; [prev] tells whether the previous character was a digit. *)
Fixpoint int_digits (s : string) (prev : bool) (acc : Z) : option Z :=
  match s with
  | EmptyString => if prev then Some acc else None
  | String a s' =>
      if is_digit a then
        int_digits s' true (10 * acc + (Z.of_N (N_of_ascii a) - 48))
      else if (N_of_ascii a =? 95)%N && prev then int_digits s' false acc
      else None
  end.

Definition int_of_text (s : string) : option Z :=
  match strip s with
  | String "+" d => int_digits d false 0
  | String "-" d => Z.opp <$> int_digits d false 0
  | d => int_digits d false 0
  end.

(** [int(v)] for the values a configuration can hold.  A text is read
    in its ASCII form: optional sign, ASCII digits with single
    underscores, ASCII white space around them.  ([int] also reads the
    decimal digits and the white space of other scripts; such texts are
    refused here.) *)
Definition py_int (v : PyVal) : Result Z :=
  match v with
  | VInt z => Ok z
  | VBool b => Ok (if b then 1 else 0)
  | VStr s | VBytes s =>
      match int_of_text s with
      | Some z => Ok z
      | None => Raise (ValueError "invalid literal for int() with base 10")
      end
  | _ => Raise (TypeError "int() argument must be a string, a bytes-like object or a real number")
  end.

(** Truthiness of an optional string argument (the [if key:] of [flush]). *)
Definition truthy_key (key : option string) : bool :=
  match key with
  | Some (String _ _) => true
  | _ => false
  end.

(** ** The configuration resolver *)

(** [dict.pop(k, default)] on a private copy of the options. *)
Definition dict_pop (k : string) (dflt : PyVal) (d : gmap string PyVal)
  : PyVal * gmap string PyVal :=
  match d !! k with
  | Some v => (v, delete k d)
  | None => (dflt, d)
  end.

(** The resolved connection descriptor: the dictionary [_get_options]
    returns, one field per key. *)
Record Options : Type := {
  o_host : PyVal;
  o_user : PyVal;
  o_password : PyVal;
  o_dbname : PyVal;
  o_table : PyVal;
  o_port : Z }.

Definition _DEFAULT_DATABASE_NAME : string := "salt_cache".
Definition _DEFAULT_TABLE_NAME : string := "salt_cache".

(** The value a field is documented to take: the option when present,
    the default otherwise. *)
Definition opt_or (d : gmap string PyVal) (k : string) (dflt : PyVal) : PyVal :=
  default dflt (d !! k).

(** ** Query texts *)

(** A value rendered by one of the driver's adapters ([psycopg2.Binary],
    [psycopg2.extras.Json]).  The adapters quote what they render, so the
    rendered literal is one unit of the query text; everything else in a
    query is a plain character, the interpolated bank and key included. *)
Inductive SqlLit : Type :=
| LBytea (b : string)
| LJson (v : PyVal).

Inductive qchar : Type :=
| Ch (a : ascii)
| Adapted (l : SqlLit).

Definition Query : Type := list qchar.

(** The characters of a Python string inside a query text. *)
Fixpoint qs (s : string) : Query :=
  match s with
  | EmptyString => []
  | String a s' => Ch a :: qs s'
  end.

(** ** The server's reader of the emitted SQL fragment *)

Inductive token : Type :=
| TWord (w : string)
| TStr (s : string)
| TSym (a : ascii)
| TLit (l : SqlLit).

Definition is_word (a : ascii) : bool :=
  is_alpha a || is_digit a || Ascii.eqb a "_" || Ascii.eqb a ".".

Definition is_quote (a : ascii) : bool := Ascii.eqb a "'".

Definition is_sym (a : ascii) : bool :=
  Ascii.eqb a "(" || Ascii.eqb a ")" || Ascii.eqb a "," ||
  Ascii.eqb a "=" || Ascii.eqb a ":".

Definition snoc (s : string) (a : ascii) : string := s +:+ String a "".

(** Lexer states: between tokens, inside a word, inside a quoted string,
    and just after a quote seen inside a string (which either closes the
    string or, when another quote follows, stands for one quote). *)
Inductive lstate : Type :=
| Idle
| InWord (w : string)
| InStr (s : string)
| Quote (s : string).

Definition lex_start (c : qchar) : option (list token * lstate) :=
  match c with
  | Adapted l => Some ([TLit l], Idle)
  | Ch a =>
      if is_space a then Some ([], Idle)
      else if is_word a then Some ([], InWord (String a ""))
      else if is_quote a then Some ([], InStr "")
      else if is_sym a then Some ([TSym a], Idle)
      else None
  end.

Definition lex_step (st : lstate) (c : qchar) : option (list token * lstate) :=
  match st with
  | Idle => lex_start c
  | InWord w =>
      match c with
      | Ch a =>
          if is_word a then Some ([], InWord (snoc w a))
          else '(ts, st') ← lex_start c; Some (TWord w :: ts, st')
      | Adapted _ => '(ts, st') ← lex_start c; Some (TWord w :: ts, st')
      end
  | InStr s =>
      match c with
      | Ch a => if is_quote a then Some ([], Quote s) else Some ([], InStr (snoc s a))
      | Adapted _ => None
      end
  | Quote s =>
      match c with
      | Ch a =>
          if is_quote a then Some ([], InStr (snoc s a))
          else '(ts, st') ← lex_start c; Some (TStr s :: ts, st')
      | Adapted _ => '(ts, st') ← lex_start c; Some (TStr s :: ts, st')
      end
  end.

Fixpoint lex_run (st : lstate) (q : Query) : option (list token * lstate) :=
  match q with
  | [] => Some ([], st)
  | c :: q' =>
      '(ts, st') ← lex_step st c;
      '(ts', st'') ← lex_run st' q';
      Some (ts ++ ts', st'')
  end.

(** At the end of the text an open string is an error. *)
Definition lex_finish (st : lstate) : option (list token) :=
  match st with
  | Idle => Some []
  | InWord w => Some [TWord w]
  | Quote s => Some [TStr s]
  | InStr _ => None
  end.

Definition lex (q : Query) : option (list token) :=
  '(ts, st) ← lex_run Idle q;
  ts' ← lex_finish st;
  Some (ts ++ ts').

Inductive Col : Type := CBank | CKey.

(** A conjunction of [column = 'text'] comparisons. *)
Definition Cond : Type := list (Col * string).

Inductive Proj : Type :=
| PData
| PDataEncoded
| PKey
| PCountData
| PEpoch
| PId.

Inductive Stmt : Type :=
| SCommit
| SRollback
| SUpsert (t : string) (bank key : string) (data : SqlLit) (encoded : option bool)
| SSelect (p : Proj) (t : string) (c : Cond)
| SDelete (t : string) (c : Cond).

(** Equality of a token with a token of a fixed template (templates hold
    no adapted literal). *)
Definition token_is (pat t : token) : bool :=
  match pat, t with
  | TWord a, TWord b => String.eqb a b
  | TStr a, TStr b => String.eqb a b
  | TSym a, TSym b => Ascii.eqb a b
  | _, _ => false
  end.

(** Drop the template [pat] from the front of [ts]. *)
Fixpoint expect (pat ts : list token) : option (list token) :=
  match pat with
  | [] => Some ts
  | p :: pat' =>
      match ts with
      | t :: ts' => if token_is p t then expect pat' ts' else None
      | [] => None
      end
  end.

Definition words (l : list string) : list token := TWord <$> l.

Definition col_of (w : string) : option Col :=
  if String.eqb w "bank" then Some CBank
  else if String.eqb w "psql_key" then Some CKey
  else None.

Fixpoint parse_cond (ts : list token) : option Cond :=
  match ts with
  | TWord c :: TSym e :: TStr v :: rest =>
      if Ascii.eqb e "=" then
        match col_of c with
        | Some col =>
            match rest with
            | [] => Some [(col, v)]
            | TWord a :: more =>
                if String.eqb a "AND"
                then match parse_cond more with
                     | Some cs => Some ((col, v) :: cs)
                     | None => None
                     end
                else None
            | _ => None
            end
        | None => None
        end
      else None
  | _ => None
  end.

(** [FROM t WHERE cond] *)
Definition parse_from (ts : list token) : option (string * Cond) :=
  match ts with
  | TWord t :: TWord w :: c =>
      if String.eqb w "WHERE" then pair t <$> parse_cond c else None
  | _ => None
  end.

Definition projections : list (list token * Proj) :=
  [ ([TWord "data"; TSym ","; TWord "encoded"; TWord "FROM"], PDataEncoded);
    ([TWord "data"; TWord "FROM"], PData);
    ([TWord "psql_key"; TWord "FROM"], PKey);
    ([TWord "COUNT"; TSym "("; TWord "data"; TSym ")"; TWord "FROM"], PCountData);
    ([TWord "extract"; TSym "("; TWord "epoch"; TWord "FROM";
      TWord "data_changed"; TSym ")"; TSym ":"; TSym ":"; TWord "int";
      TWord "FROM"], PEpoch);
    ([TWord "id"; TWord "FROM"], PId) ].

Fixpoint parse_select (tpl : list (list token * Proj)) (ts : list token)
  : option Stmt :=
  match tpl with
  | [] => None
  | (pat, p) :: tpl' =>
      match expect pat ts with
      | Some rest => '(t, c) ← parse_from rest; Some (SSelect p t c)
      | None => parse_select tpl' ts
      end
  end.

Definition conflict_clause : list token :=
  [TWord "ON"; TWord "CONFLICT"; TSym "("; TWord "bank"; TSym ",";
   TWord "psql_key"; TSym ")"; TWord "DO"; TWord "UPDATE"; TWord "SET";
   TWord "data"; TSym "="; TWord "EXCLUDED.data"].

Definition bool_of_word (w : string) : option bool :=
  if String.eqb w "True" then Some true
  else if String.eqb w "False" then Some false
  else None.

(** The two shapes of upsert: three columns with a bytea literal, four
    columns with a JSON literal and the encoded flag. *)
Definition parse_insert (ts : list token) : option Stmt :=
  match ts with
  | TWord t :: ts1 =>
      match expect [TSym "("; TWord "bank"; TSym ","; TWord "psql_key";
                    TSym ","; TWord "data"; TSym ")"; TWord "VALUES";
                    TSym "("] ts1 with
      | Some (TStr b :: TSym c1 :: TStr k :: TSym c2 :: TLit (LBytea d)
                :: TSym c3 :: ts2) =>
          if Ascii.eqb c1 "," && Ascii.eqb c2 "," && Ascii.eqb c3 ")" then
            match expect conflict_clause ts2 with
            | Some [] => Some (SUpsert t b k (LBytea d) None)
            | _ => None
            end
          else None
      | Some _ => None
      | None =>
          match expect [TSym "("; TWord "bank"; TSym ","; TWord "psql_key";
                        TSym ","; TWord "data"; TSym ","; TWord "encoded";
                        TSym ")"; TWord "VALUES"; TSym "("] ts1 with
          | Some (TStr b :: TSym c1 :: TStr k :: TSym c2 :: TWord f
                    :: TSym c3 :: TLit (LJson d) :: ts2) =>
              if Ascii.eqb c1 "," && Ascii.eqb c2 "," && String.eqb f "to_jsonb"
                 && Ascii.eqb c3 "("
              then
                match expect [TSym ":"; TSym ":"; TWord "json"; TSym ")";
                              TSym ","] ts2 with
                | Some (TWord e :: TSym c4 :: ts3) =>
                    match bool_of_word e,
                          expect (conflict_clause ++
                                  [TSym ","; TWord "encoded"; TSym "=";
                                   TWord "EXCLUDED.encoded"]) ts3 with
                    | Some eb, Some [] =>
                        if Ascii.eqb c4 ")"
                        then Some (SUpsert t b k (LJson d) (Some eb))
                        else None
                    | _, _ => None
                    end
                | _ => None
                end
              else None
          | _ => None
          end
      end
  | _ => None
  end.

Definition parse (ts : list token) : option Stmt :=
  match ts with
  | [TWord w] =>
      if String.eqb w "COMMIT" then Some SCommit
      else if String.eqb w "ROLLBACK" then Some SRollback
      else None
  | TWord w :: TWord w' :: rest =>
      if String.eqb w "DELETE" && String.eqb w' "FROM" then
        '(t, c) ← parse_from rest; Some (SDelete t c)
      else if String.eqb w "INSERT" && String.eqb w' "INTO" then parse_insert rest
      else if String.eqb w "SELECT" then parse_select projections (TWord w' :: rest)
      else None
  | TWord w :: rest =>
      if String.eqb w "SELECT" then parse_select projections rest else None
  | _ => None
  end.

Definition read_sql (q : Query) : option Stmt := lex q ≫= parse.

(** ** The table and the statements' effect on it *)

Record Row : Type := {
  r_bank : string;
  r_key : string;
  r_data : option SqlLit;
  r_encoded : bool;
  r_id : N;
  r_changed : Z }.

Definition Rows : Type := list (list PyVal).

Definition col_val (c : Col) (r : Row) : string :=
  match c with CBank => r_bank r | CKey => r_key r end.

Definition matches (c : Cond) (r : Row) : bool :=
  forallb (fun cv => String.eqb (col_val (fst cv) r) (snd cv)) c.

Definition same_key (b k : string) (r : Row) : bool :=
  String.eqb (r_bank r) b && String.eqb (r_key r) k.

(** The value a JSON object holds under a key: of several members with
    the same name jsonb keeps the last. *)
Fixpoint assoc_last {V} (k : string) (d : list (string * V)) : option V :=
  match d with
  | [] => None
  | (k', x) :: d' =>
      match assoc_last k d' with
      | Some y => Some y
      | None => if String.eqb k' k then Some x else None
      end
  end.

(** Two arrays compared member by member. *)
Definition all2_by (eq : PyVal -> PyVal -> bool) : list PyVal -> list PyVal -> bool :=
  fix all2 (l l' : list PyVal) : bool :=
    match l, l' with
    | [] , [] => true
    | x :: l, y :: l' => eq x y && all2 l l'
    | _, _ => false
    end.

(** Every member of the object [d] that counts (the last of its name)
    has an equal value under its name in [d']. *)
Definition within_by (eq : PyVal -> PyVal -> bool)
    : list (string * PyVal) -> list (string * PyVal) -> bool :=
  fix within (d d' : list (string * PyVal)) : bool :=
    match d with
    | [] => true
    | (k, x) :: rest =>
        match assoc_last k rest with
        | Some _ => true
        | None =>
            match assoc_last k d' with
            | Some y => eq x y
            | None => false
            end
        end && within rest d'
    end.

Definition has_name (d : list (string * PyVal)) (kv : string * PyVal) : bool :=
  match assoc_last (fst kv) d with
  | Some _ => true
  | None => false
  end.

(** Equality of jsonb values: arrays member by member (a Python tuple is
    written as an array), objects as maps from names to values whatever
    the order of the members, everything else as it is written. *)
Fixpoint jsonb_eqb (a b : PyVal) {struct a} : bool :=
  match a, b with
  | VNone, VNone => true
  | VBool x, VBool y => Bool.eqb x y
  | VInt x, VInt y => (x =? y)%Z
  | VStr x, VStr y => String.eqb x y
  | VBytes x, VBytes y => String.eqb x y
  | VUUID x, VUUID y => (x =? y)%N
  | VList x, VList y | VList x, VTuple y
  | VTuple x, VList y | VTuple x, VTuple y => all2_by jsonb_eqb x y
  | VDict x, VDict y => within_by jsonb_eqb x y && forallb (has_name x) y
  | _, _ => false
  end.

(** Equality of two values of the data column: bytea byte by byte, jsonb
    as jsonb compares. *)
Definition SqlLit_eqb (a b : SqlLit) : bool :=
  match a, b with
  | LBytea x, LBytea y => String.eqb x y
  | LJson x, LJson y => jsonb_eqb x y
  | _, _ => false
  end.

(** [OLD.data IS DISTINCT FROM NEW.data] of the trigger. *)
Definition data_distinct (old : option SqlLit) (new : SqlLit) : bool :=
  match old with
  | Some o => negb (SqlLit_eqb o new)
  | None => true
  end.

(** [INSERT ... ON CONFLICT (bank, psql_key) DO UPDATE SET data = ...]:
    the row with the key is updated in place (its timestamp moves only
    when the data changes), otherwise a row is added with a fresh id. *)
Fixpoint upsert_rows (b k : string) (d : SqlLit) (e : option bool)
    (now : Z) (fresh : N) (rows : list Row) : list Row :=
  match rows with
  | [] =>
      [ {| r_bank := b; r_key := k; r_data := Some d;
           r_encoded := default false e; r_id := fresh; r_changed := now |} ]
  | r :: rows' =>
      if same_key b k r then
        {| r_bank := r_bank r; r_key := r_key r; r_data := Some d;
           r_encoded := default (r_encoded r) e; r_id := r_id r;
           r_changed := if data_distinct (r_data r) d then now else r_changed r |}
        :: rows'
      else r :: upsert_rows b k d e now fresh rows'
  end.

Definition delete_rows (c : Cond) (rows : list Row) : list Row :=
  List.filter (fun r => negb (matches c r)) rows.

Definition hex_digit (n : N) : ascii :=
  if (n <? 10)%N then ascii_of_N (48 + n) else ascii_of_N (87 + n).

Fixpoint hex_fixed (width : nat) (n : N) (acc : string) : string :=
  match width with
  | O => acc
  | S w => hex_fixed w (n / 16)%N (String (hex_digit (n mod 16)%N) acc)
  end.

(** The canonical text of a uuid: 8-4-4-4-12 hexadecimal digits. *)
Definition uuid_text (n : N) : string :=
  let h := hex_fixed 32 n "" in
  substring 0 8 h +:+ "-" +:+ substring 8 4 h +:+ "-" +:+ substring 12 4 h
  +:+ "-" +:+ substring 16 4 h +:+ "-" +:+ substring 20 12 h.

(** The Python value the driver hands back for a data column. *)
Definition py_of_data (d : option SqlLit) : PyVal :=
  match d with
  | None => VNone
  | Some (LBytea b) => VBytes b
  | Some (LJson v) => v
  end.

(** The range of [int], PostgreSQL's int4. *)
Definition int4 (z : Z) : bool := (- 2 ^ 31 <=? z) && (z <? 2 ^ 31).

Definition int_out_of_range : Exn := Psycopg PgDataError "integer out of range".

(** The values of a result row, when the select list can be computed. *)
Definition cells (p : Proj) (r : Row) : list PyVal :=
  match p with
  | PData => [py_of_data (r_data r)]
  | PDataEncoded => [py_of_data (r_data r); VBool (r_encoded r)]
  | PKey => [VStr (r_key r)]
  | PCountData => []
  | PEpoch => [VInt (r_changed r)]
  | PId => [VStr (uuid_text (r_id r))]
  end.

(** One result row.  [extract(epoch FROM data_changed)::int] casts to
    int4 and fails on a time outside its range. *)
Definition project (p : Proj) (r : Row) : Result (list PyVal) :=
  match p with
  | PEpoch => if int4 (r_changed r) then Ok (cells p r) else Raise int_out_of_range
  | _ => Ok (cells p r)
  end.

Fixpoint project_all (p : Proj) (rows : list Row) : Result Rows :=
  match rows with
  | [] => Ok []
  | r :: rows' =>
      match project p r with
      | Raise e => Raise e
      | Ok x =>
          match project_all p rows' with
          | Raise e => Raise e
          | Ok xs => Ok (x :: xs)
          end
      end
  end.

Definition has_data (r : Row) : bool :=
  match r_data r with Some _ => true | None => false end.

Definition select_rows (p : Proj) (c : Cond) (rows : list Row) : Result Rows :=
  let hits := List.filter (matches c) rows in
  match p with
  | PCountData => Ok [[VInt (Z.of_nat (length (List.filter has_data hits)))]]
  | _ => project_all p hits
  end.

(** The result of a select whose select list can be computed for every
    row found. *)
Definition select_cells (p : Proj) (c : Cond) (rows : list Row) : Rows :=
  let hits := List.filter (matches c) rows in
  match p with
  | PCountData => [[VInt (Z.of_nat (length (List.filter has_data hits)))]]
  | _ => cells p <$> hits
  end.

(** *** What the columns accept *)

(** Whether a text holds the character NUL. *)
Fixpoint has_nul (s : string) : bool :=
  match s with
  | EmptyString => false
  | String a s' => Ascii.eqb a "000" || has_nul s'
  end.

(** jsonb cannot hold the escape for NUL: [to_jsonb(...::json)] fails
    when a text of the value, a member name included, holds it. *)
Fixpoint json_storable (v : PyVal) : bool :=
  match v with
  | VStr s => negb (has_nul s)
  | VList l | VTuple l => forallb json_storable l
  | VDict d =>
      forallb (fun kv => match kv with
                         | (k, x) => negb (has_nul k) && json_storable x
                         end) d
  | _ => true
  end.

Definition lit_storable (d : SqlLit) : bool :=
  match d with
  | LBytea _ => true
  | LJson v => json_storable v
  end.

Definition is_continuation (a : ascii) : bool :=
  let n := N_of_ascii a in ((128 <=? n) && (n <? 192))%N.

(** The characters of a UTF-8 text: its bytes other than continuation
    bytes. *)
Fixpoint char_count (s : string) : nat :=
  match s with
  | EmptyString => O
  | String a s' => ((if is_continuation a then 0 else 1) + char_count s')%nat
  end.

(** The first [n] characters of a text, and what follows them. *)
Fixpoint split_chars (n : nat) (s : string) : string * string :=
  match s with
  | EmptyString => (EmptyString, EmptyString)
  | String a s' =>
      if is_continuation a then
        let '(hd, tl) := split_chars n s' in (String a hd, tl)
      else
        match n with
        | O => (EmptyString, s)
        | S n' => let '(hd, tl) := split_chars n' s' in (String a hd, tl)
        end
  end.

Fixpoint all_spaces (s : string) : bool :=
  match s with
  | EmptyString => true
  | String a s' => Ascii.eqb a " " && all_spaces s'
  end.

(** Assignment to a [varchar(n)] column: a text of at most [n]
    characters is stored as it is, a longer one is cut to [n] characters
    when only spaces are lost, and refused otherwise. *)
Definition varchar (n : nat) (s : string) : option string :=
  if (char_count s <=? n)%nat then Some s
  else let '(hd, tl) := split_chars n s in
       if all_spaces tl then Some hd else None.

(** A text that a [varchar(255)] column takes as it is. *)
Definition fits (s : string) : bool := (char_count s <=? 255)%nat.

Definition string_too_long : Exn :=
  Psycopg PgDataError "value too long for type character varying(255)".

Definition unsupported_escape : Exn :=
  Psycopg PgDataError "unsupported Unicode escape sequence".

(** ** The world: options, store, connection, trace and log *)

(** What the environment answers to the next driver call: it runs the
    call normally, makes it fail with an exception, or (for a statement)
    hands the cursor an arbitrary result. *)
Inductive Reply : Type :=
| Normal
| Fails (e : Exn)
| Answers (r : option Rows).

Inductive Event : Type :=
| EConnect (o : Options)
| EExecute (q : Query)
| EClose.

Inductive Level : Type := DEBUG | ERROR.

Inductive LogArg : Type :=
| AQuery (q : Query)
| AExn (e : Exn)
| AVal (v : PyVal)
| ARows (r : option Rows)
| AText (s : string)
| AKey (k : option string)
| ALit (l : SqlLit).

Record LogRec : Type := { l_level : Level; l_fmt : string; l_arg : LogArg }.

Record World : Type := {
  w_opts : gmap string PyVal;       (* the host's [__opts__] *)
  w_relation : string;              (* the table that exists in the database *)
  w_committed : list Row;           (* its committed rows *)
  w_session : option (list Row);    (* the open connection's view, if any *)
  w_result : option (option Rows);  (* what the cursor holds for fetchall *)
  w_script : nat -> Reply;          (* the environment's answer to each driver call *)
  w_calls : nat;                    (* driver calls made so far *)
  w_trace : list Event;             (* driver calls, oldest first *)
  w_log : list LogRec;              (* log records, oldest first *)
  w_clock : Z;                      (* the server's now(), epoch seconds *)
  w_next_id : N }.                  (* source of fresh uuids *)

Definition with_session (s : option (list Row)) (w : World) : World :=
  {| w_opts := w_opts w; w_relation := w_relation w;
     w_committed := w_committed w; w_session := s; w_result := w_result w;
     w_script := w_script w; w_calls := w_calls w; w_trace := w_trace w; w_log := w_log w;
     w_clock := w_clock w; w_next_id := w_next_id w |}.

Definition with_committed (c : list Row) (w : World) : World :=
  {| w_opts := w_opts w; w_relation := w_relation w;
     w_committed := c; w_session := w_session w; w_result := w_result w;
     w_script := w_script w; w_calls := w_calls w; w_trace := w_trace w; w_log := w_log w;
     w_clock := w_clock w; w_next_id := w_next_id w |}.

Definition with_result (r : option (option Rows)) (w : World) : World :=
  {| w_opts := w_opts w; w_relation := w_relation w;
     w_committed := w_committed w; w_session := w_session w; w_result := r;
     w_script := w_script w; w_calls := w_calls w; w_trace := w_trace w; w_log := w_log w;
     w_clock := w_clock w; w_next_id := w_next_id w |}.

Definition count_call (w : World) : World :=
  {| w_opts := w_opts w; w_relation := w_relation w;
     w_committed := w_committed w; w_session := w_session w;
     w_result := w_result w;
     w_script := w_script w; w_calls := S (w_calls w); w_trace := w_trace w;
     w_log := w_log w;
     w_clock := w_clock w; w_next_id := w_next_id w |}.

Definition add_event (e : Event) (w : World) : World :=
  {| w_opts := w_opts w; w_relation := w_relation w;
     w_committed := w_committed w; w_session := w_session w;
     w_result := w_result w;
     w_script := w_script w; w_calls := w_calls w; w_trace := w_trace w ++ [e]; w_log := w_log w;
     w_clock := w_clock w; w_next_id := w_next_id w |}.

Definition add_log (l : LogRec) (w : World) : World :=
  {| w_opts := w_opts w; w_relation := w_relation w;
     w_committed := w_committed w; w_session := w_session w;
     w_result := w_result w;
     w_script := w_script w; w_calls := w_calls w; w_trace := w_trace w; w_log := w_log w ++ [l];
     w_clock := w_clock w; w_next_id := w_next_id w |}.

Definition tick (w : World) : World :=
  {| w_opts := w_opts w; w_relation := w_relation w;
     w_committed := w_committed w; w_session := w_session w;
     w_result := w_result w;
     w_script := w_script w; w_calls := w_calls w; w_trace := w_trace w; w_log := w_log w;
     w_clock := w_clock w + 1; w_next_id := w_next_id w |}.

Definition use_id (w : World) : World :=
  {| w_opts := w_opts w; w_relation := w_relation w;
     w_committed := w_committed w; w_session := w_session w;
     w_result := w_result w;
     w_script := w_script w; w_calls := w_calls w; w_trace := w_trace w; w_log := w_log w;
     w_clock := w_clock w; w_next_id := (w_next_id w + 1)%N |}.

(** The environment's answer to the next driver call. *)
Definition next_reply (w : World) : Reply * World :=
  (w_script w (w_calls w), count_call w).

(** ** The monad of plugin code: state and exceptions *)

Definition M (A : Type) : Type := World -> Result A * World.

#[export] Instance M_ret : MRet M := fun A a w => (Ok a, w).

#[export] Instance M_bind : MBind M := fun A B f m w =>
  match m w with
  | (Ok a, w') => f a w'
  | (Raise e, w') => (Raise e, w')
  end.

Definition raise {A} (e : Exn) : M A := fun w => (Raise e, w).

Definition lift {A} (r : Result A) : M A := fun w => (r, w).

(** Run [m] and hand its outcome to the [except]/[else] clauses. *)
Definition attempt {A} (m : M A) : M (Result A) :=
  fun w => let '(r, w') := m w in (Ok r, w').

(** [try: m finally: fin] *)
Definition finally {A} (m : M A) (fin : M unit) : M A :=
  fun w =>
    let '(r, w1) := m w in
    match fin w1 with
    | (Ok _, w2) => (r, w2)
    | (Raise e, w2) => (Raise e, w2)
    end.

Definition log_debug (a : LogArg) : M unit :=
  fun w => (Ok tt, add_log {| l_level := DEBUG; l_fmt := "%s"; l_arg := a |} w).

Definition log_error (fmt : string) (a : LogArg) : M unit :=
  fun w => (Ok tt, add_log {| l_level := ERROR; l_fmt := fmt; l_arg := a |} w).

(** ** The driver *)

Definition syntax_error : Exn := Psycopg PgProgrammingError "syntax error".
Definition undefined_table : Exn := Psycopg PgProgrammingError "relation does not exist".
Definition closed_error : Exn := Psycopg PgInterfaceError "connection already closed".
Definition no_results : Exn := Psycopg PgProgrammingError "no results to fetch".

(** The effect of a well-formed statement on the session's rows.  The
    table is the one of the module documentation: [bank] and [psql_key]
    are [varchar(255)], and the data of the JSON plugin is jsonb. *)
Definition run_stmt (st : Stmt) (tbl : list Row) (w : World)
  : Result unit * World :=
  match st with
  | SCommit => (Ok tt, with_result None (with_committed tbl w))
  | SRollback => (Ok tt, with_result None (with_session (Some (w_committed w)) w))
  | SUpsert t b k d e =>
      if String.eqb t (w_relation w) then
        match varchar 255 b, varchar 255 k with
        | Some b', Some k' =>
            if lit_storable d then
              (Ok tt, with_result None (use_id (with_session
                 (Some (upsert_rows b' k' d e (w_clock w) (w_next_id w) tbl)) w)))
            else (Raise unsupported_escape, w)
        | _, _ => (Raise string_too_long, w)
        end
      else (Raise undefined_table, w)
  | SSelect p t c =>
      if String.eqb t (w_relation w) then
        match select_rows p c tbl with
        | Ok rows => (Ok tt, with_result (Some (Some rows)) w)
        | Raise e => (Raise e, w)
        end
      else (Raise undefined_table, w)
  | SDelete t c =>
      if String.eqb t (w_relation w) then
        (Ok tt, with_result None (with_session (Some (delete_rows c tbl)) w))
      else (Raise undefined_table, w)
  end.

(** [psycopg2.connect(...)] *)
Definition connect (o : Options) : M unit := fun w =>
  let '(rep, w) := next_reply (add_event (EConnect o) w) in
  match rep with
  | Fails e => (Raise e, w)
  | _ => (Ok tt, with_result None (with_session (Some (w_committed w)) w))
  end.

(** [cursor.execute(query)] *)
Definition execute (q : Query) : M unit := fun w =>
  let '(rep, w) := next_reply (tick (add_event (EExecute q) w)) in
  match w_session w with
  | None => (Raise closed_error, w)
  | Some tbl =>
      match rep with
      | Fails e => (Raise e, w)
      | Answers r => (Ok tt, with_result (Some r) w)
      | Normal =>
          match read_sql q with
          | Some st => run_stmt st tbl w
          | None => (Raise syntax_error, w)
          end
      end
  end.

(** [cursor.fetchall()] *)
Definition fetchall : M (option Rows) := fun w =>
  match w_result w with
  | Some r => (Ok r, w)
  | None => (Raise no_results, w)
  end.

(** [conn.close()]: what was not committed is gone. *)
Definition close : M unit := fun w =>
  (Ok tt, with_result None (with_session None (add_event EClose w))).

(** A world whose environment runs every coming call normally. *)
Definition calm (w : World) : Prop :=
  forall n, (w_calls w <= n)%nat -> w_script w n = Normal.

(** ** More builtins: text of a value, indexing, truth, uuid *)

Definition join (sep : string) (l : list string) : string :=
  match l with
  | [] => ""
  | x :: l' => fold_left (fun acc y => acc +:+ sep +:+ y) l' x
  end.

(** [repr(v)].  Exact for None, booleans, integers and uuids; the text of
    strings and bytes is shown between quotes without escapes. *)
Fixpoint py_repr (v : PyVal) : string :=
  match v with
  | VNone => "None"
  | VBool b => if b then "True" else "False"
  | VInt z => pretty z
  | VStr s => "'" +:+ s +:+ "'"
  | VBytes s => "b'" +:+ s +:+ "'"
  | VUUID n => "UUID('" +:+ uuid_text n +:+ "')"
  | VList l => "[" +:+ join ", " (py_repr <$> l) +:+ "]"
  | VTuple l => "(" +:+ join ", " (py_repr <$> l) +:+ ")"
  | VDict d =>
      "{" +:+ join ", " ((fun kv => match kv with
                                    | (k, x) => "'" +:+ k +:+ "': " +:+ py_repr x
                                    end) <$> d) +:+ "}"
  end.

(** [str(v)], the text an f-string interpolates. *)
Definition py_str (v : PyVal) : string :=
  match v with
  | VStr s => s
  | VUUID n => uuid_text n
  | _ => py_repr v
  end.

(** Truth of a value, as [not], [if] and [... if data else ...] test it. *)
Definition py_truthy (v : PyVal) : bool :=
  match v with
  | VNone => false
  | VBool b => b
  | VInt z => negb (z =? 0)%Z
  | VStr s | VBytes s => negb (String.eqb s "")
  | VUUID _ => true
  | VList l | VTuple l => match l with [] => false | _ => true end
  | VDict d => match d with [] => false | _ => true end
  end.

(** [v == 1] *)
Definition py_eq_one (v : PyVal) : bool :=
  match v with
  | VInt z => (z =? 1)%Z
  | VBool b => b
  | _ => false
  end.

(** [data[i][j]] on a list of row tuples. *)
Definition index2 (data : Rows) (i j : nat) : Result PyVal :=
  match data !! i with
  | None => Raise (IndexError "list index out of range")
  | Some row =>
      match row !! j with
      | None => Raise (IndexError "tuple index out of range")
      | Some v => Ok v
      end
  end.

(** [data[i][j]] where [data] may be [None]. *)
Definition subscript2 (data : option Rows) (i j : nat) : Result PyVal :=
  match data with
  | None => Raise (TypeError "'NoneType' object is not subscriptable")
  | Some rows => index2 rows i j
  end.

Definition hex_val (a : ascii) : option N :=
  let n := N_of_ascii a in
  if is_digit a then Some (n - 48)%N
  else if ((97 <=? n) && (n <=? 102))%N then Some (n - 87)%N
  else if ((65 <=? n) && (n <=? 70))%N then Some (n - 55)%N
  else None.

Fixpoint hex_number (s : string) (acc : N) : option N :=
  match s with
  | EmptyString => Some acc
  | String a s' =>
      match hex_val a with
      | Some d => hex_number s' (16 * acc + d)%N
      | None => None
      end
  end.

Fixpoint drop_hyphens (s : string) : string :=
  match s with
  | EmptyString => EmptyString
  | String a s' => if Ascii.eqb a "-" then drop_hyphens s' else String a (drop_hyphens s')
  end.

(** [uuid.UUID(v)]: hyphens are dropped and 32 hexadecimal digits are
    read.  (The urn: and brace forms that the library also accepts do not
    occur in what the server returns and are not read here.) *)
Definition py_UUID (v : PyVal) : Result PyVal :=
  match v with
  | VStr s =>
      let h := drop_hyphens s in
      if Nat.eqb (String.length h) 32 then
        match hex_number h 0 with
        | Some n => Ok (VUUID n)
        | None => Raise (ValueError "invalid literal for int() with base 16")
        end
      else Raise (ValueError "badly formed hexadecimal UUID string")
  | VNone => Raise (TypeError "one of the hex, bytes, bytes_le, fields, or int arguments must be given")
  | _ => Raise (AttributeError "object has no attribute 'replace'")
  end.

(** ** UTF-8 and base64 *)

(** Strict UTF-8 validity: [need] continuation bytes are still expected
    and the next one must lie in [lo..hi] (which excludes overlong forms,
    surrogates and code points above U+10FFFF). *)
Fixpoint utf8_scan (s : string) (need : nat) (lo hi : N) : bool :=
  match s with
  | EmptyString => Nat.eqb need 0
  | String a s' =>
      let n := N_of_ascii a in
      match need with
      | O =>
          if (n <? 128)%N then utf8_scan s' 0 128 191
          else if ((194 <=? n) && (n <=? 223))%N then utf8_scan s' 1 128 191
          else if (n =? 224)%N then utf8_scan s' 2 160 191
          else if (n =? 237)%N then utf8_scan s' 2 128 159
          else if ((225 <=? n) && (n <=? 239))%N then utf8_scan s' 2 128 191
          else if (n =? 240)%N then utf8_scan s' 3 144 191
          else if ((241 <=? n) && (n <=? 243))%N then utf8_scan s' 3 128 191
          else if (n =? 244)%N then utf8_scan s' 3 128 143
          else false
      | S k =>
          if ((lo <=? n) && (n <=? hi))%N then utf8_scan s' k 128 191 else false
      end
  end.

Definition utf8_valid (s : string) : bool := utf8_scan s 0 128 191.

(** [salt.utils.stringutils.to_str(data)] on a bytes value, with UTF-8 as
    the system encoding: the decoded text, or [UnicodeDecodeError]. *)
Definition to_str (v : PyVal) : Result PyVal :=
  match v with
  | VStr s => Ok (VStr s)
  | VBytes b =>
      if utf8_valid b then Ok (VStr b)
      else Raise (UnicodeDecodeError "'utf-8' codec can't decode bytes")
  | _ => Raise (TypeError "expected str, bytes, or bytearray")
  end.

Definition b64_char (n : N) : ascii :=
  if (n <? 26)%N then ascii_of_N (65 + n)
  else if (n <? 52)%N then ascii_of_N (71 + n)
  else if (n <? 62)%N then ascii_of_N (n - 4)
  else if (n =? 62)%N then "+"%char
  else "/"%char.

Definition b64_index (a : ascii) : option N :=
  let n := N_of_ascii a in
  if ((65 <=? n) && (n <=? 90))%N then Some (n - 65)%N
  else if ((97 <=? n) && (n <=? 122))%N then Some (n - 71)%N
  else if ((48 <=? n) && (n <=? 57))%N then Some (n + 4)%N
  else if (n =? 43)%N then Some 62%N
  else if (n =? 47)%N then Some 63%N
  else None.

(** [base64.b64encode] *)
Fixpoint b64encode (s : string) : string :=
  match s with
  | EmptyString => EmptyString
  | String a EmptyString =>
      let x := N_of_ascii a in
      String (b64_char (x / 4)) (String (b64_char ((x mod 4) * 16)) "==")
  | String a (String b EmptyString) =>
      let x := N_of_ascii a in
      let y := N_of_ascii b in
      String (b64_char (x / 4))
        (String (b64_char ((x mod 4) * 16 + y / 16))
           (String (b64_char ((y mod 16) * 4)) "="))
  | String a (String b (String c rest)) =>
      let x := N_of_ascii a in
      let y := N_of_ascii b in
      let z := N_of_ascii c in
      String (b64_char (x / 4))
        (String (b64_char ((x mod 4) * 16 + y / 16))
           (String (b64_char ((y mod 16) * 4 + z / 64))
              (String (b64_char (z mod 64)) (b64encode rest))))
  end%N.

(** [binascii.a2b_base64] in its default, lenient mode: characters
    outside the alphabet are skipped, a sufficient run of padding ends the
    input, and leftover sextets are an error.  [quad] counts the sextets
    of the current group, [left] holds the bits not yet written. *)
Fixpoint a2b_base64 (s : string) (quad : nat) (left : N) (pads : nat)
    (out : string) : Result string :=
  match s with
  | EmptyString =>
      if Nat.eqb quad 0 then Ok out
      else if Nat.eqb quad 1
           then Raise (BinasciiError "Invalid base64-encoded string")
           else Raise (BinasciiError "Incorrect padding")
  | String ch s' =>
      if Ascii.eqb ch "=" then
        if Nat.leb 2 quad then
          if Nat.leb 4 (quad + S pads) then Ok out
          else a2b_base64 s' quad left (S pads) out
        else a2b_base64 s' quad left pads out
      else
        match b64_index ch with
        | None => a2b_base64 s' quad left pads out
        | Some v =>
            match quad with
            | 0%nat => a2b_base64 s' 1 v 0 out
            | 1%nat =>
                a2b_base64 s' 2 (v mod 16)%N 0
                  (snoc out (ascii_of_N (left * 4 + v / 16)))
            | 2%nat =>
                a2b_base64 s' 3 (v mod 4)%N 0
                  (snoc out (ascii_of_N (left * 16 + v / 4)))
            | _ =>
                a2b_base64 s' 0 0%N 0 (snoc out (ascii_of_N (left * 64 + v)))
            end
        end
  end.

Fixpoint all_ascii7 (s : string) : bool :=
  match s with
  | EmptyString => true
  | String a s' => (N_of_ascii a <? 128)%N && all_ascii7 s'
  end.

(** [base64.b64decode(v)] *)
Definition b64decode (v : PyVal) : Result PyVal :=
  match v with
  | VStr s =>
      if all_ascii7 s then
        match a2b_base64 s 0 0 0 "" with
        | Ok b => Ok (VBytes b)
        | Raise e => Raise e
        end
      else Raise (ValueError "string argument should contain only ASCII characters")
  | VBytes s =>
      match a2b_base64 s 0 0 0 "" with
      | Ok b => Ok (VBytes b)
      | Raise e => Raise e
      end
  | _ => Raise (TypeError "argument should be a bytes-like object or ASCII string")
  end.

(** ** The JSON adapter *)

(** Whether [json.dumps] accepts the value. *)
Fixpoint json_ok (v : PyVal) : bool :=
  match v with
  | VBytes _ | VUUID _ => false
  | VList l | VTuple l => forallb json_ok l
  | VDict d => forallb (fun kv => match kv with (_, x) => json_ok x end) d
  | _ => true
  end.

(** What comes back when the JSON text is read again: tuples are lists. *)
Fixpoint json_norm (v : PyVal) : PyVal :=
  match v with
  | VList l | VTuple l => VList (json_norm <$> l)
  | VDict d => VDict ((fun kv => match kv with (k, x) => (k, json_norm x) end) <$> d)
  | _ => v
  end.

(** [psycopg2.extras.Json(data)] rendered into a query text. *)
Definition json_adapt (v : PyVal) : Result SqlLit :=
  if json_ok v then Ok (LJson (json_norm v))
  else Raise (TypeError "Object is not JSON serializable").

(** ** What the plugins share *)

Definition LF : string := String "010"%char "".

(** [copy.deepcopy(__opts__)] handed to a resolver: the host's options
    are read, never written. *)
Definition with_opts {A} (f : gmap string PyVal -> Result A) : M A :=
  fun w => (f (w_opts w), w).

(** The four diagnostic records [store] writes after the error itself. *)
Definition log_context (table : PyVal) (bank key : string) (data : SqlLit) : M unit :=
  log_error "table: %s" (AVal table);;
  log_error "bank: %s" (AText bank);;
  log_error "psql_key: %s" (AText key);;
  log_error "data: %s" (ALit data).

(** The records the read operations write on [IndexError]. *)
Definition log_miss (err : Exn) (table : PyVal) (bank key : string)
    (data : option Rows) : M unit :=
  log_error "%s" (AExn err);;
  log_error "table: %s" (AVal table);;
  log_error "bank: %s" (AText bank);;
  log_error "psql_key: %s" (AText key);;
  log_error "data: %s" (ARows data).

(** [tuple(_[0] for _ in data if len(_) == 1) if data else ()] *)
Definition first_of_singletons (data : option Rows) : PyVal :=
  match data with
  | Some (r :: rs) =>
      VTuple (omap (fun row => match row with [x] => Some x | _ => None end)
                (r :: rs))
  | _ => VTuple []
  end.

Definition nil_uuid_text : string := "00000000-0000-0000-0000-000000000000".

(** * The binary plugin, [_cache/pgbytea.py] *)

Module pgbytea.

Definition _get_options (opts : gmap string PyVal) : Result Options :=
  let '(host, opts) := dict_pop "cache.pgbytea.host" (VStr "127.0.0.1") opts in
  let '(user, opts) := dict_pop "cache.pgbytea.user" VNone opts in
  let '(passwd, opts) := dict_pop "cache.pgbytea.passwd" VNone opts in
  let '(password, opts) := dict_pop "cache.pgbytea.password" passwd opts in
  let '(database, opts) :=
    dict_pop "cache.pgbytea.database" (VStr _DEFAULT_DATABASE_NAME) opts in
  let '(dbname, opts) := dict_pop "cache.pgbytea.dbname" database opts in
  let '(table, opts) :=
    dict_pop "cache.pgbytea.table_name" (VStr _DEFAULT_TABLE_NAME) opts in
  let '(port, opts) := dict_pop "cache.pgbytea.port" (VInt 5432) opts in
  match py_int port with
  | Ok p =>
      Ok {| o_host := host; o_user := user; o_password := password;
            o_dbname := dbname; o_table := table; o_port := p |}
  | Raise e => Raise e
  end.

(** The context manager: [body] is the block under [with]; it receives
    the table name that is yielded with the cursor. *)
Definition _get_serv {A} (commit : bool) (body : PyVal -> M A) : M A :=
  _options ← with_opts _get_options;
  conn ← attempt (connect _options);
  match conn with
  | Raise exc =>
      if is_OperationalError exc
      then raise (SaltMasterError
                    ("pgjsonb cache could not connect to database: " +:+ exn_text exc))
      else raise exc
  | Ok _ =>
      finally
        (r ← attempt (body (o_table _options));
         match r with
         | Raise err =>
             if is_DatabaseError err then
               log_error "%s" (AExn err);;
               execute (qs "ROLLBACK");;
               raise err
             else raise err
         | Ok v =>
             (if commit then execute (qs "COMMIT") else execute (qs "ROLLBACK"));;
             mret v
         end)
        close
  end.

Section Codec.

(** The external codec, [salt.payload.dumps] and [salt.payload.loads]. *)
Variable dumps : PyVal -> Result string.
Variable loads : PyVal -> Result PyVal.

Definition store_query (table : PyVal) (bank key : string) (data : SqlLit) : Query :=
  qs "INSERT INTO " ++ qs (py_str table) ++ qs " (bank, psql_key, data)" ++ qs LF
  ++ qs "                    VALUES ('" ++ qs bank ++ qs "', '" ++ qs key ++ qs "', "
  ++ [Adapted data] ++ qs ")" ++ qs LF
  ++ qs "                    ON CONFLICT (bank, psql_key) DO UPDATE" ++ qs LF
  ++ qs "                      SET data = EXCLUDED.data".

Definition store (bank key : string) (data : PyVal) : M PyVal :=
  b ← lift (dumps data);
  let data := LBytea b in
  _get_serv true (fun table =>
    let query := store_query table bank key data in
    log_debug (AQuery query);;
    r ← attempt (execute query;; log_debug (AQuery query));
    match r with
    | Ok _ => mret tt
    | Raise err =>
        if is_TypeError err then
          log_error "%s" (AExn err);; log_context table bank key data
        else if is_IntegrityError err then
          log_error "%s" (AExn err);; log_context table bank key data
        else if is_DataError err then
          log_error "%s" (AExn err);; log_context table bank key data
        else if is_psycopg_Error err then
          log_error "%s" (AExn err);; log_context table bank key data
        else raise err
    end);;
  mret VNone.

Definition fetch_query (table : PyVal) (bank key : string) : Query :=
  qs "SELECT data FROM " ++ qs (py_str table) ++ qs LF
  ++ qs "                    WHERE bank='" ++ qs bank ++ qs "' AND psql_key='" ++ qs key ++ qs "'".

Definition fetch (bank key : string) : M PyVal :=
  _get_serv true (fun table =>
    let query := fetch_query table bank key in
    log_debug (AQuery query);;
    execute query;;
    data ← fetchall;
    log_debug (ARows data);;
    match data with
    | None => mret (VDict [])
    | Some rows =>
        r ← attempt (return_data ← lift (index2 rows 0 0);
                     return_data ← lift (loads return_data);
                     log_debug (AVal return_data);;
                     mret return_data);
        match r with
        | Ok v => mret v
        | Raise err =>
            if is_IndexError err then
              log_miss err table bank key data;; mret (VDict [])
            else raise err
        end
    end).

End Codec.

Definition flush_query (table : PyVal) (bank : string) (key : option string) : Query :=
  qs "DELETE FROM " ++ qs (py_str table) ++ qs " WHERE bank='" ++ qs bank ++ qs "'"
  ++ (if truthy_key key
      then qs " AND psql_key='" ++ qs (default "" key) ++ qs "'"
      else []).

Definition flush (bank : string) (key : option string) : M PyVal :=
  _get_serv true (fun table =>
    let query := flush_query table bank key in
    log_debug (AQuery query);;
    r ← attempt (execute query);
    match r with
    | Ok _ => mret (VBool true)
    | Raise err =>
        if is_psycopg_Error err then
          log_error "%s" (AExn err);;
          log_error "table: %s" (AVal table);;
          log_error "bank: %s" (AText bank);;
          log_error "psql_key: %s" (AKey key);;
          mret (VBool false)
        else raise err
    end).

Definition list_query (table : PyVal) (bank : string) : Query :=
  qs "SELECT psql_key FROM " ++ qs (py_str table) ++ qs " WHERE bank='"
  ++ qs bank ++ qs "'".

Definition list_ (bank : string) : M PyVal :=
  _get_serv true (fun table =>
    let query := list_query table bank in
    log_debug (AQuery query);;
    execute query;;
    data ← fetchall;
    mret (first_of_singletons data)).

Definition contains_query (table : PyVal) (bank key : string) : Query :=
  qs "SELECT COUNT(data) FROM " ++ qs (py_str table) ++ qs LF
  ++ qs "                    WHERE bank='" ++ qs bank ++ qs "' AND psql_key='" ++ qs key ++ qs "'".

Definition contains (bank key : string) : M PyVal :=
  _get_serv true (fun table =>
    let query := contains_query table bank key in
    log_debug (AQuery query);;
    execute query;;
    data ← fetchall;
    v ← lift (subscript2 data 0 0);
    mret (VBool (py_eq_one v))).

Definition updated_query (table : PyVal) (bank key : string) : Query :=
  qs "SELECT extract(epoch FROM data_changed)::int FROM " ++ qs (py_str table)
  ++ qs LF
  ++ qs "                    WHERE bank='" ++ qs bank ++ qs "' AND psql_key='" ++ qs key ++ qs "'".

Definition updated (bank key : string) : M PyVal :=
  _get_serv true (fun table =>
    let query := updated_query table bank key in
    log_debug (AQuery query);;
    execute query;;
    data ← fetchall;
    log_debug (ARows data);;
    match data with
    | None => mret (VInt 0)
    | Some rows =>
        r ← attempt (return_data ← lift (index2 rows 0 0);
                     log_debug (AVal return_data);;
                     mret return_data);
        match r with
        | Ok v => mret v
        | Raise err =>
            if is_IndexError err then
              log_miss err table bank key data;; mret (VInt 0)
            else raise err
        end
    end).

Definition id_query (table : PyVal) (bank key : string) : Query :=
  qs "SELECT id" ++ qs LF
  ++ qs "                    FROM " ++ qs (py_str table) ++ qs LF
  ++ qs "                    WHERE bank='" ++ qs bank ++ qs "' AND psql_key='" ++ qs key ++ qs "'".

Definition id_ (bank key : string) : M PyVal :=
  _get_serv true (fun table =>
    let query := id_query table bank key in
    log_debug (AQuery query);;
    execute query;;
    data ← fetchall;
    log_debug (ARows data);;
    match data with
    | None => lift (py_UUID (VStr nil_uuid_text))
    | Some rows =>
        r ← attempt (return_data ← lift (index2 rows 0 0);
                     log_debug (AVal return_data);;
                     lift (py_UUID return_data));
        match r with
        | Ok v => mret v
        | Raise err =>
            if is_IndexError err then
              log_miss err table bank key data;;
              lift (py_UUID (VStr nil_uuid_text))
            else raise err
        end
    end).

End pgbytea.

(** * The JSON plugin, [_cache/pgjsonb_encoded.py] *)

Module pgjsonb_encoded.

Definition _get_options (opts : gmap string PyVal) : Result Options :=
  let '(host, opts) := dict_pop "cache.pgjsonb_encoded.host" (VStr "127.0.0.1") opts in
  let '(user, opts) := dict_pop "cache.pgjsonb_encoded.user" VNone opts in
  let '(passwd, opts) := dict_pop "cache.pgjsonb_encoded.passwd" VNone opts in
  let '(password, opts) := dict_pop "cache.pgjsonb_encoded.password" passwd opts in
  let '(database, opts) :=
    dict_pop "cache.pgjsonb_encoded.database" (VStr _DEFAULT_DATABASE_NAME) opts in
  let '(dbname, opts) := dict_pop "cache.pgjsonb_encoded.dbname" database opts in
  let '(table, opts) :=
    dict_pop "cache.pgjsonb_encoded.table_name" (VStr _DEFAULT_TABLE_NAME) opts in
  let '(port, opts) := dict_pop "cache.pgjsonb_encoded.port" (VInt 5432) opts in
  match py_int port with
  | Ok p =>
      Ok {| o_host := host; o_user := user; o_password := password;
            o_dbname := dbname; o_table := table; o_port := p |}
  | Raise e => Raise e
  end.

(** The context manager; here only the cursor is yielded. *)
Definition _get_serv {A} (commit : bool) (body : M A) : M A :=
  _options ← with_opts _get_options;
  conn ← attempt (connect _options);
  match conn with
  | Raise exc =>
      if is_OperationalError exc
      then raise (SaltMasterError
                    ("pgjsonb_encoded cache could not connect to database: "
                     +:+ exn_text exc))
      else raise exc
  | Ok _ =>
      finally
        (r ← attempt body;
         match r with
         | Raise err =>
             if is_DatabaseError err then
               log_error "%s" (AExn err);;
               execute (qs "ROLLBACK");;
               raise err
             else raise err
         | Ok v =>
             (if commit then execute (qs "COMMIT") else execute (qs "ROLLBACK"));;
             mret v
         end)
        close
  end.

(** [table = _get_options()["table"]] *)
Definition get_table : M PyVal :=
  _options ← with_opts _get_options; mret (o_table _options).

(** The payload and flag [store] derives from its argument: bytes become
    their text when they decode, their base64 text otherwise. *)
Definition encode_payload (data : PyVal) : M (PyVal * bool) :=
  match data with
  | VBytes b =>
      r ← attempt (lift (to_str data));
      match r with
      | Ok text => mret (text, false)
      | Raise err =>
          if is_UnicodeDecodeError err
          then mret (VStr (b64encode b), true)
          else raise err
      end
  | _ => mret (data, false)
  end.

Definition store_query (table : PyVal) (bank key : string) (data : SqlLit)
    (encoded : bool) : Query :=
  qs "INSERT INTO " ++ qs (py_str table) ++ qs " (bank, psql_key, data, encoded)"
  ++ qs LF
  ++ qs "                    VALUES ('" ++ qs bank ++ qs "', '" ++ qs key ++ qs "', to_jsonb("
  ++ [Adapted data] ++ qs "::json), " ++ qs (py_str (VBool encoded)) ++ qs ")"
  ++ qs LF
  ++ qs "                    ON CONFLICT (bank, psql_key) DO UPDATE" ++ qs LF
  ++ qs "                      SET data = EXCLUDED.data," ++ qs LF
  ++ qs "                       encoded = EXCLUDED.encoded".

Definition store (bank key : string) (data : PyVal) : M PyVal :=
  table ← get_table;
  _get_serv true (
    '(data, encoded) ← encode_payload data;
    data ← lift (json_adapt data);
    let query := store_query table bank key data encoded in
    log_debug (AQuery query);;
    r ← attempt (execute query);
    match r with
    | Ok _ => mret tt
    | Raise err =>
        if is_IntegrityError err then
          log_error "%s" (AExn err);; log_context table bank key data
        else if is_DataError err then
          log_error "%s" (AExn err);; log_context table bank key data
        else if is_psycopg_Error err then
          log_error "%s" (AExn err);; log_context table bank key data
        else raise err
    end);;
  mret VNone.

Definition fetch_query (table : PyVal) (bank key : string) : Query :=
  qs "SELECT data, encoded" ++ qs LF
  ++ qs "                    FROM " ++ qs (py_str table) ++ qs LF
  ++ qs "                    WHERE bank='" ++ qs bank ++ qs "' AND psql_key='" ++ qs key ++ qs "'".

(** [data[0][0] if not data[0][1] else base64.b64decode(data[0][0])] *)
Definition decode_row (rows : Rows) : Result PyVal :=
  match index2 rows 0 1 with
  | Raise e => Raise e
  | Ok flag =>
      if negb (py_truthy flag) then index2 rows 0 0
      else match index2 rows 0 0 with
           | Raise e => Raise e
           | Ok d => b64decode d
           end
  end.

Definition fetch (bank key : string) : M PyVal :=
  table ← get_table;
  _get_serv true (
    let query := fetch_query table bank key in
    log_debug (AQuery query);;
    execute query;;
    data ← fetchall;
    log_debug (ARows data);;
    match data with
    | None => mret (VDict [])
    | Some rows =>
        r ← attempt (return_data ← lift (decode_row rows);
                     log_debug (AVal return_data);;
                     mret return_data);
        match r with
        | Ok v => mret v
        | Raise err =>
            if is_IndexError err then
              log_miss err table bank key data;; mret (VDict [])
            else raise err
        end
    end).

Definition flush_query (table : PyVal) (bank : string) (key : option string) : Query :=
  qs "DELETE FROM " ++ qs (py_str table) ++ qs LF
  ++ qs "                    WHERE bank='" ++ qs bank ++ qs "'"
  ++ (if truthy_key key
      then qs " AND psql_key='" ++ qs (default "" key) ++ qs "'"
      else []).

Definition flush (bank : string) (key : option string) : M PyVal :=
  table ← get_table;
  _get_serv true (
    let query := flush_query table bank key in
    log_debug (AQuery query);;
    r ← attempt (execute query);
    match r with
    | Ok _ => mret (VBool true)
    | Raise err =>
        if is_psycopg_Error err then
          log_error "%s" (AExn err);;
          log_error "table: %s" (AVal table);;
          log_error "bank: %s" (AText bank);;
          log_error "psql_key: %s" (AKey key);;
          mret (VBool false)
        else raise err
    end).

Definition list_query (table : PyVal) (bank : string) : Query :=
  qs "SELECT psql_key" ++ qs LF
  ++ qs "                    FROM " ++ qs (py_str table) ++ qs LF
  ++ qs "                    WHERE bank='" ++ qs bank ++ qs "'".

Definition list_ (bank : string) : M PyVal :=
  table ← get_table;
  _get_serv true (
    let query := list_query table bank in
    log_debug (AQuery query);;
    execute query;;
    data ← fetchall;
    mret (first_of_singletons data)).

Definition contains_query (table : PyVal) (bank key : string) : Query :=
  qs "SELECT COUNT(data)" ++ qs LF
  ++ qs "                    FROM " ++ qs (py_str table) ++ qs LF
  ++ qs "                    WHERE bank='" ++ qs bank ++ qs "' AND psql_key='" ++ qs key ++ qs "'".

Definition contains (bank key : string) : M PyVal :=
  table ← get_table;
  _get_serv true (
    let query := contains_query table bank key in
    log_debug (AQuery query);;
    execute query;;
    data ← fetchall;
    v ← lift (subscript2 data 0 0);
    mret (VBool (py_eq_one v))).

Definition updated_query (table : PyVal) (bank key : string) : Query :=
  qs "SELECT extract(epoch FROM data_changed)::int" ++ qs LF
  ++ qs "                    FROM " ++ qs (py_str table) ++ qs LF
  ++ qs "                    WHERE bank='" ++ qs bank ++ qs "' AND psql_key='" ++ qs key ++ qs "'".

Definition updated (bank key : string) : M PyVal :=
  table ← get_table;
  _get_serv true (
    let query := updated_query table bank key in
    log_debug (AQuery query);;
    execute query;;
    data ← fetchall;
    log_debug (ARows data);;
    match data with
    | None => mret (VInt 0)
    | Some rows =>
        r ← attempt (return_data ← lift (index2 rows 0 0);
                     log_debug (AVal return_data);;
                     mret return_data);
        match r with
        | Ok v => mret v
        | Raise err =>
            if is_IndexError err then
              log_miss err table bank key data;; mret (VInt 0)
            else raise err
        end
    end).

End pgjsonb_encoded.

(** * The walk of the CIFS fileserver, [_fileserver/cifs_roots.py] *)

Module cifs_roots.

Section Walk.

(** [os.path.isdir] and [os.path.join], as the operating system answers
    them while one directory is visited. *)
Variable isdir : string -> bool.
Variable path_join : string -> string -> string.

(** The [while i >= 0] loop of [_os_walk] with [n = i + 1]: entry [i] of
    [files] is taken out and appended to [dirs] when it names a
    directory; indexing past the end raises [IndexError]. *)
Fixpoint sweep (cwd : string) (n : nat) (dirs files : list string)
  : Result (list string * list string) :=
  match n with
  | O => Ok (dirs, files)
  | S i =>
      match files !! i with
      | None => Raise (IndexError "list index out of range")
      | Some name =>
          if isdir (path_join cwd name)
          then sweep cwd i (dirs ++ [name]) (delete i files)
          else sweep cwd i dirs files
      end
  end.

(** What [_os_walk] does to one [(cwd, dirs, files)] of [os.walk]
    before it yields it: [i = len(files) - 1] and the loop. *)
Definition sweep_entry (cwd : string) (dirs files : list string)
  : Result (list string * list string) :=
  sweep cwd (length files) dirs files.

End Walk.

End cifs_roots.

(** * Predicates and specifications used by the theorems *)

(** A text without the single-quote character: the only texts the
    interpolated [WHERE bank='...'] keeps inside its quotes. *)
Fixpoint quote_free (s : string) : bool :=
  match s with
  | EmptyString => true
  | String a s' => negb (is_quote a) && quote_free s'
  end.

Fixpoint word_chars (s : string) : bool :=
  match s with
  | EmptyString => true
  | String a s' => is_word a && word_chars s'
  end.

(** A table name the reader takes as one word. *)
Definition is_ident (s : string) : bool :=
  match s with
  | EmptyString => false
  | String _ _ => word_chars s
  end.

(** The pieces a query text is assembled from. *)
Inductive frag : Type :=
| FText (s : string)      (* literal text of the f-string *)
| FIdent (s : string)     (* an interpolated identifier *)
| FQuoted (s : string)    (* an interpolated text between quotes *)
| FLit (l : SqlLit).      (* an adapted value *)

Definition render (f : frag) : Query :=
  match f with
  | FText s | FIdent s | FQuoted s => qs s
  | FLit l => [Adapted l]
  end.

Fixpoint flatten (fs : list frag) : Query :=
  match fs with
  | [] => []
  | f :: fs' => render f ++ flatten fs'
  end.

Definition frag_ok (f : frag) : bool :=
  match f with
  | FText _ | FLit _ => true
  | FIdent s => is_ident s
  | FQuoted s => quote_free s
  end.

(** The lexer run piece by piece: literal text is lexed, an identifier
    or a quoted text is taken whole. *)
Definition sym_step (st : lstate) (f : frag) : option (list token * lstate) :=
  match f with
  | FText s => lex_run st (qs s)
  | FLit l => lex_run st [Adapted l]
  | FIdent s =>
      match st with
      | Idle => Some ([], InWord s)
      | InWord acc => Some ([], InWord (acc +:+ s))
      | _ => None
      end
  | FQuoted s =>
      match st with
      | InStr acc => Some ([], InStr (acc +:+ s))
      | _ => None
      end
  end.

Fixpoint sym_run (st : lstate) (fs : list frag) : option (list token * lstate) :=
  match fs with
  | [] => Some ([], st)
  | f :: fs' =>
      '(ts, st') ← sym_step st f;
      '(ts', st'') ← sym_run st' fs';
      Some (ts ++ ts', st'')
  end.

Definition sym_read (fs : list frag) : option Stmt :=
  '(ts, st) ← sym_run Idle fs;
  ts' ← lex_finish st;
  parse (ts ++ ts').

(** No two rows share a (bank, key) pair: the primary key. *)
Definition row_key (r : Row) : string * string := (r_bank r, r_key r).

Definition unique_keys (rows : list Row) : Prop := NoDup (row_key <$> rows).

(** A world in which a plugin finds its options resolved to [o], its
    table [t] present, and an environment that runs every call. *)
Definition ready (resolve : gmap string PyVal -> Result Options)
    (o : Options) (t : string) (w : World) : Prop :=
  resolve (w_opts w) = Ok o /\ o_table o = VStr t /\ is_ident t = true /\
  w_relation w = t /\ calm w.

(** The tuple [list] is documented to build: the first element of each
    row of length one. *)
Definition singleton_firsts (rows : Rows) : list PyVal :=
  (fun row => nth 0 row VNone)
    <$> List.filter (fun row => Nat.eqb (length row) 1) rows.

(** The descriptor the resolver is documented to produce from the
    options with prefix [pre] and the port [p]. *)
Definition resolved (pre : string) (opts : gmap string PyVal) (p : Z) : Options :=
  {| o_host := opt_or opts (pre +:+ "host") (VStr "127.0.0.1");
     o_user := opt_or opts (pre +:+ "user") VNone;
     o_password := opt_or opts (pre +:+ "password")
                     (opt_or opts (pre +:+ "passwd") VNone);
     o_dbname := opt_or opts (pre +:+ "dbname")
                   (opt_or opts (pre +:+ "database") (VStr "salt_cache"));
     o_table := opt_or opts (pre +:+ "table_name") (VStr "salt_cache");
     o_port := p |}.

(** The payload and flag the JSON plugin is documented to store: bytes
    that are not valid UTF-8 as base64 text with the flag set, other
    bytes as their text, anything else as it is. *)
Definition payload_of (v : PyVal) : PyVal * bool :=
  match v with
  | VBytes b =>
      if utf8_valid b then (VStr b, false) else (VStr (b64encode b), true)
  | _ => (v, false)
  end.

(** The row an update in place leaves: same key and id, new payload. *)
Definition updated_row (r : Row) (d : SqlLit) (e : option bool) (now : Z) : Row :=
  {| r_bank := r_bank r; r_key := r_key r; r_data := Some d;
     r_encoded := default (r_encoded r) e; r_id := r_id r;
     r_changed := if data_distinct (r_data r) d then now else r_changed r |}.

(** The world a successful connect leaves. *)
Definition opened (o : Options) (w : World) : World :=
  with_result None (with_session (Some (w_committed w))
                      (count_call (add_event (EConnect o) w))).

(** The world just after a statement was handed to the server. *)
Definition sent (q : Query) (w : World) : World :=
  count_call (tick (add_event (EExecute q) w)).

Definition closed (w : World) : World :=
  with_result None (with_session None (add_event EClose w)).

(** The world after a sequence of [store] calls. *)
Fixpoint store_all (store : string -> string -> PyVal -> M PyVal)
    (calls : list (string * string * PyVal)) (w : World) : World :=
  match calls with
  | [] => w
  | (bank, key, v) :: calls' => store_all store calls' (snd (store bank key v w))
  end.

Definition error_record (err : Exn) : LogRec :=
  {| l_level := ERROR; l_fmt := "%s"; l_arg := AExn err |}.


(** The error and its context as [store] logs them. *)
Definition store_diagnostics (err : Exn) (table : PyVal) (bank key : string)
    (data : SqlLit) : list LogRec :=
  [ error_record err;
    {| l_level := ERROR; l_fmt := "table: %s"; l_arg := AVal table |};
    {| l_level := ERROR; l_fmt := "bank: %s"; l_arg := AText bank |};
    {| l_level := ERROR; l_fmt := "psql_key: %s"; l_arg := AText key |};
    {| l_level := ERROR; l_fmt := "data: %s"; l_arg := ALit data |} ].

Definition debug_record (q : Query) : LogRec :=
  {| l_level := DEBUG; l_fmt := "%s"; l_arg := AQuery q |}.



(** ** Notions used by the further properties *)


(** The outcome of an operation whose scope ends with a COMMIT or a
    ROLLBACK that the server answers with [reply]: the error of that
    call when it raises, and [r] otherwise. *)
Definition after_reply {A} (reply : Reply) (r : Result A) : Result A :=
  match reply with
  | Fails e => Raise e
  | _ => r
  end.

(** A call of [store] whose bank and key the statement can carry and the
    columns can take: no single quote, at most 255 characters. *)
Definition well_keyed (c : string * string * PyVal) : bool :=
  match c with
  | (bank, key, _) =>
      quote_free bank && quote_free key && fits bank && fits key
  end.

(** The pair under which the table keeps a row stored for a bank and a
    key: the two texts as the [varchar(255)] columns take them, if they
    do. *)
Definition stored_under (bank key : string) : option (string * string) :=
  match varchar 255 bank, varchar 255 key with
  | Some b, Some k => Some (b, k)
  | _, _ => None
  end.

(** The rows after the INSERT of [store]: the upsert when the columns
    take the values, the rows as they were when the server refuses
    them. *)
Definition stored_rows (bank key : string) (d : SqlLit) (e : option bool)
    (now : Z) (fresh : N) (rows : list Row) : list Row :=
  match stored_under bank key with
  | Some (b, k) =>
      if lit_storable d then upsert_rows b k d e now fresh rows else rows
  | None => rows
  end.

(** The driver calls of an operation that ran to its end: connect, one
    statement, COMMIT, close. *)
Definition round_trip (o : Options) (q : Query) : list Event :=
  [EConnect o; EExecute q; EExecute (qs "COMMIT"); EClose].

(** The rows under a (bank, key) pair, and the rows of a bank. *)
Definition rows_at (bank key : string) (rows : list Row) : list Row :=
  List.filter (same_key bank key) rows.

Definition rows_of (bank : string) (rows : list Row) : list Row :=
  List.filter (fun r => String.eqb (r_bank r) bank) rows.

(** The rows of the table under the pair of a call of [store]. *)
Definition rows_of_call (c : string * string * PyVal) (rows : list Row) : list Row :=
  match c with
  | (bank, key, _) => rows_at bank key rows
  end.

(** What [fetch] of the binary plugin makes of the rows found under a
    pair: the empty mapping when there is none, otherwise the first
    row's payload decoded, an [IndexError] of the decoder counting as a
    miss. *)
Definition bytea_fetched (loads : PyVal -> Result PyVal) (hits : list Row)
  : Result PyVal :=
  match hits with
  | [] => Ok (VDict [])
  | r :: _ =>
      match loads (py_of_data (r_data r)) with
      | Ok v => Ok v
      | Raise e => if is_IndexError e then Ok (VDict []) else Raise e
      end
  end.

(** The same for the JSON plugin: the column as it is, or its base64
    decoding when the row is flagged. *)
Definition jsonb_fetched (hits : list Row) : Result PyVal :=
  match hits with
  | [] => Ok (VDict [])
  | r :: _ =>
      if r_encoded r then
        match b64decode (py_of_data (r_data r)) with
        | Ok v => Ok v
        | Raise e => if is_IndexError e then Ok (VDict []) else Raise e
        end
      else Ok (py_of_data (r_data r))
  end.

(** The records a read operation writes when no row is found. *)
Definition miss_records (q : Query) (table : PyVal) (bank key : string)
  : list LogRec :=
  [ debug_record q;
    {| l_level := DEBUG; l_fmt := "%s"; l_arg := ARows (Some []) |};
    error_record (IndexError "list index out of range");
    {| l_level := ERROR; l_fmt := "table: %s"; l_arg := AVal table |};
    {| l_level := ERROR; l_fmt := "bank: %s"; l_arg := AText bank |};
    {| l_level := ERROR; l_fmt := "psql_key: %s"; l_arg := AText key |};
    {| l_level := ERROR; l_fmt := "data: %s"; l_arg := ARows (Some []) |} ].

(** A text without hyphens. *)
Fixpoint hyphen_free (s : string) : bool :=
  match s with
  | EmptyString => true
  | String a s' => negb (Ascii.eqb a "-") && hyphen_free s'
  end.

(** The committed rows are [rows], and so are the rows an open
    connection sees: nothing is pending. *)
Definition untouched (rows : list Row) (w : World) : Prop :=
  w_committed w = rows /\ forall tbl, w_session w = Some tbl -> tbl = rows.

(** Code that leaves the rows alone, whatever the environment answers. *)
Definition frames {A} (rows : list Row) (m : M A) : Prop :=
  forall w, untouched rows w -> untouched rows (snd (m w)).

(** A query the server does not read as an INSERT or a DELETE. *)
Definition reads_only (q : Query) : bool :=
  match read_sql q with
  | Some (SUpsert _ _ _ _ _) | Some (SDelete _ _) => false
  | _ => true
  end.

(** The names of the options a resolver with prefix [pre] reads. *)
Definition own_options (pre : string) : list string :=
  (fun name => pre +:+ name)
    <$> ["host"; "user"; "password"; "passwd"; "dbname"; "database";
         "table_name"; "port"].

(** ** Concrete worlds and a small codec, for examples *)

Definition script_of (l : list Reply) : nat -> Reply := fun n => nth n l Normal.

(** A world with the table [salt_cache] holding [rows], the options
    [opts], no open connection and the coming answers [replies]. *)
Definition world_of (opts : gmap string PyVal) (rows : list Row)
    (replies : list Reply) : World :=
  {| w_opts := opts; w_relation := "salt_cache"; w_committed := rows;
     w_session := None; w_result := None; w_script := script_of replies;
     w_calls := 0; w_trace := []; w_log := []; w_clock := 1700000000;
     w_next_id := 1 |}.

Definition default_options : Options :=
  {| o_host := VStr "127.0.0.1"; o_user := VNone; o_password := VNone;
     o_dbname := VStr "salt_cache"; o_table := VStr "salt_cache";
     o_port := 5432 |}.

(** A codec that serializes text values as their bytes and nothing else. *)
Definition text_dumps (v : PyVal) : Result string :=
  match v with
  | VStr s => Ok s
  | _ => Raise (CodecError "not serializable")
  end.

Definition text_loads (v : PyVal) : Result PyVal :=
  match v with
  | VBytes s => Ok (VStr s)
  | _ => Raise (CodecError "not deserializable")
  end.

Definition a_row (bank key : string) (data : SqlLit) : Row :=
  {| r_bank := bank; r_key := key; r_data := Some data; r_encoded := false;
     r_id := 0; r_changed := 1600000000 |}.

(** The bytes [b"\xff\xfe\x00"]. *)
Definition ff_fe_00 : string :=
  String "255"%char (String "254"%char (String "000"%char "")).

(** * Lemmas on strings and on the reader *)

Lemma append_cons (x : ascii) (a b : string) :
  String x a +:+ b = String x (a +:+ b).
Proof. reflexivity. Qed.

Lemma append_nil_l (a : string) : "" +:+ a = a.
Proof. reflexivity. Qed.

Lemma append_assoc (a b c : string) : (a +:+ b) +:+ c = a +:+ (b +:+ c).
Proof.
  induction a as [|x a IH]; [reflexivity|].
  rewrite !append_cons. f_equal. exact IH.
Qed.

Lemma append_nil_r (a : string) : a +:+ "" = a.
Proof.
  induction a as [|x a IH]; [reflexivity|].
  rewrite append_cons. f_equal. exact IH.
Qed.

Lemma snoc_append (acc : string) (a : ascii) (s : string) :
  snoc acc a +:+ s = acc +:+ String a s.
Proof. unfold snoc. by rewrite append_assoc. Qed.

Lemma qs_append (a b : string) : qs (a +:+ b) = qs a ++ qs b.
Proof.
  induction a as [|x a IH]; [reflexivity|].
  rewrite append_cons. simpl. f_equal. exact IH.
Qed.

Lemma word_not_space (a : ascii) : is_word a = true -> is_space a = false.
Proof. destruct a as [[] [] [] [] [] [] [] []]; vm_compute; congruence. Qed.

Lemma word_not_quote (a : ascii) : is_word a = true -> is_quote a = false.
Proof. destruct a as [[] [] [] [] [] [] [] []]; vm_compute; congruence. Qed.

Lemma lex_run_app (st : lstate) (q1 q2 : Query) :
  lex_run st (q1 ++ q2) =
  '(t1, s1) ← lex_run st q1; '(t2, s2) ← lex_run s1 q2; Some (t1 ++ t2, s2).
Proof.
  revert st. induction q1 as [|c q1 IH]; intros st; simpl.
  - destruct (lex_run st q2) as [[t2 s2]|]; reflexivity.
  - destruct (lex_step st c) as [[ts st']|]; simpl; [|reflexivity].
    rewrite IH. destruct (lex_run st' q1) as [[t1 s1]|]; simpl; [|reflexivity].
    destruct (lex_run s1 q2) as [[t2 s2]|]; simpl; [|reflexivity].
    by rewrite app_assoc.
Qed.

Lemma lex_run_quoted (s acc : string) :
  quote_free s = true -> lex_run (InStr acc) (qs s) = Some ([], InStr (acc +:+ s)).
Proof.
  revert acc. induction s as [|a s IH]; intros acc H; simpl in *.
  - by rewrite append_nil_r.
  - apply andb_true_iff in H as [Ha Hs]. apply negb_true_iff in Ha.
    rewrite Ha. simpl. rewrite (IH _ Hs). simpl. by rewrite snoc_append.
Qed.

Lemma lex_run_word (s acc : string) :
  word_chars s = true -> lex_run (InWord acc) (qs s) = Some ([], InWord (acc +:+ s)).
Proof.
  revert acc. induction s as [|a s IH]; intros acc H; simpl in *.
  - by rewrite append_nil_r.
  - apply andb_true_iff in H as [Ha Hs].
    rewrite Ha. simpl. rewrite (IH _ Hs). simpl. by rewrite snoc_append.
Qed.

Lemma lex_run_ident (s : string) :
  is_ident s = true -> lex_run Idle (qs s) = Some ([], InWord s).
Proof.
  destruct s as [|a s]; [discriminate|]. intros H. simpl in H.
  apply andb_true_iff in H as [Ha Hs].
  change (qs (String a s)) with (Ch a :: qs s). cbn [lex_run lex_step lex_start].
  rewrite (word_not_space _ Ha), Ha. simpl. by rewrite (lex_run_word _ _ Hs).
Qed.

Lemma sym_step_sound (st : lstate) (f : frag) r :
  frag_ok f = true -> sym_step st f = Some r -> lex_run st (render f) = Some r.
Proof.
  destruct f as [s|s|s|l]; simpl; intros Hok H; try exact H.
  - destruct st as [|acc|acc|acc]; try discriminate; inversion H; subst.
    + by apply lex_run_ident.
    + apply lex_run_word. destruct s; [reflexivity | exact Hok].
  - destruct st as [|acc|acc|acc]; try discriminate; inversion H; subst.
    by apply lex_run_quoted.
Qed.

Lemma sym_run_sound (fs : list frag) (st : lstate) r :
  forallb frag_ok fs = true -> sym_run st fs = Some r ->
  lex_run st (flatten fs) = Some r.
Proof.
  revert st r. induction fs as [|f fs IH]; intros st r Hok H; simpl in *.
  - exact H.
  - apply andb_true_iff in Hok as [Hf Hfs]. rewrite lex_run_app.
    destruct (sym_step st f) as [[ts st']|] eqn:E; simpl in H; [|discriminate].
    rewrite (sym_step_sound _ _ _ Hf E). simpl.
    destruct (sym_run st' fs) as [[ts' st'']|] eqn:E'; simpl in H; [|discriminate].
    rewrite (IH _ _ Hfs E'). simpl. exact H.
Qed.

(** Reading an assembled query is reading its pieces. *)
Lemma sym_read_sound (fs : list frag) (st : Stmt) :
  forallb frag_ok fs = true -> sym_read fs = Some st ->
  read_sql (flatten fs) = Some st.
Proof.
  unfold sym_read, read_sql, lex. intros Hok H.
  destruct (sym_run Idle fs) as [[ts s]|] eqn:E; simpl in H; [|discriminate].
  rewrite (sym_run_sound _ _ _ Hok E). simpl.
  destruct (lex_finish s) as [ts'|]; simpl in *; [exact H | discriminate].
Qed.

(** ** The reader on the queries the plugins build *)

Ltac read_pieces fs :=
  match goal with
  | |- read_sql ?q = Some ?st =>
      change q with (flatten fs); apply sym_read_sound
  end.

Lemma read_commit : read_sql (qs "COMMIT") = Some SCommit.
Proof. reflexivity. Qed.

Lemma read_rollback : read_sql (qs "ROLLBACK") = Some SRollback.
Proof. reflexivity. Qed.

Lemma read_bytea_store (t bank key : string) (d : string) :
  is_ident t = true ->
  quote_free bank = true ->
  quote_free key = true ->
  read_sql (pgbytea.store_query (VStr t) bank key (LBytea d)) = Some (SUpsert t bank key (LBytea d) None).
Proof.
  intros H0 H1 H2.
  read_pieces
    [FText "INSERT INTO "; FIdent t; FText " (bank, psql_key, data)"; FText LF;
     FText "                    VALUES ('"; FQuoted bank; FText "', '"; FQuoted key;
     FText "', "; FLit (LBytea d); FText ")"; FText LF;
     FText "                    ON CONFLICT (bank, psql_key) DO UPDATE"; FText LF;
     FText "                      SET data = EXCLUDED.data"].
  - cbn [forallb frag_ok]. by rewrite H0, H1, H2.
  - vm_compute. reflexivity.
Qed.

Lemma read_bytea_fetch (t bank key : string) :
  is_ident t = true ->
  quote_free bank = true ->
  quote_free key = true ->
  read_sql (pgbytea.fetch_query (VStr t) bank key) = Some (SSelect PData t [(CBank, bank); (CKey, key)]).
Proof.
  intros H0 H1 H2.
  read_pieces
    [FText "SELECT data FROM "; FIdent t; FText LF;
     FText "                    WHERE bank='"; FQuoted bank;
     FText "' AND psql_key='"; FQuoted key; FText "'"].
  - cbn [forallb frag_ok]. by rewrite H0, H1, H2.
  - vm_compute. reflexivity.
Qed.

Lemma read_bytea_flush_bank (t bank : string) (key : option string) :
  is_ident t = true ->
  quote_free bank = true ->
  truthy_key key = false ->
  read_sql (pgbytea.flush_query (VStr t) bank key) = Some (SDelete t [(CBank, bank)]).
Proof.
  intros H0 H1 H2. unfold pgbytea.flush_query. rewrite H2.
  read_pieces
    [FText "DELETE FROM "; FIdent t; FText " WHERE bank='"; FQuoted bank; FText "'"].
  - cbn [forallb frag_ok]. by rewrite H0, H1.
  - vm_compute. reflexivity.
Qed.

Lemma read_bytea_flush_key (t bank : string) (a : ascii) (k : string) :
  is_ident t = true ->
  quote_free bank = true ->
  quote_free (String a k) = true ->
  read_sql (pgbytea.flush_query (VStr t) bank (Some (String a k))) = Some (SDelete t [(CBank, bank); (CKey, String a k)]).
Proof.
  intros H0 H1 H2.
  read_pieces
    [FText "DELETE FROM "; FIdent t; FText " WHERE bank='"; FQuoted bank; FText "'";
     FText " AND psql_key='"; FQuoted (String a k); FText "'"].
  - cbn [forallb frag_ok]. by rewrite H0, H1, H2.
  - vm_compute. reflexivity.
Qed.

Lemma read_bytea_list (t bank : string) :
  is_ident t = true ->
  quote_free bank = true ->
  read_sql (pgbytea.list_query (VStr t) bank) = Some (SSelect PKey t [(CBank, bank)]).
Proof.
  intros H0 H1.
  read_pieces
    [FText "SELECT psql_key FROM "; FIdent t; FText " WHERE bank='"; FQuoted bank;
     FText "'"].
  - cbn [forallb frag_ok]. by rewrite H0, H1.
  - vm_compute. reflexivity.
Qed.

Lemma read_bytea_contains (t bank key : string) :
  is_ident t = true ->
  quote_free bank = true ->
  quote_free key = true ->
  read_sql (pgbytea.contains_query (VStr t) bank key) = Some (SSelect PCountData t [(CBank, bank); (CKey, key)]).
Proof.
  intros H0 H1 H2.
  read_pieces
    [FText "SELECT COUNT(data) FROM "; FIdent t; FText LF;
     FText "                    WHERE bank='"; FQuoted bank;
     FText "' AND psql_key='"; FQuoted key; FText "'"].
  - cbn [forallb frag_ok]. by rewrite H0, H1, H2.
  - vm_compute. reflexivity.
Qed.

Lemma read_bytea_updated (t bank key : string) :
  is_ident t = true ->
  quote_free bank = true ->
  quote_free key = true ->
  read_sql (pgbytea.updated_query (VStr t) bank key) = Some (SSelect PEpoch t [(CBank, bank); (CKey, key)]).
Proof.
  intros H0 H1 H2.
  read_pieces
    [FText "SELECT extract(epoch FROM data_changed)::int FROM "; FIdent t; FText LF;
     FText "                    WHERE bank='"; FQuoted bank;
     FText "' AND psql_key='"; FQuoted key; FText "'"].
  - cbn [forallb frag_ok]. by rewrite H0, H1, H2.
  - vm_compute. reflexivity.
Qed.

Lemma read_bytea_id (t bank key : string) :
  is_ident t = true ->
  quote_free bank = true ->
  quote_free key = true ->
  read_sql (pgbytea.id_query (VStr t) bank key) = Some (SSelect PId t [(CBank, bank); (CKey, key)]).
Proof.
  intros H0 H1 H2.
  read_pieces
    [FText "SELECT id"; FText LF; FText "                    FROM "; FIdent t; FText LF;
     FText "                    WHERE bank='"; FQuoted bank;
     FText "' AND psql_key='"; FQuoted key; FText "'"].
  - cbn [forallb frag_ok]. by rewrite H0, H1, H2.
  - vm_compute. reflexivity.
Qed.

Lemma read_jsonb_store (t bank key : string) (v : PyVal) (e : bool) :
  is_ident t = true ->
  quote_free bank = true ->
  quote_free key = true ->
  read_sql (pgjsonb_encoded.store_query (VStr t) bank key (LJson v) e) = Some (SUpsert t bank key (LJson v) (Some e)).
Proof.
  intros H0 H1 H2.
  read_pieces
    [FText "INSERT INTO "; FIdent t; FText " (bank, psql_key, data, encoded)";
     FText LF;
     FText "                    VALUES ('"; FQuoted bank; FText "', '"; FQuoted key;
     FText "', to_jsonb("; FLit (LJson v); FText "::json), ";
     FText (py_str (VBool e)); FText ")"; FText LF;
     FText "                    ON CONFLICT (bank, psql_key) DO UPDATE"; FText LF;
     FText "                      SET data = EXCLUDED.data,"; FText LF;
     FText "                       encoded = EXCLUDED.encoded"].
  - cbn [forallb frag_ok]. by rewrite H0, H1, H2.
  - destruct e; vm_compute; reflexivity.
Qed.

Lemma read_jsonb_fetch (t bank key : string) :
  is_ident t = true ->
  quote_free bank = true ->
  quote_free key = true ->
  read_sql (pgjsonb_encoded.fetch_query (VStr t) bank key) = Some (SSelect PDataEncoded t [(CBank, bank); (CKey, key)]).
Proof.
  intros H0 H1 H2.
  read_pieces
    [FText "SELECT data, encoded"; FText LF; FText "                    FROM "; FIdent t; FText LF;
     FText "                    WHERE bank='"; FQuoted bank;
     FText "' AND psql_key='"; FQuoted key; FText "'"].
  - cbn [forallb frag_ok]. by rewrite H0, H1, H2.
  - vm_compute. reflexivity.
Qed.

Lemma read_jsonb_flush_bank (t bank : string) (key : option string) :
  is_ident t = true ->
  quote_free bank = true ->
  truthy_key key = false ->
  read_sql (pgjsonb_encoded.flush_query (VStr t) bank key) = Some (SDelete t [(CBank, bank)]).
Proof.
  intros H0 H1 H2. unfold pgjsonb_encoded.flush_query. rewrite H2.
  read_pieces
    [FText "DELETE FROM "; FIdent t; FText LF;
     FText "                    WHERE bank='"; FQuoted bank; FText "'"].
  - cbn [forallb frag_ok]. by rewrite H0, H1.
  - vm_compute. reflexivity.
Qed.

Lemma read_jsonb_flush_key (t bank : string) (a : ascii) (k : string) :
  is_ident t = true ->
  quote_free bank = true ->
  quote_free (String a k) = true ->
  read_sql (pgjsonb_encoded.flush_query (VStr t) bank (Some (String a k))) = Some (SDelete t [(CBank, bank); (CKey, String a k)]).
Proof.
  intros H0 H1 H2.
  read_pieces
    [FText "DELETE FROM "; FIdent t; FText LF;
     FText "                    WHERE bank='"; FQuoted bank; FText "'";
     FText " AND psql_key='"; FQuoted (String a k); FText "'"].
  - cbn [forallb frag_ok]. by rewrite H0, H1, H2.
  - vm_compute. reflexivity.
Qed.

Lemma read_jsonb_list (t bank : string) :
  is_ident t = true ->
  quote_free bank = true ->
  read_sql (pgjsonb_encoded.list_query (VStr t) bank) = Some (SSelect PKey t [(CBank, bank)]).
Proof.
  intros H0 H1.
  read_pieces
    [FText "SELECT psql_key"; FText LF; FText "                    FROM "; FIdent t; FText LF;
     FText "                    WHERE bank='"; FQuoted bank; FText "'"].
  - cbn [forallb frag_ok]. by rewrite H0, H1.
  - vm_compute. reflexivity.
Qed.

Lemma read_jsonb_contains (t bank key : string) :
  is_ident t = true ->
  quote_free bank = true ->
  quote_free key = true ->
  read_sql (pgjsonb_encoded.contains_query (VStr t) bank key) = Some (SSelect PCountData t [(CBank, bank); (CKey, key)]).
Proof.
  intros H0 H1 H2.
  read_pieces
    [FText "SELECT COUNT(data)"; FText LF; FText "                    FROM "; FIdent t; FText LF;
     FText "                    WHERE bank='"; FQuoted bank;
     FText "' AND psql_key='"; FQuoted key; FText "'"].
  - cbn [forallb frag_ok]. by rewrite H0, H1, H2.
  - vm_compute. reflexivity.
Qed.

Lemma read_jsonb_updated (t bank key : string) :
  is_ident t = true ->
  quote_free bank = true ->
  quote_free key = true ->
  read_sql (pgjsonb_encoded.updated_query (VStr t) bank key) = Some (SSelect PEpoch t [(CBank, bank); (CKey, key)]).
Proof.
  intros H0 H1 H2.
  read_pieces
    [FText "SELECT extract(epoch FROM data_changed)::int"; FText LF;
     FText "                    FROM "; FIdent t; FText LF;
     FText "                    WHERE bank='"; FQuoted bank;
     FText "' AND psql_key='"; FQuoted key; FText "'"].
  - cbn [forallb frag_ok]. by rewrite H0, H1, H2.
  - vm_compute. reflexivity.
Qed.


(** ** Lemmas on the table *)

Lemma matches_key (b k : string) (r : Row) :
  matches [(CBank, b); (CKey, k)] r = same_key b k r.
Proof. unfold matches, same_key. simpl. by rewrite andb_true_r. Qed.

Lemma matches_bank (b : string) (r : Row) :
  matches [(CBank, b)] r = String.eqb (r_bank r) b.
Proof. unfold matches. simpl. by rewrite andb_true_r. Qed.

Lemma filter_ext_eq {A} (f g : A -> bool) (l : list A) :
  (forall x, f x = g x) -> List.filter f l = List.filter g l.
Proof. intros H. induction l as [|x l IH]; simpl; [done|]. by rewrite H, IH. Qed.

Lemma same_key_updated (b k : string) (r : Row) d e now :
  same_key b k (updated_row r d e now) = same_key b k r.
Proof. reflexivity. Qed.

(** After an upsert the first row found under the key carries the new
    payload (and the new flag when one was given). *)
Lemma upsert_then_select (b k : string) d e now fresh (rows : list Row) :
  exists r rest,
    List.filter (same_key b k) (upsert_rows b k d e now fresh rows) = r :: rest
    /\ r_data r = Some d
    /\ (forall eb, e = Some eb -> r_encoded r = eb).
Proof.
  induction rows as [|r0 rows IH]; simpl.
  - unfold same_key. simpl. rewrite !String.eqb_refl. simpl.
    eexists _, _. split; [reflexivity|]. split; [reflexivity|].
    intros eb ->. reflexivity.
  - destruct (same_key b k r0) eqn:E.
    + simpl. change (same_key b k _) with (same_key b k r0) at 1. rewrite E.
      eexists _, _. split; [reflexivity|]. split; [reflexivity|].
      intros eb ->. reflexivity.
    + simpl. rewrite E. exact IH.
Qed.

(** An upsert that finds the key rewrites that one row where it stands. *)
Lemma upsert_in_place (b k : string) d e now fresh (pre post : list Row) (r : Row) :
  Forall (fun x => same_key b k x = false) pre -> same_key b k r = true ->
  upsert_rows b k d e now fresh (pre ++ r :: post)
  = pre ++ updated_row r d e now :: post.
Proof.
  intros Hpre Hr. induction Hpre as [|x pre Hx _ IH]; simpl.
  - by rewrite Hr.
  - by rewrite Hx, IH.
Qed.

(** An upsert that does not find the key adds one row at the end. *)
Lemma upsert_fresh (b k : string) d e now fresh (rows : list Row) :
  Forall (fun x => same_key b k x = false) rows ->
  upsert_rows b k d e now fresh rows
  = rows ++ [ {| r_bank := b; r_key := k; r_data := Some d;
                 r_encoded := default false e; r_id := fresh;
                 r_changed := now |} ].
Proof.
  intros H. induction H as [|x rows Hx _ IH]; simpl; [done|]. by rewrite Hx, IH.
Qed.

Lemma same_key_iff (b k : string) (r : Row) :
  same_key b k r = true <-> row_key r = (b, k).
Proof.
  unfold same_key, row_key. rewrite andb_true_iff, !String.eqb_eq.
  split; [intros [-> ->]; reflexivity | intros [= -> ->]; done].
Qed.

Lemma upsert_keys_fresh (b k : string) d e now fresh (rows : list Row) :
  (b, k) ∉ row_key <$> rows ->
  row_key <$> upsert_rows b k d e now fresh rows = (row_key <$> rows) ++ [(b, k)].
Proof.
  induction rows as [|r rows IH]; simpl; intros Hn; [reflexivity|].
  destruct (same_key b k r) eqn:E.
  - exfalso. apply Hn. apply same_key_iff in E. rewrite <- E. left.
  - simpl. f_equal. apply IH. intros Hin. apply Hn. by right.
Qed.

Lemma upsert_keys_present (b k : string) d e now fresh (rows : list Row) :
  (b, k) ∈ row_key <$> rows ->
  row_key <$> upsert_rows b k d e now fresh rows = row_key <$> rows.
Proof.
  induction rows as [|r rows IH]; simpl; intros Hin.
  - by apply elem_of_nil in Hin.
  - destruct (same_key b k r) eqn:E; [reflexivity|].
    simpl. f_equal. apply IH. apply elem_of_cons in Hin as [Hin|Hin]; [|done].
    exfalso. symmetry in Hin. apply same_key_iff in Hin. congruence.
Qed.

Lemma project_all_cells (p : Proj) (rows : list Row) :
  (forall r, In r rows -> project p r = Ok (cells p r)) ->
  project_all p rows = Ok (cells p <$> rows).
Proof.
  induction rows as [|r rows IH]; intros H; [reflexivity|].
  cbn [project_all]. rewrite (H r) by (by left).
  rewrite IH by (intros x Hx; apply H; by right). reflexivity.
Qed.

(** Only the change time can fail to be computed. *)
Lemma select_total (p : Proj) (c : Cond) (rows : list Row) :
  p <> PEpoch -> select_rows p c rows = Ok (select_cells p c rows).
Proof.
  intros Hp. unfold select_rows, select_cells.
  destruct p; try reflexivity; try congruence;
    apply project_all_cells; reflexivity.
Qed.

Lemma select_epoch (c : Cond) (rows : list Row) :
  forallb (fun r => int4 (r_changed r)) (List.filter (matches c) rows) = true ->
  select_rows PEpoch c rows = Ok (select_cells PEpoch c rows).
Proof.
  intros H. unfold select_rows, select_cells. apply project_all_cells.
  intros r Hr. rewrite forallb_forall in H. unfold project. by rewrite (H r Hr).
Qed.

Lemma select_by_key (p : Proj) (b k : string) (rows : list Row) :
  select_cells p [(CBank, b); (CKey, k)] rows =
  match p with
  | PCountData =>
      [[VInt (Z.of_nat (length (List.filter has_data
                                  (List.filter (same_key b k) rows))))]]
  | _ => cells p <$> List.filter (same_key b k) rows
  end.
Proof.
  unfold select_cells.
  rewrite (filter_ext_eq _ _ _ (matches_key b k)). by destruct p.
Qed.

Lemma select_by_bank (p : Proj) (b : string) (rows : list Row) :
  select_cells p [(CBank, b)] rows =
  match p with
  | PCountData =>
      [[VInt (Z.of_nat (length (List.filter has_data
                 (List.filter (fun r => String.eqb (r_bank r) b) rows))))]]
  | _ => cells p <$> List.filter (fun r => String.eqb (r_bank r) b) rows
  end.
Proof.
  unfold select_cells.
  rewrite (filter_ext_eq _ _ _ (matches_bank b)). by destruct p.
Qed.

Lemma select_epoch_key (b k : string) (rows : list Row) :
  forallb (fun r => int4 (r_changed r)) (rows_at b k rows) = true ->
  select_rows PEpoch [(CBank, b); (CKey, k)] rows
  = Ok (select_cells PEpoch [(CBank, b); (CKey, k)] rows).
Proof.
  intros H. apply select_epoch.
  by rewrite (filter_ext_eq _ _ _ (matches_key b k)).
Qed.

Lemma varchar_fits (s : string) : fits s = true -> varchar 255 s = Some s.
Proof. unfold fits, varchar. by intros ->. Qed.

(** The primary key survives every upsert. *)
Lemma upsert_unique (b k : string) d e now fresh (rows : list Row) :
  unique_keys rows -> unique_keys (upsert_rows b k d e now fresh rows).
Proof.
  unfold unique_keys. intros H.
  destruct (decide ((b, k) ∈ row_key <$> rows)) as [Hin|Hn].
  - by rewrite upsert_keys_present.
  - rewrite upsert_keys_fresh by done. apply NoDup_app. split; [done|].
    split; [|apply NoDup_singleton].
    intros x Hx Hx'. apply list_elem_of_singleton in Hx'. by subst.
Qed.

Lemma delete_unique (c : Cond) (rows : list Row) :
  unique_keys rows -> unique_keys (delete_rows c rows).
Proof.
  unfold unique_keys, delete_rows. induction rows as [|r rows IH]; simpl; [done|].
  intros H. apply NoDup_cons in H as [Hr H].
  destruct (negb (matches c r)); simpl; [|by apply IH].
  apply NoDup_cons. split; [|by apply IH].
  intros Hin. apply Hr. apply list_elem_of_fmap in Hin as (x & Hx & Hin).
  apply list_elem_of_fmap. exists x. split; [done|].
  apply list_elem_of_In, filter_In in Hin as [Hin _]. by apply list_elem_of_In.
Qed.

(** ** Lemmas on base64 *)

(** Linear arithmetic with division and remainder by constants. *)
Ltac lia_div := zify; Z.to_euclidean_division_equations; lia.

Lemma below_64 (P : N -> bool) :
  forallb P (N.of_nat <$> seq 0 64) = true ->
  forall n, (n < 64)%N -> P n = true.
Proof.
  intros H n Hn. rewrite forallb_forall in H. apply H.
  apply list_elem_of_In, list_elem_of_fmap. exists (N.to_nat n).
  split; [by rewrite N2Nat.id|]. apply list_elem_of_In, in_seq. lia.
Qed.

Lemma b64_index_char (n : N) : (n < 64)%N -> b64_index (b64_char n) = Some n.
Proof.
  intros Hn.
  pose proof (below_64 (fun n => match b64_index (b64_char n) with
                                 | Some m => (m =? n)%N
                                 | None => false
                                 end) eq_refl n Hn) as H.
  simpl in H. destruct (b64_index (b64_char n)); [|discriminate].
  apply N.eqb_eq in H. by subst.
Qed.

Lemma b64_char_not_pad (n : N) : (n < 64)%N -> Ascii.eqb (b64_char n) "=" = false.
Proof.
  intros Hn. apply negb_true_iff.
  exact (below_64 (fun n => negb (Ascii.eqb (b64_char n) "=")) eq_refl n Hn).
Qed.

Lemma b64_char_ascii7 (n : N) : (n < 64)%N -> (N_of_ascii (b64_char n) <? 128)%N = true.
Proof.
  intros Hn. exact (below_64 (fun n => (N_of_ascii (b64_char n) <? 128)%N) eq_refl n Hn).
Qed.

Lemma byte_bound (a : ascii) : (N_of_ascii a < 256)%N.
Proof. apply N_ascii_bounded. Qed.

(** One alphabet character advances the decoder by one sextet. *)
Lemma a2b_sextet (n : N) (s : string) quad left pads out :
  (n < 64)%N ->
  a2b_base64 (String (b64_char n) s) quad left pads out =
  match quad with
  | 0%nat => a2b_base64 s 1 n 0 out
  | 1%nat => a2b_base64 s 2 (n mod 16)%N 0 (snoc out (ascii_of_N (left * 4 + n / 16)))
  | 2%nat => a2b_base64 s 3 (n mod 4)%N 0 (snoc out (ascii_of_N (left * 16 + n / 4)))
  | _ => a2b_base64 s 0 0%N 0 (snoc out (ascii_of_N (left * 64 + n)))
  end.
Proof.
  intros Hn. cbn [a2b_base64]. by rewrite (b64_char_not_pad n Hn), (b64_index_char n Hn).
Qed.

Lemma ascii_of_byte (a : ascii) (n : N) : n = N_of_ascii a -> ascii_of_N n = a.
Proof. intros ->. apply ascii_N_embedding. Qed.

Lemma a2b_group (a b c : ascii) (rest : string) left pads out :
  a2b_base64 (b64encode (String a (String b (String c rest)))) 0 left pads out
  = a2b_base64 (b64encode rest) 0 0 0 (out +:+ String a (String b (String c ""))).
Proof.
  pose proof (byte_bound a). pose proof (byte_bound b). pose proof (byte_bound c).
  cbn [b64encode].
  rewrite a2b_sextet by lia_div. rewrite a2b_sextet by lia_div.
  rewrite a2b_sextet by lia_div. rewrite a2b_sextet by lia_div.
  unfold snoc. rewrite !append_assoc, !append_cons, !append_nil_l.
  rewrite (ascii_of_byte a) by lia_div.
  rewrite (ascii_of_byte b) by lia_div.
  rewrite (ascii_of_byte c) by lia_div.
  reflexivity.
Qed.

Lemma a2b_tail1 (a : ascii) left pads out :
  a2b_base64 (b64encode (String a "")) 0 left pads out = Ok (out +:+ String a "").
Proof.
  pose proof (byte_bound a).
  cbn [b64encode].
  rewrite a2b_sextet by lia_div. rewrite a2b_sextet by lia_div.
  unfold snoc. rewrite (ascii_of_byte a) by lia_div. reflexivity.
Qed.

Lemma a2b_tail2 (a b : ascii) left pads out :
  a2b_base64 (b64encode (String a (String b ""))) 0 left pads out
  = Ok (out +:+ String a (String b "")).
Proof.
  pose proof (byte_bound a). pose proof (byte_bound b).
  cbn [b64encode].
  rewrite a2b_sextet by lia_div. rewrite a2b_sextet by lia_div. rewrite a2b_sextet by lia_div.
  unfold snoc. rewrite !append_assoc, !append_cons, !append_nil_l.
  rewrite (ascii_of_byte a) by lia_div.
  rewrite (ascii_of_byte b) by lia_div.
  reflexivity.
Qed.

Lemma a2b_encode_upto (n : nat) : forall (s : string) left pads out,
  (String.length s <= n)%nat ->
  a2b_base64 (b64encode s) 0 left pads out = Ok (out +:+ s).
Proof.
  induction n as [n IH] using lt_wf_ind. intros s left pads out Hlen.
  destruct s as [|a [|b [|c rest]]].
  - simpl. by rewrite append_nil_r.
  - apply a2b_tail1.
  - apply a2b_tail2.
  - rewrite a2b_group. simpl in Hlen.
    rewrite (IH (String.length rest)) by lia_div.
    by rewrite append_assoc.
Qed.

(** Decoding undoes encoding, for every byte string. *)
Lemma a2b_encode (s : string) : a2b_base64 (b64encode s) 0 0 0 "" = Ok s.
Proof. by rewrite (a2b_encode_upto (String.length s)). Qed.

Lemma b64encode_ascii7_upto (n : nat) : forall s : string,
  (String.length s <= n)%nat -> all_ascii7 (b64encode s) = true.
Proof.
  induction n as [n IH] using lt_wf_ind. intros s Hlen.
  destruct s as [|a [|b [|c rest]]]; [reflexivity| | |].
  - pose proof (byte_bound a). cbn [b64encode all_ascii7].
    rewrite !b64_char_ascii7 by lia_div. reflexivity.
  - pose proof (byte_bound a). pose proof (byte_bound b).
    cbn [b64encode all_ascii7]. rewrite !b64_char_ascii7 by lia_div. reflexivity.
  - pose proof (byte_bound a). pose proof (byte_bound b). pose proof (byte_bound c).
    cbn [b64encode all_ascii7]. rewrite !b64_char_ascii7 by lia_div.
    simpl in Hlen. rewrite (IH (String.length rest)) by lia_div. reflexivity.
Qed.

Lemma b64decode_encode (s : string) : b64decode (VStr (b64encode s)) = Ok (VBytes s).
Proof.
  unfold b64decode.
  rewrite (b64encode_ascii7_upto (String.length s)) by lia_div.
  by rewrite a2b_encode.
Qed.

Lemma b64_char_not_nul (n : N) : (n < 64)%N -> Ascii.eqb (b64_char n) "000" = false.
Proof.
  intros Hn. apply negb_true_iff.
  exact (below_64 (fun n => negb (Ascii.eqb (b64_char n) "000")) eq_refl n Hn).
Qed.

Lemma b64encode_no_nul_upto (n : nat) : forall s : string,
  (String.length s <= n)%nat -> has_nul (b64encode s) = false.
Proof.
  induction n as [n IH] using lt_wf_ind. intros s Hlen.
  destruct s as [|a [|b [|c rest]]]; [reflexivity| | |].
  - pose proof (byte_bound a). cbn [b64encode has_nul].
    rewrite !b64_char_not_nul by lia_div. reflexivity.
  - pose proof (byte_bound a). pose proof (byte_bound b).
    cbn [b64encode has_nul]. rewrite !b64_char_not_nul by lia_div. reflexivity.
  - pose proof (byte_bound a). pose proof (byte_bound b). pose proof (byte_bound c).
    cbn [b64encode has_nul]. rewrite !b64_char_not_nul by lia_div.
    simpl in Hlen. rewrite (IH (String.length rest)) by lia_div. reflexivity.
Qed.

(** A base64 text is one jsonb can hold. *)
Lemma b64encode_storable (s : string) : json_storable (VStr (b64encode s)) = true.
Proof.
  cbn [json_storable]. by rewrite (b64encode_no_nul_upto (String.length s)).
Qed.

(** ** Running plugin code: one equation per construct *)

Arguments read_sql : simpl never.
Arguments qs : simpl never.
Arguments upsert_rows : simpl never.
Arguments delete_rows : simpl never.
Arguments select_rows : simpl never.
Arguments select_cells : simpl never.
Arguments varchar : simpl never.
Arguments lit_storable : simpl never.
Arguments b64encode : simpl never.
Arguments utf8_valid : simpl never.

Section Runs.

Context {A B : Type}.

Lemma run_ret (a : A) (w : World) : (mret a : M A) w = (Ok a, w).
Proof. reflexivity. Qed.

Lemma run_raise (e : Exn) (w : World) : @raise A e w = (Raise e, w).
Proof. reflexivity. Qed.

Lemma run_lift (r r' : Result A) (w : World) : r = r' -> lift r w = (r', w).
Proof. intros <-. reflexivity. Qed.

Lemma run_bind (m : M A) (f : A -> M B) (w w1 : World) (r1 : Result A) res :
  m w = (r1, w1) ->
  match r1 with
  | Ok a => f a w1
  | Raise e => (Raise e, w1)
  end = res ->
  (m ≫= f) w = res.
Proof. intros E <-. unfold mbind, M_bind. rewrite E. reflexivity. Qed.

Lemma run_attempt (m : M A) (w w1 : World) (r : Result A) :
  m w = (r, w1) -> attempt m w = (Ok r, w1).
Proof. intros E. unfold attempt. rewrite E. reflexivity. Qed.

Lemma run_finally (m : M A) (fin : M unit) (w w1 w2 : World) (r : Result A) :
  m w = (r, w1) -> fin w1 = (Ok tt, w2) -> finally m fin w = (r, w2).
Proof. intros E1 E2. unfold finally. rewrite E1, E2. reflexivity. Qed.

Lemma run_if_true (b : bool) (m1 m2 : M A) (w : World) res :
  b = true -> m1 w = res -> (if b then m1 else m2) w = res.
Proof. intros -> E. exact E. Qed.

Lemma run_if_false (b : bool) (m1 m2 : M A) (w : World) res :
  b = false -> m2 w = res -> (if b then m1 else m2) w = res.
Proof. intros -> E. exact E. Qed.

Lemma run_with_opts (f : gmap string PyVal -> Result A) (w : World) r :
  f (w_opts w) = r -> with_opts f w = (r, w).
Proof. intros <-. reflexivity. Qed.

End Runs.

Lemma run_log_debug (a : LogArg) (w : World) :
  log_debug a w = (Ok tt, add_log {| l_level := DEBUG; l_fmt := "%s"; l_arg := a |} w).
Proof. reflexivity. Qed.

Lemma run_log_error (fmt : string) (a : LogArg) (w : World) :
  log_error fmt a w = (Ok tt, add_log {| l_level := ERROR; l_fmt := fmt; l_arg := a |} w).
Proof. reflexivity. Qed.

Lemma run_connect (o : Options) (w : World) :
  connect o w =
  match w_script w (w_calls w) with
  | Fails e => (Raise e, count_call (add_event (EConnect o) w))
  | _ => (Ok tt, opened o w)
  end.
Proof. reflexivity. Qed.

Lemma run_connect_normal (o : Options) (w : World) :
  w_script w (w_calls w) = Normal -> connect o w = (Ok tt, opened o w).
Proof. intros E. rewrite run_connect, E. reflexivity. Qed.

Lemma run_execute_fails (q : Query) (w : World) tbl e :
  w_session w = Some tbl -> w_script w (w_calls w) = Fails e ->
  execute q w = (Raise e, sent q w).
Proof. intros Es Er. unfold execute, next_reply. cbn. rewrite Es, Er. reflexivity. Qed.

Lemma run_execute_answers (q : Query) (w : World) tbl r :
  w_session w = Some tbl -> w_script w (w_calls w) = Answers r ->
  execute q w = (Ok tt, with_result (Some r) (sent q w)).
Proof. intros Es Er. unfold execute, next_reply. cbn. rewrite Es, Er. reflexivity. Qed.

Lemma run_execute_normal (q : Query) (w : World) tbl st res :
  w_session w = Some tbl -> w_script w (w_calls w) = Normal ->
  read_sql q = Some st ->
  run_stmt st tbl (sent q w) = res ->
  execute q w = res.
Proof.
  intros Es Er Eq <-. unfold execute, next_reply. cbn. rewrite Es, Er, Eq. reflexivity.
Qed.

Lemma run_execute_garbled (q : Query) (w : World) tbl :
  w_session w = Some tbl -> w_script w (w_calls w) = Normal ->
  read_sql q = None ->
  execute q w = (Raise syntax_error, sent q w).
Proof.
  intros Es Er Eq. unfold execute, next_reply. cbn. rewrite Es, Er, Eq. reflexivity.
Qed.

Lemma run_commit (tbl : list Row) (w : World) :
  run_stmt SCommit tbl w = (Ok tt, with_result None (with_committed tbl w)).
Proof. reflexivity. Qed.

Lemma run_rollback (tbl : list Row) (w : World) :
  run_stmt SRollback tbl w
  = (Ok tt, with_result None (with_session (Some (w_committed w)) w)).
Proof. reflexivity. Qed.

Lemma run_upsert (tbl : list Row) (w : World) t b k b' k' d e :
  w_relation w = t ->
  varchar 255 b = Some b' -> varchar 255 k = Some k' ->
  lit_storable d = true ->
  run_stmt (SUpsert t b k d e) tbl w
  = (Ok tt, with_result None (use_id (with_session
       (Some (upsert_rows b' k' d e (w_clock w) (w_next_id w) tbl)) w))).
Proof.
  intros <- Hb Hk Hd. unfold run_stmt. by rewrite String.eqb_refl, Hb, Hk, Hd.
Qed.

Lemma run_upsert_escape (tbl : list Row) (w : World) t b k b' k' d e :
  w_relation w = t ->
  varchar 255 b = Some b' -> varchar 255 k = Some k' ->
  lit_storable d = false ->
  run_stmt (SUpsert t b k d e) tbl w = (Raise unsupported_escape, w).
Proof.
  intros <- Hb Hk Hd. unfold run_stmt. by rewrite String.eqb_refl, Hb, Hk, Hd.
Qed.

Lemma run_upsert_too_long (tbl : list Row) (w : World) t b k d e :
  w_relation w = t ->
  varchar 255 b = None \/ varchar 255 k = None ->
  run_stmt (SUpsert t b k d e) tbl w = (Raise string_too_long, w).
Proof.
  intros <- [H|H]; unfold run_stmt; rewrite String.eqb_refl, H;
    [reflexivity | by destruct (varchar 255 b)].
Qed.

Lemma run_select (tbl : list Row) (w : World) p t c rows :
  w_relation w = t ->
  select_rows p c tbl = Ok rows ->
  run_stmt (SSelect p t c) tbl w
  = (Ok tt, with_result (Some (Some rows)) w).
Proof. intros <- E. unfold run_stmt. by rewrite String.eqb_refl, E. Qed.

Lemma run_select_fails (tbl : list Row) (w : World) p t c e :
  w_relation w = t ->
  select_rows p c tbl = Raise e ->
  run_stmt (SSelect p t c) tbl w = (Raise e, w).
Proof. intros <- E. unfold run_stmt. by rewrite String.eqb_refl, E. Qed.

Lemma run_delete (tbl : list Row) (w : World) t c :
  w_relation w = t ->
  run_stmt (SDelete t c) tbl w
  = (Ok tt, with_result None (with_session (Some (delete_rows c tbl)) w)).
Proof. intros <-. unfold run_stmt. by rewrite String.eqb_refl. Qed.

Lemma run_fetchall (w : World) r :
  w_result w = Some r -> fetchall w = (Ok r, w).
Proof. intros E. unfold fetchall. rewrite E. reflexivity. Qed.

Lemma run_close (w : World) : close w = (Ok tt, closed w).
Proof. reflexivity. Qed.

Lemma pair_eq {X Y : Type} (x : X) (y : Y) : (x, y) = (x, y).
Proof. reflexivity. Qed.

Lemma ready_after (resolve : gmap string PyVal -> Result Options) o t (w w' : World) :
  ready resolve o t w ->
  w_opts w' = w_opts w -> w_relation w' = w_relation w ->
  w_script w' = w_script w -> (w_calls w <= w_calls w')%nat ->
  ready resolve o t w'.
Proof.
  intros (Ho & Ht & Hi & Hr & Hc) E1 E2 E3 E4. unfold ready.
  rewrite E1, E2. repeat split; try done.
  intros n Hn. rewrite E3. apply Hc. lia.
Qed.

(** Side conditions on a world reached by driver calls. *)
Ltac world_fact Hc :=
  cbn [w_session w_result w_script w_calls w_relation w_committed w_opts
       w_clock w_next_id w_trace w_log opened sent closed with_result
       with_session with_committed count_call add_event add_log tick use_id];
  first [ reflexivity | eassumption | apply Hc; lia ].

(** Bring the outcome of the step just run to a constructor, computing
    it and using the facts [extra] knows. *)
Ltac settle_outcome r extra :=
  lazymatch r with
  | Ok _ => fail
  | Raise _ => fail
  | _ => idtac
  end;
  first [ progress (let r' := eval cbn in r in change r with r')
        | progress extra
        | progress (let r' := eval vm_compute in r in change r with r') ].

Ltac settle extra :=
  repeat (lazymatch goal with
          | |- match ?r with Ok _ => _ | Raise _ => _ end = _ =>
              settle_outcome r extra
          | |- match ?r with Ok _ => _ | Raise _ => _ end _ = _ =>
              settle_outcome r extra
          end);
  cbn beta iota zeta;
  repeat (progress extra).

(** What the columns make of the values of an INSERT, from the facts at
    hand. *)
Ltac column_fact :=
  first [ eassumption | apply varchar_fits; eassumption | reflexivity ].

(** That the select list can be computed. *)
Ltac select_fact :=
  first [ apply select_total; discriminate
        | apply select_epoch_key;
          first [ eassumption
                | unfold rows_at;
                  match goal with
                  | H : List.filter (same_key _ _) _ = _ |- _ => rewrite H
                  end; reflexivity ] ].

Ltac run_stmt_step Hc :=
  lazymatch goal with
  | |- run_stmt SCommit _ _ = _ => apply run_commit
  | |- run_stmt SRollback _ _ = _ => apply run_rollback
  | |- run_stmt (SUpsert _ _ _ _ _) _ _ = _ =>
      first [ eapply run_upsert; [world_fact Hc | column_fact ..]
            | eapply run_upsert_escape; [world_fact Hc | column_fact ..]
            | eapply run_upsert_too_long;
              [ world_fact Hc | first [left; eassumption | right; eassumption] ] ]
  | |- run_stmt (SSelect _ _ _) _ _ = _ =>
      eapply run_select; [ world_fact Hc | select_fact ]
  | |- run_stmt (SDelete _ _) _ _ = _ => eapply run_delete; world_fact Hc
  end.

Ltac read_step extra :=
  lazymatch goal with
  | |- read_sql (qs "COMMIT") = _ => apply read_commit
  | |- read_sql (qs "ROLLBACK") = _ => apply read_rollback
  | |- _ => solve [repeat extra]
  end.

(** Run plugin code from a given world: one rule per construct, with
    [extra] consulted for what only the caller knows (the resolver's
    result, how a query reads, what a codec returns) and [Hc] the
    calmness of the environment. *)
Ltac run extra Hc :=
  cbn beta iota zeta;
  lazymatch goal with
  | |- (_, _) = _ => reflexivity
  | |- mbind _ _ _ = _ =>
      eapply run_bind; [ run extra Hc | settle extra; run extra Hc ]
  | |- mret _ _ = _ => apply run_ret
  | |- raise _ _ = _ => apply run_raise
  | |- lift _ _ = _ =>
      eapply run_lift;
      first [ reflexivity | eassumption | solve [repeat extra]
            | vm_compute; reflexivity ]
  | |- attempt _ _ = _ => eapply run_attempt; run extra Hc
  | |- finally _ _ _ = _ => eapply run_finally; [ run extra Hc | run extra Hc ]
  | |- log_debug _ _ = _ => apply run_log_debug
  | |- log_error _ _ _ = _ => apply run_log_error
  | |- with_opts _ _ = _ =>
      eapply run_with_opts; first [ eassumption | solve [repeat extra] ]
  | |- connect _ _ = _ =>
      first [ eapply run_connect_normal; world_fact Hc | extra ]
  | |- execute _ _ = _ =>
      first [ eapply run_execute_normal;
              [ world_fact Hc | world_fact Hc
              | read_step extra
              | run_stmt_step Hc ]
            | extra ]
  | |- fetchall _ = _ => eapply run_fetchall; world_fact Hc
  | |- close _ = _ => apply run_close
  | |- match _ with Ok _ => _ | Raise _ => _ end _ = _ =>
      progress (settle extra); run extra Hc
  | |- (if _ then _ else _) _ = _ =>
      first [ eapply run_if_true;
              [ first [ reflexivity | eassumption ] | run extra Hc ]
            | eapply run_if_false;
              [ first [ reflexivity | eassumption ] | run extra Hc ] ]
  | |- _ =>
      first [ progress unfold log_context, log_miss, pgjsonb_encoded.get_table;
              run extra Hc
            | progress extra; run extra Hc ]
  end.

Ltac ready_done Hw :=
  eapply ready_after;
  [ exact Hw | reflexivity | reflexivity | reflexivity | cbn; lia ].

(** ** The binary plugin in a ready world *)

Section BinaryRuns.

Variable dumps : PyVal -> Result string.
Variable loads : PyVal -> Result PyVal.

Lemma bytea_store_run (w : World) o t bank key v b :
  ready pgbytea._get_options o t w ->
  quote_free bank = true -> quote_free key = true ->
  fits bank = true -> fits key = true ->
  dumps v = Ok b ->
  exists w',
    pgbytea.store dumps bank key v w = (Ok VNone, w') /\
    w_committed w'
    = upsert_rows bank key (LBytea b) None (w_clock w + 1) (w_next_id w)
        (w_committed w) /\
    ready pgbytea._get_options o t w'.
Proof.
  intros Hw Hb Hk Hfb Hfk Hd. pose proof Hw as (Ho & Ht & Hi & Hr & Hc).
  eexists. split.
  - unfold pgbytea.store, pgbytea._get_serv.
    run ltac:(first [ rewrite Hd | rewrite Ht
                    | apply (read_bytea_store t bank key b Hi Hb Hk) ]) Hc.
  - split; [reflexivity | ready_done Hw].
Qed.

Lemma bytea_fetch_miss (w : World) o t bank key :
  ready pgbytea._get_options o t w ->
  quote_free bank = true -> quote_free key = true ->
  List.filter (same_key bank key) (w_committed w) = [] ->
  exists w', pgbytea.fetch loads bank key w = (Ok (VDict []), w').
Proof.
  intros Hw Hb Hk Hf. pose proof Hw as (Ho & Ht & Hi & Hr & Hc).
  unfold pgbytea.fetch, pgbytea._get_serv. eexists.
  run ltac:(first [ rewrite Ht | rewrite select_by_key, Hf
                  | apply (read_bytea_fetch t bank key Hi Hb Hk) ]) Hc.
Qed.

Lemma bytea_fetch_hit (w : World) o t bank key r rest v :
  ready pgbytea._get_options o t w ->
  quote_free bank = true -> quote_free key = true ->
  List.filter (same_key bank key) (w_committed w) = r :: rest ->
  loads (py_of_data (r_data r)) = Ok v ->
  exists w', pgbytea.fetch loads bank key w = (Ok v, w').
Proof.
  intros Hw Hb Hk Hf Hl. pose proof Hw as (Ho & Ht & Hi & Hr & Hc).
  unfold pgbytea.fetch, pgbytea._get_serv. eexists.
  run ltac:(first [ rewrite Ht | rewrite select_by_key, Hf | rewrite Hl
                  | apply (read_bytea_fetch t bank key Hi Hb Hk) ]) Hc.
Qed.

(** A payload the codec rejects: the error leaves [fetch] unless it is
    an [IndexError]. *)
Lemma bytea_fetch_undecodable (w : World) o t bank key r rest e :
  ready pgbytea._get_options o t w ->
  quote_free bank = true -> quote_free key = true ->
  List.filter (same_key bank key) (w_committed w) = r :: rest ->
  loads (py_of_data (r_data r)) = Raise e ->
  is_IndexError e = false ->
  exists w', pgbytea.fetch loads bank key w = (Raise e, w').
Proof.
  intros Hw Hb Hk Hf Hl He. pose proof Hw as (Ho & Ht & Hi & Hr & Hc).
  destruct (is_DatabaseError e) eqn:Hd;
    unfold pgbytea.fetch, pgbytea._get_serv; eexists;
    run ltac:(first [ rewrite Ht | rewrite select_by_key, Hf | rewrite Hl
                    | apply (read_bytea_fetch t bank key Hi Hb Hk) ]) Hc.
Qed.

End BinaryRuns.

Lemma bytea_updated_miss (w : World) o t bank key :
  ready pgbytea._get_options o t w ->
  quote_free bank = true -> quote_free key = true ->
  List.filter (same_key bank key) (w_committed w) = [] ->
  exists w', pgbytea.updated bank key w = (Ok (VInt 0), w').
Proof.
  intros Hw Hb Hk Hf. pose proof Hw as (Ho & Ht & Hi & Hr & Hc).
  unfold pgbytea.updated, pgbytea._get_serv. eexists.
  run ltac:(first [ rewrite Ht | rewrite select_by_key, Hf
                  | apply (read_bytea_updated t bank key Hi Hb Hk) ]) Hc.
Qed.

Lemma bytea_contains_miss (w : World) o t bank key :
  ready pgbytea._get_options o t w ->
  quote_free bank = true -> quote_free key = true ->
  List.filter (same_key bank key) (w_committed w) = [] ->
  exists w', pgbytea.contains bank key w = (Ok (VBool false), w').
Proof.
  intros Hw Hb Hk Hf. pose proof Hw as (Ho & Ht & Hi & Hr & Hc).
  unfold pgbytea.contains, pgbytea._get_serv. eexists.
  run ltac:(first [ rewrite Ht | rewrite select_by_key, Hf
                  | apply (read_bytea_contains t bank key Hi Hb Hk) ]) Hc.
Qed.

Lemma bytea_id_miss (w : World) o t bank key :
  ready pgbytea._get_options o t w ->
  quote_free bank = true -> quote_free key = true ->
  List.filter (same_key bank key) (w_committed w) = [] ->
  exists w', pgbytea.id_ bank key w = (Ok (VUUID 0), w').
Proof.
  intros Hw Hb Hk Hf. pose proof Hw as (Ho & Ht & Hi & Hr & Hc).
  unfold pgbytea.id_, pgbytea._get_serv. eexists.
  run ltac:(first [ rewrite Ht | rewrite select_by_key, Hf
                  | apply (read_bytea_id t bank key Hi Hb Hk) ]) Hc.
Qed.



Lemma bytea_flush_run (w : World) o t bank key c :
  ready pgbytea._get_options o t w ->
  read_sql (pgbytea.flush_query (VStr t) bank key) = Some (SDelete t c) ->
  exists w',
    pgbytea.flush bank key w = (Ok (VBool true), w') /\
    w_committed w' = delete_rows c (w_committed w) /\
    ready pgbytea._get_options o t w'.
Proof.
  intros Hw Hq. pose proof Hw as (Ho & Ht & Hi & Hr & Hc).
  eexists. split.
  - unfold pgbytea.flush, pgbytea._get_serv.
    run ltac:(first [ rewrite Ht | exact Hq ]) Hc.
  - split; [reflexivity | ready_done Hw].
Qed.

Lemma bytea_list_run (w : World) o t bank :
  ready pgbytea._get_options o t w ->
  quote_free bank = true ->
  exists w',
    pgbytea.list_ bank w
    = (Ok (first_of_singletons
             (Some (select_cells PKey [(CBank, bank)] (w_committed w)))), w').
Proof.
  intros Hw Hb. pose proof Hw as (Ho & Ht & Hi & Hr & Hc).
  unfold pgbytea.list_, pgbytea._get_serv. eexists.
  run ltac:(first [ rewrite Ht | apply (read_bytea_list t bank Hi Hb) ]) Hc.
Qed.

(** ** The JSON plugin in a ready world *)

Lemma encode_payload_run (v : PyVal) (w : World) :
  pgjsonb_encoded.encode_payload v w = (Ok (payload_of v), w).
Proof.
  destruct v; try reflexivity.
  unfold pgjsonb_encoded.encode_payload, payload_of, to_str.
  destruct (utf8_valid s); reflexivity.
Qed.

Lemma decode_row_head (d : PyVal) (e : bool) (rest : Rows) :
  pgjsonb_encoded.decode_row ([d; VBool e] :: rest)
  = if e then b64decode d else Ok d.
Proof. destruct e; reflexivity. Qed.

Arguments pgjsonb_encoded.decode_row : simpl never.

Lemma jsonb_store_run (w : World) o t bank key v lit :
  ready pgjsonb_encoded._get_options o t w ->
  quote_free bank = true -> quote_free key = true ->
  fits bank = true -> fits key = true ->
  json_adapt (fst (payload_of v)) = Ok (LJson lit) ->
  json_storable lit = true ->
  exists w',
    pgjsonb_encoded.store bank key v w = (Ok VNone, w') /\
    w_committed w'
    = upsert_rows bank key (LJson lit) (Some (snd (payload_of v)))
        (w_clock w + 1) (w_next_id w) (w_committed w) /\
    ready pgjsonb_encoded._get_options o t w'.
Proof.
  intros Hw Hb Hk Hfb Hfk Hj Hst. pose proof Hw as (Ho & Ht & Hi & Hr & Hc).
  destruct (payload_of v) as [p e] eqn:Hp. cbn [fst snd] in *.
  eexists. split.
  - unfold pgjsonb_encoded.store, pgjsonb_encoded._get_serv.
    run ltac:(first [ rewrite Ht | rewrite Hj
                    | rewrite encode_payload_run, Hp
                    | apply (read_jsonb_store t bank key lit e Hi Hb Hk) ]) Hc.
  - split; [reflexivity | ready_done Hw].
Qed.

Lemma jsonb_fetch_miss (w : World) o t bank key :
  ready pgjsonb_encoded._get_options o t w ->
  quote_free bank = true -> quote_free key = true ->
  List.filter (same_key bank key) (w_committed w) = [] ->
  exists w', pgjsonb_encoded.fetch bank key w = (Ok (VDict []), w').
Proof.
  intros Hw Hb Hk Hf. pose proof Hw as (Ho & Ht & Hi & Hr & Hc).
  unfold pgjsonb_encoded.fetch, pgjsonb_encoded._get_serv. eexists.
  run ltac:(first [ rewrite Ht | rewrite select_by_key, Hf
                  | apply (read_jsonb_fetch t bank key Hi Hb Hk) ]) Hc.
Qed.

Lemma jsonb_fetch_hit (w : World) o t bank key r rest v :
  ready pgjsonb_encoded._get_options o t w ->
  quote_free bank = true -> quote_free key = true ->
  List.filter (same_key bank key) (w_committed w) = r :: rest ->
  (if r_encoded r then b64decode (py_of_data (r_data r))
   else Ok (py_of_data (r_data r))) = Ok v ->
  exists w', pgjsonb_encoded.fetch bank key w = (Ok v, w').
Proof.
  intros Hw Hb Hk Hf Hv. pose proof Hw as (Ho & Ht & Hi & Hr & Hc).
  unfold pgjsonb_encoded.fetch, pgjsonb_encoded._get_serv. eexists.
  run ltac:(first [ rewrite Ht | rewrite select_by_key, Hf
                  | rewrite decode_row_head, Hv
                  | apply (read_jsonb_fetch t bank key Hi Hb Hk) ]) Hc.
Qed.

Lemma jsonb_updated_miss (w : World) o t bank key :
  ready pgjsonb_encoded._get_options o t w ->
  quote_free bank = true -> quote_free key = true ->
  List.filter (same_key bank key) (w_committed w) = [] ->
  exists w', pgjsonb_encoded.updated bank key w = (Ok (VInt 0), w').
Proof.
  intros Hw Hb Hk Hf. pose proof Hw as (Ho & Ht & Hi & Hr & Hc).
  unfold pgjsonb_encoded.updated, pgjsonb_encoded._get_serv. eexists.
  run ltac:(first [ rewrite Ht | rewrite select_by_key, Hf
                  | apply (read_jsonb_updated t bank key Hi Hb Hk) ]) Hc.
Qed.

Lemma jsonb_contains_miss (w : World) o t bank key :
  ready pgjsonb_encoded._get_options o t w ->
  quote_free bank = true -> quote_free key = true ->
  List.filter (same_key bank key) (w_committed w) = [] ->
  exists w', pgjsonb_encoded.contains bank key w = (Ok (VBool false), w').
Proof.
  intros Hw Hb Hk Hf. pose proof Hw as (Ho & Ht & Hi & Hr & Hc).
  unfold pgjsonb_encoded.contains, pgjsonb_encoded._get_serv. eexists.
  run ltac:(first [ rewrite Ht | rewrite select_by_key, Hf
                  | apply (read_jsonb_contains t bank key Hi Hb Hk) ]) Hc.
Qed.

Lemma jsonb_flush_run (w : World) o t bank key c :
  ready pgjsonb_encoded._get_options o t w ->
  read_sql (pgjsonb_encoded.flush_query (VStr t) bank key) = Some (SDelete t c) ->
  exists w',
    pgjsonb_encoded.flush bank key w = (Ok (VBool true), w') /\
    w_committed w' = delete_rows c (w_committed w) /\
    ready pgjsonb_encoded._get_options o t w'.
Proof.
  intros Hw Hq. pose proof Hw as (Ho & Ht & Hi & Hr & Hc).
  eexists. split.
  - unfold pgjsonb_encoded.flush, pgjsonb_encoded._get_serv.
    run ltac:(first [ rewrite Ht | exact Hq ]) Hc.
  - split; [reflexivity | ready_done Hw].
Qed.

(** ** The resolver *)

Lemma dict_pop_eq (k : string) (dflt : PyVal) (d : gmap string PyVal) :
  dict_pop k dflt d = (opt_or d k dflt, delete k d).
Proof.
  unfold dict_pop, opt_or. destruct (d !! k) eqn:E; [reflexivity|].
  simpl. by rewrite delete_id.
Qed.

Lemma opt_or_delete (k k' : string) (dflt : PyVal) (d : gmap string PyVal) :
  k <> k' -> opt_or (delete k d) k' dflt = opt_or d k' dflt.
Proof. intros Hne. unfold opt_or. by rewrite lookup_delete_ne. Qed.

Ltac resolve_options :=
  intros;
  repeat (rewrite dict_pop_eq; cbv beta iota zeta);
  repeat (rewrite opt_or_delete by discriminate);
  reflexivity.

Lemma bytea_options (opts : gmap string PyVal) :
  pgbytea._get_options opts =
  match py_int (opt_or opts "cache.pgbytea.port" (VInt 5432)) with
  | Ok p => Ok (resolved "cache.pgbytea." opts p)
  | Raise e => Raise e
  end.
Proof. unfold pgbytea._get_options, resolved. resolve_options. Qed.

Lemma jsonb_options (opts : gmap string PyVal) :
  pgjsonb_encoded._get_options opts =
  match py_int (opt_or opts "cache.pgjsonb_encoded.port" (VInt 5432)) with
  | Ok p => Ok (resolved "cache.pgjsonb_encoded." opts p)
  | Raise e => Raise e
  end.
Proof. unfold pgjsonb_encoded._get_options, resolved. resolve_options. Qed.

(** C9 (amended): for every options mapping, each resolver returns the
    documented descriptor (absent fields at their defaults, the legacy
    passwd and database options read only when password and dbname are
    absent) exactly when [int()] accepts the port option or its default;
    otherwise it raises [int()]'s error.  Resolving never changes the
    host's options or anything else in the world. *)
Theorem options_resolved (opts : gmap string PyVal) (w : World) :
  pgbytea._get_options opts
  = match py_int (opt_or opts "cache.pgbytea.port" (VInt 5432)) with
    | Ok p => Ok (resolved "cache.pgbytea." opts p)
    | Raise e => Raise e
    end
  /\ pgjsonb_encoded._get_options opts
     = match py_int (opt_or opts "cache.pgjsonb_encoded.port" (VInt 5432)) with
       | Ok p => Ok (resolved "cache.pgjsonb_encoded." opts p)
       | Raise e => Raise e
       end
  /\ pgbytea._get_options ∅
     = Ok {| o_host := VStr "127.0.0.1"; o_user := VNone; o_password := VNone;
             o_dbname := VStr "salt_cache"; o_table := VStr "salt_cache";
             o_port := 5432 |}
  /\ pgjsonb_encoded._get_options ∅
     = Ok {| o_host := VStr "127.0.0.1"; o_user := VNone; o_password := VNone;
             o_dbname := VStr "salt_cache"; o_table := VStr "salt_cache";
             o_port := 5432 |}
  /\ snd (with_opts pgbytea._get_options w) = w
  /\ snd (with_opts pgjsonb_encoded._get_options w) = w.
Proof.
  split; [apply bytea_options|]. split; [apply jsonb_options|].
  repeat split; reflexivity.
Qed.

(** C9 as stated fails: a mapping whose port is the text "abc" gets no
    descriptor, the resolver raises. *)
Lemma options_bad_port :
  ~ exists o,
      pgbytea._get_options {[ "cache.pgbytea.port" := VStr "abc" ]} = Ok o.
Proof. intros [o H]. vm_compute in H. discriminate. Qed.

(** ** Enumerating a bank *)

Lemma first_of_singletons_spec (data : option Rows) :
  first_of_singletons data
  = VTuple (match data with
            | Some rows => singleton_firsts rows
            | None => []
            end).
Proof.
  assert (H : forall rows : Rows,
             omap (fun row => match row with [x] => Some x | _ => None end) rows
             = singleton_firsts rows).
  { induction rows as [|row rows IH]; [reflexivity|].
    unfold singleton_firsts in *. cbn [omap list_omap].
    destruct row as [|x [|y row]]; simpl; rewrite ?IH; reflexivity. }
  destruct data as [[|r rs]|]; [reflexivity | | reflexivity].
  unfold first_of_singletons. by rewrite H.
Qed.

Lemma bytea_list_answered (w : World) o bank r :
  pgbytea._get_options (w_opts w) = Ok o ->
  w_script w (w_calls w) = Normal ->
  w_script w (S (w_calls w)) = Answers r ->
  w_script w (S (S (w_calls w))) = Normal ->
  exists w', pgbytea.list_ bank w = (Ok (first_of_singletons r), w').
Proof.
  intros Ho H0 H1 H2.
  unfold pgbytea.list_, pgbytea._get_serv. eexists.
  run ltac:(eapply run_execute_answers; [world_fact I | world_fact I]) I.
Qed.

Lemma jsonb_list_answered (w : World) o bank r :
  pgjsonb_encoded._get_options (w_opts w) = Ok o ->
  w_script w (w_calls w) = Normal ->
  w_script w (S (w_calls w)) = Answers r ->
  w_script w (S (S (w_calls w))) = Normal ->
  exists w', pgjsonb_encoded.list_ bank w = (Ok (first_of_singletons r), w').
Proof.
  intros Ho H0 H1 H2.
  unfold pgjsonb_encoded.list_, pgjsonb_encoded._get_serv. eexists.
  run ltac:(eapply run_execute_answers; [world_fact I | world_fact I]) I.
Qed.

Lemma jsonb_list_run (w : World) o t bank :
  ready pgjsonb_encoded._get_options o t w ->
  quote_free bank = true ->
  exists w',
    pgjsonb_encoded.list_ bank w
    = (Ok (first_of_singletons
             (Some (select_cells PKey [(CBank, bank)] (w_committed w)))), w').
Proof.
  intros Hw Hb. pose proof Hw as (Ho & Ht & Hi & Hr & Hc).
  unfold pgjsonb_encoded.list_, pgjsonb_encoded._get_serv. eexists.
  run ltac:(first [ rewrite Ht | apply (read_jsonb_list t bank Hi Hb) ]) Hc.
Qed.

Lemma world_of_calm opts rows : calm (world_of opts rows []).
Proof. intros n _. unfold world_of, script_of. simpl. by destruct n. Qed.

Lemma world_of_ready_bytea rows :
  ready pgbytea._get_options default_options "salt_cache" (world_of ∅ rows []).
Proof. repeat split; try reflexivity. apply world_of_calm. Qed.

Lemma world_of_ready_jsonb rows :
  ready pgjsonb_encoded._get_options default_options "salt_cache"
    (world_of ∅ rows []).
Proof. repeat split; try reflexivity. apply world_of_calm. Qed.

(** C10: whatever result the cursor holds for the key query (any list of
    rows of any lengths, or None), [list] in both plugins returns the
    tuple of the first elements of the rows of length one, the empty
    tuple for an empty or absent result, and does not raise. *)
Theorem list_total (w : World) (ob oj : Options) (bank : string)
    (r : option Rows) :
  pgbytea._get_options (w_opts w) = Ok ob ->
  pgjsonb_encoded._get_options (w_opts w) = Ok oj ->
  w_script w (w_calls w) = Normal ->
  w_script w (S (w_calls w)) = Answers r ->
  w_script w (S (S (w_calls w))) = Normal ->
  fst (pgbytea.list_ bank w)
  = Ok (VTuple (match r with Some rows => singleton_firsts rows | None => [] end))
  /\ fst (pgjsonb_encoded.list_ bank w)
     = Ok (VTuple (match r with Some rows => singleton_firsts rows | None => [] end))
  /\ singleton_firsts [] = [].
Proof.
  intros Hb Hj H0 H1 H2.
  destruct (bytea_list_answered w ob bank r Hb H0 H1 H2) as [w1 E1].
  destruct (jsonb_list_answered w oj bank r Hj H0 H1 H2) as [w2 E2].
  rewrite E1, E2. cbn [fst]. rewrite first_of_singletons_spec.
  repeat split; reflexivity.
Qed.

Lemma list_total_witness :
  let w := world_of ∅ []
             [Normal;
              Answers (Some [[VStr "web1"]; [VStr "a"; VStr "b"]; []; [VInt 7]]);
              Normal] in
  fst (pgbytea.list_ "minions" w) = Ok (VTuple [VStr "web1"; VInt 7])
  /\ fst (pgjsonb_encoded.list_ "minions" w) = Ok (VTuple [VStr "web1"; VInt 7]).
Proof.
  intros w.
  destruct (list_total w default_options default_options "minions"
              (Some [[VStr "web1"]; [VStr "a"; VStr "b"]; []; [VInt 7]])
              eq_refl eq_refl eq_refl eq_refl eq_refl) as (H1 & H2 & _).
  split; [exact H1 | exact H2].
Defined.

(** ** Storing and fetching again *)

Lemma jsonb_store_fetch (w : World) o t bank key v lit back :
  ready pgjsonb_encoded._get_options o t w ->
  quote_free bank = true -> quote_free key = true ->
  fits bank = true -> fits key = true ->
  json_adapt (fst (payload_of v)) = Ok (LJson lit) ->
  json_storable lit = true ->
  (if snd (payload_of v) then b64decode lit else Ok lit) = Ok back ->
  exists w1 w2,
    pgjsonb_encoded.store bank key v w = (Ok VNone, w1) /\
    w_committed w1
    = upsert_rows bank key (LJson lit) (Some (snd (payload_of v)))
        (w_clock w + 1) (w_next_id w) (w_committed w) /\
    pgjsonb_encoded.fetch bank key w1 = (Ok back, w2).
Proof.
  intros Hw Hb Hk Hfb Hfk Hj Hst Hback.
  destruct (jsonb_store_run w o t bank key v lit Hw Hb Hk Hfb Hfk Hj Hst)
    as (w1 & E1 & Hrows & Hw1).
  destruct (upsert_then_select bank key (LJson lit) (Some (snd (payload_of v)))
              (w_clock w + 1) (w_next_id w) (w_committed w))
    as (r & rest & Hf & Hd & He).
  rewrite <- Hrows in Hf.
  destruct (jsonb_fetch_hit w1 o t bank key r rest back Hw1 Hb Hk Hf) as [w2 E2].
  { rewrite Hd, (He _ eq_refl). exact Hback. }
  exists w1, w2. auto.
Qed.

Lemma bytea_store_fetch dumps loads (w : World) o t bank key v b :
  ready pgbytea._get_options o t w ->
  quote_free bank = true -> quote_free key = true ->
  fits bank = true -> fits key = true ->
  dumps v = Ok b -> loads (VBytes b) = Ok v ->
  exists w1 w2,
    pgbytea.store dumps bank key v w = (Ok VNone, w1) /\
    pgbytea.fetch loads bank key w1 = (Ok v, w2).
Proof.
  intros Hw Hb Hk Hfb Hfk Hd Hl.
  destruct (bytea_store_run dumps w o t bank key v b Hw Hb Hk Hfb Hfk Hd)
    as (w1 & E1 & Hrows & Hw1).
  destruct (upsert_then_select bank key (LBytea b) None
              (w_clock w + 1) (w_next_id w) (w_committed w))
    as (r & rest & Hf & Hdat & _).
  rewrite <- Hrows in Hf.
  destruct (bytea_fetch_hit loads w1 o t bank key r rest v Hw1 Hb Hk Hf) as [w2 E2].
  { rewrite Hdat. exact Hl. }
  exists w1, w2. auto.
Qed.

(** A text that jsonb cannot hold: the INSERT fails, [store] logs the
    error and returns None, and the table is as before. *)
Lemma jsonb_store_refused (w : World) o t bank key v lit :
  ready pgjsonb_encoded._get_options o t w ->
  quote_free bank = true -> quote_free key = true ->
  fits bank = true -> fits key = true ->
  json_adapt (fst (payload_of v)) = Ok (LJson lit) ->
  json_storable lit = false ->
  exists w',
    pgjsonb_encoded.store bank key v w = (Ok VNone, w') /\
    w_committed w' = w_committed w /\
    ready pgjsonb_encoded._get_options o t w'.
Proof.
  intros Hw Hb Hk Hfb Hfk Hj Hst. pose proof Hw as (Ho & Ht & Hi & Hr & Hc).
  destruct (payload_of v) as [p e] eqn:Hp. cbn [fst snd] in *.
  eexists. split.
  - unfold pgjsonb_encoded.store, pgjsonb_encoded._get_serv.
    run ltac:(first [ rewrite Ht | rewrite Hj
                    | rewrite encode_payload_run, Hp
                    | apply (read_jsonb_store t bank key lit e Hi Hb Hk) ]) Hc.
  - split; [reflexivity | ready_done Hw].
Qed.

(** C8 (amended): in the JSON plugin, for every bytes payload [b]:
    [store] derives the base64 text with the flag set when [b] is not
    valid UTF-8 and the decoded text with the flag clear otherwise.  When
    the connection is made, the statements run and bank and key hold no
    single quote and at most 255 characters, that payload and flag are
    written under the key, unless the decoded text holds the character
    NUL, which jsonb cannot hold: then [store] returns None and the
    table is as before.  [fetch] decodes base64 exactly when the row's
    flag is set; decoding undoes encoding; so [fetch] after [store]
    returns the bytes themselves when they are not valid UTF-8. *)
Theorem jsonb_base64 (b : string) (w : World) o t bank key :
  ready pgjsonb_encoded._get_options o t w ->
  quote_free bank = true -> quote_free key = true ->
  fits bank = true -> fits key = true ->
  pgjsonb_encoded.encode_payload (VBytes b) w
  = (Ok (if utf8_valid b then (VStr b, false) else (VStr (b64encode b), true)), w)
  /\ (utf8_valid b && has_nul b = false ->
      exists w1 w2,
        pgjsonb_encoded.store bank key (VBytes b) w = (Ok VNone, w1) /\
        w_committed w1
        = upsert_rows bank key
            (LJson (VStr (if utf8_valid b then b else b64encode b)))
            (Some (negb (utf8_valid b)))
            (w_clock w + 1) (w_next_id w) (w_committed w) /\
        pgjsonb_encoded.fetch bank key w1
        = (Ok (if utf8_valid b then VStr b else VBytes b), w2))
  /\ (utf8_valid b && has_nul b = true ->
      exists w1,
        pgjsonb_encoded.store bank key (VBytes b) w = (Ok VNone, w1) /\
        w_committed w1 = w_committed w)
  /\ (forall d e rest,
        pgjsonb_encoded.decode_row ([d; VBool e] :: rest)
        = if e then b64decode d else Ok d)
  /\ b64decode (VStr (b64encode b)) = Ok (VBytes b).
Proof.
  intros Hw Hb Hk Hfb Hfk.
  split; [apply encode_payload_run|].
  split; [|split; [|split; [apply decode_row_head | apply b64decode_encode]]].
  - intros Hn. destruct (utf8_valid b) eqn:Hu.
    + destruct (jsonb_store_fetch w o t bank key (VBytes b) (VStr b) (VStr b)
                  Hw Hb Hk Hfb Hfk) as (w1 & w2 & E1 & Hrows & E2).
      * unfold payload_of. rewrite Hu. reflexivity.
      * cbn [json_storable]. cbn [andb] in Hn. by rewrite Hn.
      * unfold payload_of. rewrite Hu. reflexivity.
      * unfold payload_of in Hrows. rewrite Hu in Hrows. exists w1, w2. auto.
    + destruct (jsonb_store_fetch w o t bank key (VBytes b) (VStr (b64encode b))
                  (VBytes b) Hw Hb Hk Hfb Hfk) as (w1 & w2 & E1 & Hrows & E2).
      * unfold payload_of. rewrite Hu. reflexivity.
      * apply b64encode_storable.
      * unfold payload_of. rewrite Hu. cbn [snd]. apply b64decode_encode.
      * unfold payload_of in Hrows. rewrite Hu in Hrows. exists w1, w2. auto.
  - intros Hn. apply andb_true_iff in Hn as [Hu Hn].
    destruct (jsonb_store_refused w o t bank key (VBytes b) (VStr b)
                Hw Hb Hk Hfb Hfk) as (w1 & E1 & Hrows & _).
    + unfold payload_of. rewrite Hu. reflexivity.
    + cbn [json_storable]. by rewrite Hn.
    + exists w1. auto.
Qed.

Lemma jsonb_base64_witness :
  exists w1 w2,
    pgjsonb_encoded.store "bank1" "k1" (VBytes ff_fe_00) (world_of ∅ [] [])
    = (Ok VNone, w1) /\
    w_committed w1
    = [ {| r_bank := "bank1"; r_key := "k1"; r_data := Some (LJson (VStr "//4A"));
           r_encoded := true; r_id := 1; r_changed := 1700000001 |} ] /\
    pgjsonb_encoded.fetch "bank1" "k1" w1 = (Ok (VBytes ff_fe_00), w2).
Proof.
  destruct (jsonb_base64 ff_fe_00 (world_of ∅ [] []) default_options
              "salt_cache" "bank1" "k1" (world_of_ready_jsonb [])
              eq_refl eq_refl eq_refl eq_refl)
    as (_ & Hok & _).
  destruct (Hok eq_refl) as (w1 & w2 & E1 & Hrows & E2).
  exists w1, w2. split; [exact E1|]. split; [|exact E2].
  rewrite Hrows. reflexivity.
Defined.

(** C8 as stated fails: the bytes [b"a\x00b"] are valid UTF-8, but their
    text is not stored; the table stays empty and [fetch] finds
    nothing. *)
Lemma nul_text_not_stored :
  let b := String "a" (String "000" (String "b" "")) in
  let w1 := snd (pgjsonb_encoded.store "bank1" "k1" (VBytes b) (world_of ∅ [] [])) in
  utf8_valid b = true
  /\ w_committed w1 = []
  /\ fst (pgjsonb_encoded.fetch "bank1" "k1" w1) = Ok (VDict []).
Proof. repeat split; vm_compute; reflexivity. Qed.

(** C3 (amended): for every bank and key that contain no single quote
    and have no row in the table, when the connection is made and the
    statement runs, [fetch] returns the empty mapping, [updated] returns
    0 and [contains] returns false in both plugins, and [id] of the
    binary plugin returns the nil UUID; none of them raises. *)
Theorem miss_defaults loads (w : World) ob oj t bank key :
  ready pgbytea._get_options ob t w ->
  ready pgjsonb_encoded._get_options oj t w ->
  quote_free bank = true -> quote_free key = true ->
  List.filter (same_key bank key) (w_committed w) = [] ->
  fst (pgbytea.fetch loads bank key w) = Ok (VDict [])
  /\ fst (pgbytea.updated bank key w) = Ok (VInt 0)
  /\ fst (pgbytea.contains bank key w) = Ok (VBool false)
  /\ fst (pgbytea.id_ bank key w) = Ok (VUUID 0)
  /\ fst (pgjsonb_encoded.fetch bank key w) = Ok (VDict [])
  /\ fst (pgjsonb_encoded.updated bank key w) = Ok (VInt 0)
  /\ fst (pgjsonb_encoded.contains bank key w) = Ok (VBool false).
Proof.
  intros Hwb Hwj Hb Hk Hf.
  destruct (bytea_fetch_miss loads w ob t bank key Hwb Hb Hk Hf) as [w1 E1].
  destruct (bytea_updated_miss w ob t bank key Hwb Hb Hk Hf) as [w2 E2].
  destruct (bytea_contains_miss w ob t bank key Hwb Hb Hk Hf) as [w3 E3].
  destruct (bytea_id_miss w ob t bank key Hwb Hb Hk Hf) as [w4 E4].
  destruct (jsonb_fetch_miss w oj t bank key Hwj Hb Hk Hf) as [w5 E5].
  destruct (jsonb_updated_miss w oj t bank key Hwj Hb Hk Hf) as [w6 E6].
  destruct (jsonb_contains_miss w oj t bank key Hwj Hb Hk Hf) as [w7 E7].
  rewrite E1, E2, E3, E4, E5, E6, E7. repeat split; reflexivity.
Qed.

Lemma miss_defaults_witness :
  let w := world_of ∅ [a_row "minions" "web1" (LBytea "x")] [] in
  fst (pgbytea.fetch text_loads "minions" "web2" w) = Ok (VDict [])
  /\ fst (pgbytea.updated "minions" "web2" w) = Ok (VInt 0)
  /\ fst (pgbytea.contains "minions" "web2" w) = Ok (VBool false)
  /\ fst (pgbytea.id_ "minions" "web2" w) = Ok (VUUID 0)
  /\ fst (pgjsonb_encoded.fetch "minions" "web2" w) = Ok (VDict [])
  /\ fst (pgjsonb_encoded.updated "minions" "web2" w) = Ok (VInt 0)
  /\ fst (pgjsonb_encoded.contains "minions" "web2" w) = Ok (VBool false).
Proof.
  intros w.
  exact (miss_defaults text_loads w default_options default_options
           "salt_cache" "minions" "web2" (world_of_ready_bytea _)
           (world_of_ready_jsonb _) eq_refl eq_refl eq_refl).
Defined.

(** C3 as stated fails: with an empty table, hence no row for the pair,
    [fetch] of the bank [a'b] raises the server's syntax error. *)
Lemma miss_quote_raises :
  fst (pgbytea.fetch text_loads "a'b" "k" (world_of ∅ [] []))
  = Raise syntax_error.
Proof. vm_compute. reflexivity. Qed.

(** C1 (amended): for bank and key without a single quote and of at
    most 255 characters, when the connection is made and the statements
    run: in the binary plugin [fetch] after [store] returns [v] for every
    value the codec round-trips; in the JSON plugin it returns [v] for
    bytes that are not valid UTF-8 and for every value other than bytes
    that the JSON adapter renders unchanged and whose texts hold no NUL
    character, and it returns the decoded text, not the bytes, for bytes
    that are valid UTF-8 without NUL. *)
Theorem store_fetch_roundtrip dumps loads (w : World) ob oj t bank key :
  ready pgbytea._get_options ob t w ->
  ready pgjsonb_encoded._get_options oj t w ->
  quote_free bank = true -> quote_free key = true ->
  fits bank = true -> fits key = true ->
  (forall v b, dumps v = Ok b -> loads (VBytes b) = Ok v ->
     exists w1 w2,
       pgbytea.store dumps bank key v w = (Ok VNone, w1) /\
       pgbytea.fetch loads bank key w1 = (Ok v, w2))
  /\ (forall b, utf8_valid b = false ->
       exists w1 w2,
         pgjsonb_encoded.store bank key (VBytes b) w = (Ok VNone, w1) /\
         pgjsonb_encoded.fetch bank key w1 = (Ok (VBytes b), w2))
  /\ (forall v, (forall b, v <> VBytes b) -> json_adapt v = Ok (LJson v) ->
       json_storable v = true ->
       exists w1 w2,
         pgjsonb_encoded.store bank key v w = (Ok VNone, w1) /\
         pgjsonb_encoded.fetch bank key w1 = (Ok v, w2))
  /\ (forall b, utf8_valid b = true -> has_nul b = false ->
       exists w1 w2,
         pgjsonb_encoded.store bank key (VBytes b) w = (Ok VNone, w1) /\
         pgjsonb_encoded.fetch bank key w1 = (Ok (VStr b), w2)).
Proof.
  intros Hwb Hwj Hb Hk Hfb Hfk. repeat split.
  - intros v b Hd Hl. exact (bytea_store_fetch dumps loads w ob t bank key v b
                               Hwb Hb Hk Hfb Hfk Hd Hl).
  - intros b Hu.
    destruct (jsonb_store_fetch w oj t bank key (VBytes b) (VStr (b64encode b))
                (VBytes b) Hwj Hb Hk Hfb Hfk) as (w1 & w2 & E1 & _ & E2).
    + unfold payload_of. rewrite Hu. reflexivity.
    + apply b64encode_storable.
    + unfold payload_of. rewrite Hu. cbn [snd]. apply b64decode_encode.
    + exists w1, w2. auto.
  - intros v Hv Hj Hst.
    assert (Hp : payload_of v = (v, false)).
    { destruct v; try reflexivity. by destruct (Hv s). }
    destruct (jsonb_store_fetch w oj t bank key v v v Hwj Hb Hk Hfb Hfk)
      as (w1 & w2 & E1 & _ & E2).
    + rewrite Hp. exact Hj.
    + exact Hst.
    + rewrite Hp. reflexivity.
    + exists w1, w2. auto.
  - intros b Hu Hn.
    destruct (jsonb_store_fetch w oj t bank key (VBytes b) (VStr b) (VStr b)
                Hwj Hb Hk Hfb Hfk) as (w1 & w2 & E1 & _ & E2).
    + unfold payload_of. rewrite Hu. reflexivity.
    + cbn [json_storable]. by rewrite Hn.
    + unfold payload_of. rewrite Hu. reflexivity.
    + exists w1, w2. auto.
Qed.

Lemma store_fetch_roundtrip_witness :
  let w := world_of ∅ [] [] in
  (exists w1 w2,
     pgbytea.store text_dumps "minions" "web1" (VStr "10.0.0.5") w = (Ok VNone, w1) /\
     pgbytea.fetch text_loads "minions" "web1" w1 = (Ok (VStr "10.0.0.5"), w2))
  /\ (exists w1 w2,
        pgjsonb_encoded.store "minions" "web1" (VDict [("ip", VStr "10.0.0.5")]) w
        = (Ok VNone, w1) /\
        pgjsonb_encoded.fetch "minions" "web1" w1
        = (Ok (VDict [("ip", VStr "10.0.0.5")]), w2)).
Proof.
  intros w.
  destruct (store_fetch_roundtrip text_dumps text_loads w default_options
              default_options "salt_cache" "minions" "web1"
              (world_of_ready_bytea _) (world_of_ready_jsonb _) eq_refl eq_refl
              eq_refl eq_refl)
    as (Hbin & _ & Hjson & _).
  split.
  - exact (Hbin (VStr "10.0.0.5") "10.0.0.5" eq_refl eq_refl).
  - apply Hjson; [intros b; discriminate | reflexivity | reflexivity].
Defined.

(** C1 as stated fails in the JSON plugin: the bytes [b"abc"] come back as
    the text "abc". *)
Lemma roundtrip_utf8_bytes_changed :
  let w := world_of ∅ [] [] in
  fst (pgjsonb_encoded.fetch "bank1" "k1"
         (snd (pgjsonb_encoded.store "bank1" "k1" (VBytes "abc") w)))
  = Ok (VStr "abc")
  /\ Ok (VStr "abc") <> Ok (VBytes "abc").
Proof. split; [vm_compute; reflexivity | discriminate]. Qed.

(** ** Flushing *)

Lemma delete_by_bank (b : string) (rows : list Row) :
  delete_rows [(CBank, b)] rows
  = List.filter (fun r => negb (String.eqb (r_bank r) b)) rows.
Proof.
  unfold delete_rows. apply filter_ext_eq. intros r. by rewrite matches_bank.
Qed.

Lemma delete_by_key (b k : string) (rows : list Row) :
  delete_rows [(CBank, b); (CKey, k)] rows
  = List.filter (fun r => negb (same_key b k r)) rows.
Proof.
  unfold delete_rows. apply filter_ext_eq. intros r. by rewrite matches_key.
Qed.

Lemma filter_absent_key (b k : string) (rows : list Row) :
  (b, k) ∉ row_key <$> rows ->
  List.filter (fun r => negb (same_key b k r)) rows = rows.
Proof.
  induction rows as [|r rows IH]; simpl; intros Hn; [reflexivity|].
  destruct (same_key b k r) eqn:E.
  - exfalso. apply Hn. apply same_key_iff in E. rewrite <- E. left.
  - simpl. f_equal. apply IH. intros Hin. apply Hn. by right.
Qed.

(** Under the primary key a delete by key removes at most one row. *)
Lemma delete_key_at_most_one (b k : string) (rows : list Row) :
  unique_keys rows ->
  (length rows <= S (length (List.filter (fun r => negb (same_key b k r)) rows)))%nat.
Proof.
  unfold unique_keys. induction rows as [|r rows IH]; simpl; intros H; [lia|].
  apply NoDup_cons in H as [Hr H].
  destruct (same_key b k r) eqn:E; simpl.
  - apply same_key_iff in E. rewrite E in Hr.
    rewrite filter_absent_key by done. lia.
  - specialize (IH H). lia.
Qed.

(** ** The connection scope *)







(** ** What crosses the boundary *)



Lemma jsonb_after_table {A} (f : PyVal -> M A) (w : World) o :
  pgjsonb_encoded._get_options (w_opts w) = Ok o ->
  (pgjsonb_encoded.get_table ≫= f) w = f (o_table o) w.
Proof.
  intros Ho. unfold pgjsonb_encoded.get_table, mbind, M_bind, with_opts, mret, M_ret.
  rewrite Ho. reflexivity.
Qed.




(** A base64 text the decoder rejects: the error leaves [fetch] unless it
    is an [IndexError]. *)
Lemma jsonb_fetch_undecodable (w : World) o t bank key r rest e :
  ready pgjsonb_encoded._get_options o t w ->
  quote_free bank = true -> quote_free key = true ->
  List.filter (same_key bank key) (w_committed w) = r :: rest ->
  (if r_encoded r then b64decode (py_of_data (r_data r))
   else Ok (py_of_data (r_data r))) = Raise e ->
  is_IndexError e = false ->
  exists w', pgjsonb_encoded.fetch bank key w = (Raise e, w').
Proof.
  intros Hw Hb Hk Hf Hv He. pose proof Hw as (Ho & Ht & Hi & Hr & Hc).
  destruct (is_DatabaseError e) eqn:Hd;
    unfold pgjsonb_encoded.fetch, pgjsonb_encoded._get_serv; eexists;
    run ltac:(first [ rewrite Ht | rewrite select_by_key, Hf
                    | rewrite decode_row_head, Hv
                    | apply (read_jsonb_fetch t bank key Hi Hb Hk) ]) Hc.
Qed.

(** * Further properties of the plugins *)

(** ** Every operation's outcome and final world, in a ready world *)

Ltac world_done Hw :=
  repeat split;
  first [ reflexivity
        | cbn; rewrite <- ?app_assoc; reflexivity
        | ready_done Hw ].

Lemma bytea_contains_world (w : World) o t bank key :
  ready pgbytea._get_options o t w ->
  quote_free bank = true -> quote_free key = true ->
  exists w',
    pgbytea.contains bank key w
    = (Ok (VBool (Z.of_nat (length (List.filter has_data
                                      (rows_at bank key (w_committed w)))) =? 1)),
       w') /\
    w_committed w' = w_committed w /\
    w_trace w'
    = w_trace w ++ round_trip o (pgbytea.contains_query (VStr t) bank key) /\
    ready pgbytea._get_options o t w'.
Proof.
  intros Hw Hb Hk. pose proof Hw as (Ho & Ht & Hi & Hr & Hc).
  eexists. split.
  - unfold pgbytea.contains, pgbytea._get_serv.
    run ltac:(first [ rewrite Ht | rewrite select_by_key
                    | apply (read_bytea_contains t bank key Hi Hb Hk) ]) Hc.
  - world_done Hw.
Qed.

Lemma jsonb_contains_world (w : World) o t bank key :
  ready pgjsonb_encoded._get_options o t w ->
  quote_free bank = true -> quote_free key = true ->
  exists w',
    pgjsonb_encoded.contains bank key w
    = (Ok (VBool (Z.of_nat (length (List.filter has_data
                                      (rows_at bank key (w_committed w)))) =? 1)),
       w') /\
    w_committed w' = w_committed w /\
    w_trace w'
    = w_trace w ++ round_trip o (pgjsonb_encoded.contains_query (VStr t) bank key) /\
    ready pgjsonb_encoded._get_options o t w'.
Proof.
  intros Hw Hb Hk. pose proof Hw as (Ho & Ht & Hi & Hr & Hc).
  eexists. split.
  - unfold pgjsonb_encoded.contains, pgjsonb_encoded._get_serv.
    run ltac:(first [ rewrite Ht | rewrite select_by_key
                    | apply (read_jsonb_contains t bank key Hi Hb Hk) ]) Hc.
  - world_done Hw.
Qed.

Lemma bytea_list_world (w : World) o t bank :
  ready pgbytea._get_options o t w ->
  quote_free bank = true ->
  exists w',
    pgbytea.list_ bank w
    = (Ok (first_of_singletons
             (Some (cells PKey <$> rows_of bank (w_committed w)))), w') /\
    w_committed w' = w_committed w /\
    w_trace w' = w_trace w ++ round_trip o (pgbytea.list_query (VStr t) bank) /\
    ready pgbytea._get_options o t w'.
Proof.
  intros Hw Hb. pose proof Hw as (Ho & Ht & Hi & Hr & Hc).
  eexists. split.
  - unfold pgbytea.list_, pgbytea._get_serv.
    run ltac:(first [ rewrite Ht | rewrite select_by_bank
                    | apply (read_bytea_list t bank Hi Hb) ]) Hc.
  - world_done Hw.
Qed.

Lemma jsonb_list_world (w : World) o t bank :
  ready pgjsonb_encoded._get_options o t w ->
  quote_free bank = true ->
  exists w',
    pgjsonb_encoded.list_ bank w
    = (Ok (first_of_singletons
             (Some (cells PKey <$> rows_of bank (w_committed w)))), w') /\
    w_committed w' = w_committed w /\
    w_trace w' = w_trace w ++ round_trip o (pgjsonb_encoded.list_query (VStr t) bank) /\
    ready pgjsonb_encoded._get_options o t w'.
Proof.
  intros Hw Hb. pose proof Hw as (Ho & Ht & Hi & Hr & Hc).
  eexists. split.
  - unfold pgjsonb_encoded.list_, pgjsonb_encoded._get_serv.
    run ltac:(first [ rewrite Ht | rewrite select_by_bank
                    | apply (read_jsonb_list t bank Hi Hb) ]) Hc.
  - world_done Hw.
Qed.

Lemma bytea_updated_world (w : World) o t bank key :
  ready pgbytea._get_options o t w ->
  quote_free bank = true -> quote_free key = true ->
  forallb (fun x => int4 (r_changed x)) (rows_at bank key (w_committed w)) = true ->
  exists w',
    pgbytea.updated bank key w
    = (Ok (match rows_at bank key (w_committed w) with
           | r :: _ => VInt (r_changed r)
           | [] => VInt 0
           end), w') /\
    w_committed w' = w_committed w /\
    w_trace w' = w_trace w ++ round_trip o (pgbytea.updated_query (VStr t) bank key) /\
    ready pgbytea._get_options o t w'.
Proof.
  intros Hw Hb Hk Hin. pose proof Hw as (Ho & Ht & Hi & Hr & Hc).
  unfold rows_at.
  destruct (List.filter (same_key bank key) (w_committed w)) as [|r rest] eqn:Hf;
    (eexists; split;
     [ unfold pgbytea.updated, pgbytea._get_serv;
       run ltac:(first [ rewrite Ht | rewrite select_by_key, Hf
                       | apply (read_bytea_updated t bank key Hi Hb Hk) ]) Hc
     | world_done Hw ]).
Qed.

Lemma jsonb_updated_world (w : World) o t bank key :
  ready pgjsonb_encoded._get_options o t w ->
  quote_free bank = true -> quote_free key = true ->
  forallb (fun x => int4 (r_changed x)) (rows_at bank key (w_committed w)) = true ->
  exists w',
    pgjsonb_encoded.updated bank key w
    = (Ok (match rows_at bank key (w_committed w) with
           | r :: _ => VInt (r_changed r)
           | [] => VInt 0
           end), w') /\
    w_committed w' = w_committed w /\
    w_trace w'
    = w_trace w ++ round_trip o (pgjsonb_encoded.updated_query (VStr t) bank key) /\
    ready pgjsonb_encoded._get_options o t w'.
Proof.
  intros Hw Hb Hk Hin. pose proof Hw as (Ho & Ht & Hi & Hr & Hc).
  unfold rows_at.
  destruct (List.filter (same_key bank key) (w_committed w)) as [|r rest] eqn:Hf;
    (eexists; split;
     [ unfold pgjsonb_encoded.updated, pgjsonb_encoded._get_serv;
       run ltac:(first [ rewrite Ht | rewrite select_by_key, Hf
                       | apply (read_jsonb_updated t bank key Hi Hb Hk) ]) Hc
     | world_done Hw ]).
Qed.

Section BinaryWorlds.

Variable loads : PyVal -> Result PyVal.

Lemma bytea_fetch_miss_world (w : World) o t bank key :
  ready pgbytea._get_options o t w ->
  quote_free bank = true -> quote_free key = true ->
  rows_at bank key (w_committed w) = [] ->
  exists w',
    pgbytea.fetch loads bank key w = (Ok (VDict []), w') /\
    w_committed w' = w_committed w /\
    w_trace w' = w_trace w ++ round_trip o (pgbytea.fetch_query (VStr t) bank key) /\
    w_log w'
    = w_log w ++ miss_records (pgbytea.fetch_query (VStr t) bank key) (VStr t) bank key /\
    ready pgbytea._get_options o t w'.
Proof.
  intros Hw Hb Hk Hf. pose proof Hw as (Ho & Ht & Hi & Hr & Hc).
  unfold rows_at in Hf.
  eexists. split.
  - unfold pgbytea.fetch, pgbytea._get_serv.
    run ltac:(first [ rewrite Ht | rewrite select_by_key, Hf
                    | apply (read_bytea_fetch t bank key Hi Hb Hk) ]) Hc.
  - world_done Hw.
Qed.

Lemma bytea_fetch_hit_world (w : World) o t bank key r rest v :
  ready pgbytea._get_options o t w ->
  quote_free bank = true -> quote_free key = true ->
  rows_at bank key (w_committed w) = r :: rest ->
  loads (py_of_data (r_data r)) = Ok v ->
  exists w',
    pgbytea.fetch loads bank key w = (Ok v, w') /\
    w_committed w' = w_committed w /\
    w_trace w' = w_trace w ++ round_trip o (pgbytea.fetch_query (VStr t) bank key) /\
    ready pgbytea._get_options o t w'.
Proof.
  intros Hw Hb Hk Hf Hl. pose proof Hw as (Ho & Ht & Hi & Hr & Hc).
  unfold rows_at in Hf.
  eexists. split.
  - unfold pgbytea.fetch, pgbytea._get_serv.
    run ltac:(first [ rewrite Ht | rewrite select_by_key, Hf | rewrite Hl
                    | apply (read_bytea_fetch t bank key Hi Hb Hk) ]) Hc.
  - world_done Hw.
Qed.

Lemma bytea_fetch_result (w : World) o t bank key :
  ready pgbytea._get_options o t w ->
  quote_free bank = true -> quote_free key = true ->
  fst (pgbytea.fetch loads bank key w)
  = bytea_fetched loads (rows_at bank key (w_committed w)).
Proof.
  intros Hw Hb Hk. pose proof Hw as (Ho & Ht & Hi & Hr & Hc).
  unfold bytea_fetched.
  destruct (rows_at bank key (w_committed w)) as [|r rest] eqn:Hf.
  - destruct (bytea_fetch_miss_world w o t bank key Hw Hb Hk Hf) as (w' & E & _).
    by rewrite E.
  - destruct (loads (py_of_data (r_data r))) as [v|e] eqn:Hl.
    + destruct (bytea_fetch_hit_world w o t bank key r rest v Hw Hb Hk Hf Hl)
        as (w' & E & _).
      by rewrite E.
    + destruct (is_IndexError e) eqn:He.
      * unfold rows_at in Hf.
        assert (E : exists w', pgbytea.fetch loads bank key w = (Ok (VDict []), w')).
        { unfold pgbytea.fetch, pgbytea._get_serv. eexists.
          run ltac:(first [ rewrite Ht | rewrite select_by_key, Hf | rewrite Hl
                          | apply (read_bytea_fetch t bank key Hi Hb Hk) ]) Hc. }
        destruct E as (w' & E). by rewrite E.
      * destruct (bytea_fetch_undecodable loads w o t bank key r rest e
                    Hw Hb Hk Hf Hl He) as (w' & E).
        by rewrite E.
Qed.

End BinaryWorlds.

Lemma jsonb_fetch_miss_world (w : World) o t bank key :
  ready pgjsonb_encoded._get_options o t w ->
  quote_free bank = true -> quote_free key = true ->
  rows_at bank key (w_committed w) = [] ->
  exists w',
    pgjsonb_encoded.fetch bank key w = (Ok (VDict []), w') /\
    w_committed w' = w_committed w /\
    w_trace w'
    = w_trace w ++ round_trip o (pgjsonb_encoded.fetch_query (VStr t) bank key) /\
    w_log w'
    = w_log w
      ++ miss_records (pgjsonb_encoded.fetch_query (VStr t) bank key) (VStr t) bank key /\
    ready pgjsonb_encoded._get_options o t w'.
Proof.
  intros Hw Hb Hk Hf. pose proof Hw as (Ho & Ht & Hi & Hr & Hc).
  unfold rows_at in Hf.
  eexists. split.
  - unfold pgjsonb_encoded.fetch, pgjsonb_encoded._get_serv.
    run ltac:(first [ rewrite Ht | rewrite select_by_key, Hf
                    | apply (read_jsonb_fetch t bank key Hi Hb Hk) ]) Hc.
  - world_done Hw.
Qed.

Lemma jsonb_fetch_hit_world (w : World) o t bank key r rest v :
  ready pgjsonb_encoded._get_options o t w ->
  quote_free bank = true -> quote_free key = true ->
  rows_at bank key (w_committed w) = r :: rest ->
  (if r_encoded r then b64decode (py_of_data (r_data r))
   else Ok (py_of_data (r_data r))) = Ok v ->
  exists w',
    pgjsonb_encoded.fetch bank key w = (Ok v, w') /\
    w_committed w' = w_committed w /\
    w_trace w'
    = w_trace w ++ round_trip o (pgjsonb_encoded.fetch_query (VStr t) bank key) /\
    ready pgjsonb_encoded._get_options o t w'.
Proof.
  intros Hw Hb Hk Hf Hv. pose proof Hw as (Ho & Ht & Hi & Hr & Hc).
  unfold rows_at in Hf.
  eexists. split.
  - unfold pgjsonb_encoded.fetch, pgjsonb_encoded._get_serv.
    run ltac:(first [ rewrite Ht | rewrite select_by_key, Hf
                    | rewrite decode_row_head, Hv
                    | apply (read_jsonb_fetch t bank key Hi Hb Hk) ]) Hc.
  - world_done Hw.
Qed.

Lemma jsonb_fetch_result (w : World) o t bank key :
  ready pgjsonb_encoded._get_options o t w ->
  quote_free bank = true -> quote_free key = true ->
  fst (pgjsonb_encoded.fetch bank key w)
  = jsonb_fetched (rows_at bank key (w_committed w)).
Proof.
  intros Hw Hb Hk. pose proof Hw as (Ho & Ht & Hi & Hr & Hc).
  unfold jsonb_fetched.
  destruct (rows_at bank key (w_committed w)) as [|r rest] eqn:Hf.
  { destruct (jsonb_fetch_miss_world w o t bank key Hw Hb Hk Hf) as (w' & E & _).
    by rewrite E. }
  destruct (if r_encoded r then b64decode (py_of_data (r_data r))
            else Ok (py_of_data (r_data r))) as [v|e] eqn:Hv.
  - destruct (jsonb_fetch_hit_world w o t bank key r rest v Hw Hb Hk Hf Hv)
      as (w' & E & _).
    rewrite E. cbn [fst]. destruct (r_encoded r); [by rewrite Hv | done].
  - assert (E : fst (pgjsonb_encoded.fetch bank key w)
                = if is_IndexError e then Ok (VDict []) else Raise e).
    { destruct (is_IndexError e) eqn:He.
      - unfold rows_at in Hf.
        assert (E : exists w', pgjsonb_encoded.fetch bank key w = (Ok (VDict []), w')).
        { unfold pgjsonb_encoded.fetch, pgjsonb_encoded._get_serv. eexists.
          run ltac:(first [ rewrite Ht | rewrite select_by_key, Hf
                          | rewrite decode_row_head, Hv
                          | apply (read_jsonb_fetch t bank key Hi Hb Hk) ]) Hc. }
        destruct E as (w' & E). by rewrite E.
      - destruct (jsonb_fetch_undecodable w o t bank key r rest e
                    Hw Hb Hk Hf Hv He) as (w' & E).
        by rewrite E. }
    rewrite E. destruct (r_encoded r); [by rewrite Hv | discriminate].
Qed.

(** ** The text of a uuid, read back *)

Lemma hex_digit_val (d : N) : (d < 16)%N -> hex_val (hex_digit d) = Some d.
Proof.
  intros Hd.
  assert (H64 : (d < 64)%N) by lia.
  pose proof (below_64 (fun n => if (n <? 16)%N
                                 then match hex_val (hex_digit n) with
                                      | Some m => (m =? n)%N
                                      | None => false
                                      end
                                 else true) eq_refl d H64) as H.
  cbv beta in H. apply N.ltb_lt in Hd. rewrite Hd in H.
  destruct (hex_val (hex_digit d)); [|discriminate].
  apply N.eqb_eq in H. by subst.
Qed.

Lemma hex_digit_not_hyphen (d : N) :
  (d < 16)%N -> Ascii.eqb (hex_digit d) "-" = false.
Proof.
  intros Hd.
  assert (H64 : (d < 64)%N) by lia.
  pose proof (below_64 (fun n => if (n <? 16)%N
                                 then negb (Ascii.eqb (hex_digit n) "-")
                                 else true) eq_refl d H64) as H.
  cbv beta in H. apply N.ltb_lt in Hd. rewrite Hd in H.
  by apply negb_true_iff.
Qed.

Lemma hex_number_fixed (width : nat) (n : N) (acc : string) (a : N) :
  hex_number (hex_fixed width n acc) a
  = hex_number acc (a * 16 ^ N.of_nat width + n mod 16 ^ N.of_nat width)%N.
Proof.
  revert n acc a. induction width as [|width IH]; intros n acc a.
  - simpl. f_equal. rewrite N.mod_1_r. lia.
  - cbn [hex_fixed]. rewrite IH. cbn [hex_number].
    rewrite hex_digit_val by (apply N.mod_lt; lia).
    f_equal. rewrite Nat2N.inj_succ, N.pow_succ_r'.
    rewrite (N.Div0.mod_mul_r n 16). lia.
Qed.

Lemma hex_fixed_length (width : nat) (n : N) (acc : string) :
  String.length (hex_fixed width n acc) = (width + String.length acc)%nat.
Proof.
  revert n acc. induction width as [|width IH]; intros n acc; [reflexivity|].
  cbn [hex_fixed]. rewrite IH. simpl. lia.
Qed.

Lemma hex_fixed_hyphen_free (width : nat) (n : N) (acc : string) :
  hyphen_free acc = true -> hyphen_free (hex_fixed width n acc) = true.
Proof.
  revert n acc. induction width as [|width IH]; intros n acc H; [exact H|].
  cbn [hex_fixed]. apply IH. cbn [hyphen_free].
  rewrite hex_digit_not_hyphen by (apply N.mod_lt; lia). exact H.
Qed.

Lemma drop_hyphens_free (s : string) : hyphen_free s = true -> drop_hyphens s = s.
Proof.
  induction s as [|a s IH]; [reflexivity|]. cbn [hyphen_free drop_hyphens].
  intros H. apply andb_true_iff in H as [Ha Hs]. apply negb_true_iff in Ha.
  rewrite Ha. f_equal. by apply IH.
Qed.

Lemma drop_hyphens_app (a b : string) :
  drop_hyphens (a +:+ b) = drop_hyphens a +:+ drop_hyphens b.
Proof.
  induction a as [|x a IH]; [reflexivity|].
  rewrite append_cons. cbn [drop_hyphens]. rewrite IH.
  by destruct (Ascii.eqb x "-").
Qed.

Lemma substring_hyphen_free (i l : nat) (s : string) :
  hyphen_free s = true -> hyphen_free (substring i l s) = true.
Proof.
  revert i l. induction s as [|a s IH]; intros i l H.
  - by destruct i, l.
  - cbn [hyphen_free] in H. apply andb_true_iff in H as [Ha Hs].
    destruct i as [|i]; [destruct l as [|l]|]; cbn [substring hyphen_free];
      [done | rewrite Ha; by apply IH | by apply IH].
Qed.

Lemma substring_app (i a b : nat) (s : string) :
  substring i a s +:+ substring (i + a) b s = substring i (a + b) s.
Proof.
  revert i a. induction s as [|x s IH]; intros i a.
  - destruct i, a, b; reflexivity.
  - destruct i as [|i].
    + destruct a as [|a]; [reflexivity|].
      cbn [substring Nat.add]. rewrite append_cons. f_equal.
      exact (IH 0%nat a).
    + cbn [substring Nat.add]. apply IH.
Qed.

Lemma substring_full (s : string) : substring 0 (String.length s) s = s.
Proof. induction s as [|x s IH]; [reflexivity|]. simpl. by rewrite IH. Qed.

(** [uuid.UUID(str(u)) == u] for every 128-bit [u]. *)
Lemma uuid_text_read (n : N) :
  (n < 2 ^ 128)%N -> py_UUID (VStr (uuid_text n)) = Ok (VUUID n).
Proof.
  intros Hn. unfold py_UUID, uuid_text.
  pose proof (hex_fixed_hyphen_free 32 n "" eq_refl) as Hfree.
  pose proof (hex_fixed_length 32 n "") as Hlen.
  set (h := hex_fixed 32 n "") in *.
  assert (E : drop_hyphens
                (substring 0 8 h +:+ "-" +:+ substring 8 4 h +:+ "-"
                 +:+ substring 12 4 h +:+ "-" +:+ substring 16 4 h +:+ "-"
                 +:+ substring 20 12 h) = h).
  { rewrite !drop_hyphens_app.
    rewrite !(drop_hyphens_free (substring _ _ h))
      by (by apply substring_hyphen_free).
    change (drop_hyphens "-") with "". rewrite !append_nil_l.
    rewrite (substring_app 16 4 12 h : substring 16 4 h +:+ substring 20 12 h = substring 16 16 h).
    rewrite (substring_app 12 4 16 h : substring 12 4 h +:+ substring 16 16 h = substring 12 20 h).
    rewrite (substring_app 8 4 20 h : substring 8 4 h +:+ substring 12 20 h = substring 8 24 h).
    rewrite (substring_app 0 8 24 h : substring 0 8 h +:+ substring 8 24 h = substring 0 32 h).
    change 32%nat with (32 + String.length "")%nat at 1. rewrite <- Hlen.
    apply substring_full. }
  cbv zeta. rewrite E, Hlen. cbn [Nat.add String.length Nat.eqb].
  unfold h. rewrite hex_number_fixed. cbn [hex_number].
  rewrite N.mul_0_l, N.add_0_l.
  change (16 ^ N.of_nat 32)%N with (2 ^ 128)%N.
  by rewrite N.mod_small.
Qed.

Lemma bytea_id_world (w : World) o t bank key :
  ready pgbytea._get_options o t w ->
  quote_free bank = true -> quote_free key = true ->
  (forall r, r ∈ w_committed w -> (r_id r < 2 ^ 128)%N) ->
  exists w',
    pgbytea.id_ bank key w
    = (Ok (match rows_at bank key (w_committed w) with
           | r :: _ => VUUID (r_id r)
           | [] => VUUID 0
           end), w') /\
    w_committed w' = w_committed w /\
    w_trace w' = w_trace w ++ round_trip o (pgbytea.id_query (VStr t) bank key) /\
    ready pgbytea._get_options o t w'.
Proof.
  intros Hw Hb Hk Hid. pose proof Hw as (Ho & Ht & Hi & Hr & Hc).
  unfold rows_at.
  destruct (List.filter (same_key bank key) (w_committed w)) as [|r rest] eqn:Hf.
  - eexists. split.
    + unfold pgbytea.id_, pgbytea._get_serv.
      run ltac:(first [ rewrite Ht | rewrite select_by_key, Hf
                      | apply (read_bytea_id t bank key Hi Hb Hk) ]) Hc.
    + world_done Hw.
  - assert (Hu : py_UUID (VStr (uuid_text (r_id r))) = Ok (VUUID (r_id r))).
    { apply uuid_text_read, Hid.
      assert (Hin : In r (List.filter (same_key bank key) (w_committed w)))
        by (rewrite Hf; by left).
      apply filter_In in Hin as [Hin _]. by apply list_elem_of_In. }
    eexists. split.
    + unfold pgbytea.id_, pgbytea._get_serv.
      run ltac:(first [ rewrite Ht | rewrite select_by_key, Hf | rewrite Hu
                      | apply (read_bytea_id t bank key Hi Hb Hk) ]) Hc.
    + world_done Hw.
Qed.

Lemma stored_rows_fits (bank key : string) d e now fresh (rows : list Row) :
  fits bank = true -> fits key = true -> lit_storable d = true ->
  stored_rows bank key d e now fresh rows = upsert_rows bank key d e now fresh rows.
Proof.
  intros Hb Hk Hd. unfold stored_rows, stored_under.
  by rewrite (varchar_fits bank Hb), (varchar_fits key Hk), Hd.
Qed.

Ltac store_done Hw :=
  repeat split;
  first [ reflexivity | cbn; rewrite <- ?app_assoc; reflexivity
        | cbn; lia | ready_done Hw ].

(** [store] in a ready world, whatever the columns make of the values. *)
Lemma bytea_store_world dumps (w : World) o t bank key v b :
  ready pgbytea._get_options o t w ->
  quote_free bank = true -> quote_free key = true ->
  dumps v = Ok b ->
  exists w',
    pgbytea.store dumps bank key v w = (Ok VNone, w') /\
    w_committed w'
    = stored_rows bank key (LBytea b) None (w_clock w + 1) (w_next_id w)
        (w_committed w) /\
    w_trace w'
    = w_trace w ++ round_trip o (pgbytea.store_query (VStr t) bank key (LBytea b)) /\
    w_clock w' = w_clock w + 2 /\
    ready pgbytea._get_options o t w'.
Proof.
  intros Hw Hb Hk Hd. pose proof Hw as (Ho & Ht & Hi & Hr & Hc).
  unfold stored_rows, stored_under.
  destruct (varchar 255 bank) as [b'|] eqn:Hvb;
    [destruct (varchar 255 key) as [k'|] eqn:Hvk|];
    (eexists; split;
     [ unfold pgbytea.store, pgbytea._get_serv;
       run ltac:(first [ rewrite Hd | rewrite Ht
                       | apply (read_bytea_store t bank key b Hi Hb Hk) ]) Hc
     | store_done Hw ]).
Qed.

Lemma jsonb_store_world (w : World) o t bank key v lit :
  ready pgjsonb_encoded._get_options o t w ->
  quote_free bank = true -> quote_free key = true ->
  json_adapt (fst (payload_of v)) = Ok (LJson lit) ->
  exists w',
    pgjsonb_encoded.store bank key v w = (Ok VNone, w') /\
    w_committed w'
    = stored_rows bank key (LJson lit) (Some (snd (payload_of v)))
        (w_clock w + 1) (w_next_id w) (w_committed w) /\
    w_trace w'
    = w_trace w
      ++ round_trip o (pgjsonb_encoded.store_query (VStr t) bank key (LJson lit)
                         (snd (payload_of v))) /\
    w_clock w' = w_clock w + 2 /\
    ready pgjsonb_encoded._get_options o t w'.
Proof.
  intros Hw Hb Hk Hj. pose proof Hw as (Ho & Ht & Hi & Hr & Hc).
  destruct (payload_of v) as [p e] eqn:Hp. cbn [fst snd] in *.
  unfold stored_rows, stored_under.
  destruct (varchar 255 bank) as [b'|] eqn:Hvb;
    [destruct (varchar 255 key) as [k'|] eqn:Hvk;
     [destruct (lit_storable (LJson lit)) eqn:Hst|]|];
    (eexists; split;
     [ unfold pgjsonb_encoded.store, pgjsonb_encoded._get_serv;
       run ltac:(first [ rewrite Ht | rewrite Hj
                       | rewrite encode_payload_run, Hp
                       | apply (read_jsonb_store t bank key lit e Hi Hb Hk) ]) Hc
     | store_done Hw ]).
Qed.

Lemma bytea_flush_world (w : World) o t bank key c :
  ready pgbytea._get_options o t w ->
  read_sql (pgbytea.flush_query (VStr t) bank key) = Some (SDelete t c) ->
  exists w',
    pgbytea.flush bank key w = (Ok (VBool true), w') /\
    w_committed w' = delete_rows c (w_committed w) /\
    w_trace w' = w_trace w ++ round_trip o (pgbytea.flush_query (VStr t) bank key) /\
    ready pgbytea._get_options o t w'.
Proof.
  intros Hw Hq. pose proof Hw as (Ho & Ht & Hi & Hr & Hc).
  eexists. split.
  - unfold pgbytea.flush, pgbytea._get_serv.
    run ltac:(first [ rewrite Ht | exact Hq ]) Hc.
  - world_done Hw.
Qed.

Lemma jsonb_flush_world (w : World) o t bank key c :
  ready pgjsonb_encoded._get_options o t w ->
  read_sql (pgjsonb_encoded.flush_query (VStr t) bank key) = Some (SDelete t c) ->
  exists w',
    pgjsonb_encoded.flush bank key w = (Ok (VBool true), w') /\
    w_committed w' = delete_rows c (w_committed w) /\
    w_trace w'
    = w_trace w ++ round_trip o (pgjsonb_encoded.flush_query (VStr t) bank key) /\
    ready pgjsonb_encoded._get_options o t w'.
Proof.
  intros Hw Hq. pose proof Hw as (Ho & Ht & Hi & Hr & Hc).
  eexists. split.
  - unfold pgjsonb_encoded.flush, pgjsonb_encoded._get_serv.
    run ltac:(first [ rewrite Ht | exact Hq ]) Hc.
  - world_done Hw.
Qed.

(** ** The table behind the read operations *)

Lemma rows_at_absent (b k : string) (rows : list Row) :
  (b, k) ∉ row_key <$> rows -> rows_at b k rows = [].
Proof.
  unfold rows_at. induction rows as [|r rows IH]; simpl; intros Hn; [reflexivity|].
  destruct (same_key b k r) eqn:E.
  - exfalso. apply Hn. apply same_key_iff in E. rewrite <- E. left.
  - apply IH. intros Hin. apply Hn. by right.
Qed.

(** Under the primary key a pair has no row or one. *)
Lemma rows_at_unique (b k : string) (rows : list Row) :
  unique_keys rows -> rows_at b k rows = [] \/ exists r, rows_at b k rows = [r].
Proof.
  unfold unique_keys. induction rows as [|r rows IH]; simpl; intros H; [by left|].
  apply NoDup_cons in H as [Hr H]. unfold rows_at in *. simpl.
  destruct (same_key b k r) eqn:E; [|by apply IH].
  right. exists r. f_equal. apply same_key_iff in E. rewrite E in Hr.
  by apply rows_at_absent.
Qed.

Lemma exists_at (b k : string) (P : Row -> bool) (rows : list Row) :
  existsb (fun r => same_key b k r && P r) rows = existsb P (rows_at b k rows).
Proof.
  unfold rows_at. induction rows as [|r rows IH]; simpl; [reflexivity|].
  destruct (same_key b k r); simpl; by rewrite IH.
Qed.

Lemma count_data_unique (b k : string) (rows : list Row) :
  unique_keys rows ->
  (Z.of_nat (length (List.filter has_data (rows_at b k rows))) =? 1)
  = existsb (fun r => same_key b k r && has_data r) rows.
Proof.
  intros Hu. rewrite exists_at.
  destruct (rows_at_unique b k rows Hu) as [-> | [r ->]]; [reflexivity|].
  simpl. by destruct (has_data r).
Qed.

Lemma first_of_keys (rows : list Row) :
  first_of_singletons (Some (cells PKey <$> rows))
  = VTuple ((fun r => VStr (r_key r)) <$> rows).
Proof.
  assert (H : forall l : list Row,
             omap (fun row : list PyVal => match row with [x] => Some x | _ => None end)
               (cells PKey <$> l)
             = (fun r => VStr (r_key r)) <$> l).
  { induction l as [|r l IH]; [reflexivity|]. cbn. by rewrite IH. }
  destruct rows as [|r rows]; [reflexivity|].
  rewrite <- H. reflexivity.
Qed.

(** X1: in a world where the connection is made and the statements run,
    with the primary key in force, [contains] of both plugins answers
    true exactly when the table holds a row under the bank and key whose
    data is not NULL; a row whose data is NULL does not count. *)
Theorem contains_counts_data (w : World) ob oj t bank key :
  ready pgbytea._get_options ob t w ->
  ready pgjsonb_encoded._get_options oj t w ->
  quote_free bank = true -> quote_free key = true ->
  unique_keys (w_committed w) ->
  fst (pgbytea.contains bank key w)
  = Ok (VBool (existsb (fun r => same_key bank key r && has_data r) (w_committed w)))
  /\ fst (pgjsonb_encoded.contains bank key w)
     = Ok (VBool (existsb (fun r => same_key bank key r && has_data r)
                    (w_committed w))).
Proof.
  intros Hwb Hwj Hb Hk Hu.
  destruct (bytea_contains_world w ob t bank key Hwb Hb Hk) as (w1 & E1 & _).
  destruct (jsonb_contains_world w oj t bank key Hwj Hb Hk) as (w2 & E2 & _).
  rewrite E1, E2. cbn [fst]. by rewrite count_data_unique.
Qed.

Lemma contains_counts_data_witness :
  let empty := {| r_bank := "minions"; r_key := "web2"; r_data := None;
                  r_encoded := false; r_id := 7; r_changed := 1600000000 |} in
  let w := world_of ∅ [a_row "minions" "web1" (LBytea "x"); empty] [] in
  fst (pgbytea.contains "minions" "web1" w) = Ok (VBool true)
  /\ fst (pgbytea.contains "minions" "web2" w) = Ok (VBool false)
  /\ fst (pgjsonb_encoded.contains "minions" "web3" w) = Ok (VBool false).
Proof.
  intros empty w.
  assert (Hu : unique_keys (w_committed w)).
  { unfold unique_keys. cbn. apply NoDup_cons. split; [|apply NoDup_singleton].
    intros H. apply list_elem_of_singleton in H. discriminate. }
  split; [|split].
  - exact (proj1 (contains_counts_data w default_options default_options "salt_cache"
                    "minions" "web1" (world_of_ready_bytea _) (world_of_ready_jsonb _)
                    eq_refl eq_refl Hu)).
  - exact (proj1 (contains_counts_data w default_options default_options "salt_cache"
                    "minions" "web2" (world_of_ready_bytea _) (world_of_ready_jsonb _)
                    eq_refl eq_refl Hu)).
  - exact (proj2 (contains_counts_data w default_options default_options "salt_cache"
                    "minions" "web3" (world_of_ready_bytea _) (world_of_ready_jsonb _)
                    eq_refl eq_refl Hu)).
Defined.

(** X2: in a world where the connection is made and the statement runs,
    [list] of both plugins returns the keys of exactly the rows of the
    given bank, in table order, and no key of another bank. *)
Theorem list_returns_bank_keys (w : World) ob oj t bank :
  ready pgbytea._get_options ob t w ->
  ready pgjsonb_encoded._get_options oj t w ->
  quote_free bank = true ->
  fst (pgbytea.list_ bank w)
  = Ok (VTuple ((fun r => VStr (r_key r)) <$> rows_of bank (w_committed w)))
  /\ fst (pgjsonb_encoded.list_ bank w)
     = Ok (VTuple ((fun r => VStr (r_key r)) <$> rows_of bank (w_committed w))).
Proof.
  intros Hwb Hwj Hb.
  destruct (bytea_list_world w ob t bank Hwb Hb) as (w1 & E1 & _).
  destruct (jsonb_list_world w oj t bank Hwj Hb) as (w2 & E2 & _).
  rewrite E1, E2. cbn [fst]. by rewrite first_of_keys.
Qed.

Lemma list_returns_bank_keys_witness :
  let w := world_of ∅ [a_row "minions" "web1" (LBytea "x");
                       a_row "jobs" "j1" (LBytea "y");
                       a_row "minions" "web2" (LBytea "z")] [] in
  fst (pgbytea.list_ "minions" w) = Ok (VTuple [VStr "web1"; VStr "web2"])
  /\ fst (pgjsonb_encoded.list_ "jobs" w) = Ok (VTuple [VStr "j1"]).
Proof.
  intros w. split.
  - exact (proj1 (list_returns_bank_keys w default_options default_options
                    "salt_cache" "minions" (world_of_ready_bytea _)
                    (world_of_ready_jsonb _) eq_refl)).
  - exact (proj2 (list_returns_bank_keys w default_options default_options
                    "salt_cache" "jobs" (world_of_ready_bytea _)
                    (world_of_ready_jsonb _) eq_refl)).
Defined.

(** X3: in a world where the connection is made and the statement runs,
    and the change time of every row under the bank and key is within
    the range of the [::int] cast of the query (a 32-bit integer),
    [updated] of both plugins returns the change time, in epoch seconds,
    of the row stored under the bank and key. *)
Theorem updated_returns_change_time (w : World) ob oj t bank key r rest :
  ready pgbytea._get_options ob t w ->
  ready pgjsonb_encoded._get_options oj t w ->
  quote_free bank = true -> quote_free key = true ->
  rows_at bank key (w_committed w) = r :: rest ->
  forallb (fun x => int4 (r_changed x)) (r :: rest) = true ->
  fst (pgbytea.updated bank key w) = Ok (VInt (r_changed r))
  /\ fst (pgjsonb_encoded.updated bank key w) = Ok (VInt (r_changed r)).
Proof.
  intros Hwb Hwj Hb Hk Hf Hin. rewrite <- Hf in Hin.
  destruct (bytea_updated_world w ob t bank key Hwb Hb Hk Hin) as (w1 & E1 & _).
  destruct (jsonb_updated_world w oj t bank key Hwj Hb Hk Hin) as (w2 & E2 & _).
  rewrite E1, E2, Hf. by split.
Qed.

Lemma updated_returns_change_time_witness :
  let w := world_of ∅ [a_row "minions" "web1" (LBytea "x")] [] in
  fst (pgbytea.updated "minions" "web1" w) = Ok (VInt 1600000000)
  /\ fst (pgjsonb_encoded.updated "minions" "web1" w) = Ok (VInt 1600000000).
Proof.
  intros w.
  exact (updated_returns_change_time w default_options default_options "salt_cache"
           "minions" "web1" (a_row "minions" "web1" (LBytea "x")) []
           (world_of_ready_bytea _) (world_of_ready_jsonb _) eq_refl eq_refl eq_refl
           eq_refl).
Defined.

(** X4: in a world where the connection is made and the statement runs,
    [id] of the binary plugin returns the uuid of the row stored under
    the bank and key: the text the server sends for a 128-bit uuid is
    read back by [uuid.UUID] as that uuid. *)
Theorem id_returns_row_uuid (w : World) o t bank key r rest :
  ready pgbytea._get_options o t w ->
  quote_free bank = true -> quote_free key = true ->
  (forall x, x ∈ w_committed w -> (r_id x < 2 ^ 128)%N) ->
  rows_at bank key (w_committed w) = r :: rest ->
  py_UUID (VStr (uuid_text (r_id r))) = Ok (VUUID (r_id r))
  /\ fst (pgbytea.id_ bank key w) = Ok (VUUID (r_id r)).
Proof.
  intros Hw Hb Hk Hid Hf.
  destruct (bytea_id_world w o t bank key Hw Hb Hk Hid) as (w1 & E1 & _).
  rewrite E1, Hf. split; [|reflexivity].
  apply uuid_text_read, Hid.
  assert (Hin : In r (rows_at bank key (w_committed w))) by (rewrite Hf; by left).
  apply filter_In in Hin as [Hin _]. by apply list_elem_of_In.
Qed.

Lemma id_returns_row_uuid_witness :
  let r := {| r_bank := "minions"; r_key := "web1"; r_data := Some (LBytea "x");
              r_encoded := false; r_id := 2 ^ 127 + 10; r_changed := 1600000000 |} in
  fst (pgbytea.id_ "minions" "web1" (world_of ∅ [r] [])) = Ok (VUUID (2 ^ 127 + 10)).
Proof.
  intros r.
  assert (Hid : forall x, x ∈ w_committed (world_of ∅ [r] []) -> (r_id x < 2 ^ 128)%N).
  { intros x Hx. apply list_elem_of_singleton in Hx. subst x. reflexivity. }
  exact (proj2 (id_returns_row_uuid (world_of ∅ [r] []) default_options "salt_cache"
                  "minions" "web1" r [] (world_of_ready_bytea _) eq_refl eq_refl
                  Hid eq_refl)).
Defined.

(** ** Operations one after another *)

Lemma upserted_row_found (b k : string) d e now fresh (rows : list Row) :
  existsb (fun r => same_key b k r && has_data r)
    (upsert_rows b k d e now fresh rows) = true.
Proof.
  rewrite exists_at. unfold rows_at.
  destruct (upsert_then_select b k d e now fresh rows) as (r & rest & -> & Hd & _).
  simpl. unfold has_data. by rewrite Hd.
Qed.

Lemma upserted_key_listed (b k : string) d e now fresh (rows : list Row) :
  VStr k ∈ (fun r => VStr (r_key r)) <$> rows_of b (upsert_rows b k d e now fresh rows).
Proof.
  destruct (upsert_then_select b k d e now fresh rows) as (r & rest & Hf & _).
  assert (Hin : In r (List.filter (same_key b k) (upsert_rows b k d e now fresh rows)))
    by (rewrite Hf; by left).
  apply filter_In in Hin as [Hin Hs].
  unfold same_key in Hs. apply andb_true_iff in Hs as [Hsb Hsk].
  apply String.eqb_eq in Hsk.
  apply list_elem_of_fmap. exists r. split; [by rewrite Hsk|].
  apply list_elem_of_In. unfold rows_of. apply filter_In. by split.
Qed.

(** X5: in a world where the connection is made and the statements run,
    with the primary key in force, for a bank and a key of at most 255
    characters and, in the JSON plugin, a payload without a NUL
    character in its text (which [jsonb] refuses), once [store] has
    returned the pair is there: [contains] answers true and [list] of
    the bank names the key.  This holds in both plugins. *)
Theorem store_then_visible dumps (w : World) ob oj t bank key v b lit :
  ready pgbytea._get_options ob t w ->
  ready pgjsonb_encoded._get_options oj t w ->
  quote_free bank = true -> quote_free key = true ->
  fits bank = true -> fits key = true ->
  unique_keys (w_committed w) ->
  dumps v = Ok b ->
  json_adapt (fst (payload_of v)) = Ok (LJson lit) ->
  json_storable lit = true ->
  (exists w1 keys,
     pgbytea.store dumps bank key v w = (Ok VNone, w1) /\
     fst (pgbytea.contains bank key w1) = Ok (VBool true) /\
     fst (pgbytea.list_ bank w1) = Ok (VTuple keys) /\ VStr key ∈ keys)
  /\ (exists w1 keys,
        pgjsonb_encoded.store bank key v w = (Ok VNone, w1) /\
        fst (pgjsonb_encoded.contains bank key w1) = Ok (VBool true) /\
        fst (pgjsonb_encoded.list_ bank w1) = Ok (VTuple keys) /\ VStr key ∈ keys).
Proof.
  intros Hwb Hwj Hb Hk Hfb Hfk Hu Hd Hj Hst. split.
  - destruct (bytea_store_world dumps w ob t bank key v b Hwb Hb Hk Hd)
      as (w1 & E & Hc & _ & _ & Hw1).
    rewrite stored_rows_fits in Hc by first [assumption | reflexivity].
    destruct (bytea_contains_world w1 ob t bank key Hw1 Hb Hk) as (w2 & E2 & _).
    destruct (bytea_list_world w1 ob t bank Hw1 Hb) as (w3 & E3 & _).
    exists w1, ((fun r => VStr (r_key r)) <$> rows_of bank (w_committed w1)).
    split; [exact E|]. rewrite E2, E3, first_of_keys. cbn [fst].
    rewrite count_data_unique by (rewrite Hc; by apply upsert_unique).
    rewrite Hc. rewrite upserted_row_found.
    split; [reflexivity|]. split; [reflexivity|]. apply upserted_key_listed.
  - destruct (jsonb_store_world w oj t bank key v lit Hwj Hb Hk Hj)
      as (w1 & E & Hc & _ & _ & Hw1).
    rewrite stored_rows_fits in Hc by first [assumption | reflexivity].
    destruct (jsonb_contains_world w1 oj t bank key Hw1 Hb Hk) as (w2 & E2 & _).
    destruct (jsonb_list_world w1 oj t bank Hw1 Hb) as (w3 & E3 & _).
    exists w1, ((fun r => VStr (r_key r)) <$> rows_of bank (w_committed w1)).
    split; [exact E|]. rewrite E2, E3, first_of_keys. cbn [fst].
    rewrite count_data_unique by (rewrite Hc; by apply upsert_unique).
    rewrite Hc. rewrite upserted_row_found.
    split; [reflexivity|]. split; [reflexivity|]. apply upserted_key_listed.
Qed.

Lemma store_then_visible_witness :
  let w := world_of ∅ [a_row "minions" "web2" (LBytea "y")] [] in
  exists w1 keys,
    pgbytea.store text_dumps "minions" "web1" (VStr "x") w = (Ok VNone, w1) /\
    fst (pgbytea.contains "minions" "web1" w1) = Ok (VBool true) /\
    fst (pgbytea.list_ "minions" w1) = Ok (VTuple keys) /\ VStr "web1" ∈ keys.
Proof.
  intros w.
  assert (Hu : unique_keys (w_committed w)) by apply NoDup_singleton.
  exact (proj1 (store_then_visible text_dumps w default_options default_options
                  "salt_cache" "minions" "web1" (VStr "x") "x" (VStr "x")
                  (world_of_ready_bytea _) (world_of_ready_jsonb _) eq_refl eq_refl
                  eq_refl eq_refl Hu eq_refl eq_refl eq_refl)).
Defined.

Lemma filter_after_removal {A} (f g : A -> bool) (l : list A) :
  (forall x, f x = true -> g x = true) ->
  List.filter f (List.filter (fun x => negb (g x)) l) = [].
Proof.
  intros H. induction l as [|x l IH]; simpl; [reflexivity|].
  destruct (g x) eqn:Eg; simpl; [exact IH|].
  destruct (f x) eqn:Ef; [|exact IH].
  apply H in Ef. congruence.
Qed.

Lemma removal_twice {A} (g : A -> bool) (l : list A) :
  List.filter (fun x => negb (g x)) (List.filter (fun x => negb (g x)) l)
  = List.filter (fun x => negb (g x)) l.
Proof.
  induction l as [|x l IH]; simpl; [reflexivity|].
  destruct (g x) eqn:Eg; simpl; [exact IH|]. by rewrite Eg, IH.
Qed.

(** X6: in a world where the connection is made and the statements run,
    after [flush] of a bank (no key given) [list] of that bank is empty
    and, for every key, [fetch] returns the empty mapping and [contains]
    false; a second [flush] returns true again and changes nothing.
    This holds in both plugins. *)
Theorem flush_bank_then_empty loads (w : World) ob oj t bank key :
  ready pgbytea._get_options ob t w ->
  ready pgjsonb_encoded._get_options oj t w ->
  quote_free bank = true -> quote_free key = true ->
  (exists w1 w2,
     pgbytea.flush bank None w = (Ok (VBool true), w1) /\
     fst (pgbytea.list_ bank w1) = Ok (VTuple []) /\
     fst (pgbytea.fetch loads bank key w1) = Ok (VDict []) /\
     fst (pgbytea.contains bank key w1) = Ok (VBool false) /\
     pgbytea.flush bank None w1 = (Ok (VBool true), w2) /\
     w_committed w2 = w_committed w1)
  /\ (exists w1 w2,
        pgjsonb_encoded.flush bank None w = (Ok (VBool true), w1) /\
        fst (pgjsonb_encoded.list_ bank w1) = Ok (VTuple []) /\
        fst (pgjsonb_encoded.fetch bank key w1) = Ok (VDict []) /\
        fst (pgjsonb_encoded.contains bank key w1) = Ok (VBool false) /\
        pgjsonb_encoded.flush bank None w1 = (Ok (VBool true), w2) /\
        w_committed w2 = w_committed w1).
Proof.
  intros Hwb Hwj Hb Hk.
  pose proof Hwb as (_ & _ & Hi & _).
  assert (Hat : forall rows,
             rows_at bank key
               (List.filter (fun r => negb (String.eqb (r_bank r) bank)) rows) = []).
  { intros rows. apply filter_after_removal. intros x Hx.
    unfold same_key in Hx. by apply andb_true_iff in Hx as [Hx _]. }
  assert (Hof : forall rows,
             rows_of bank
               (List.filter (fun r => negb (String.eqb (r_bank r) bank)) rows) = []).
  { intros rows. by apply filter_after_removal. }
  split.
  - destruct (bytea_flush_world w ob t bank None [(CBank, bank)] Hwb
                (read_bytea_flush_bank t bank None Hi Hb eq_refl))
      as (w1 & E1 & Hc1 & _ & Hw1).
    destruct (bytea_flush_world w1 ob t bank None [(CBank, bank)] Hw1
                (read_bytea_flush_bank t bank None Hi Hb eq_refl))
      as (w2 & E2 & Hc2 & _).
    rewrite delete_by_bank in Hc1, Hc2.
    destruct (bytea_list_world w1 ob t bank Hw1 Hb) as (w3 & E3 & _).
    destruct (bytea_contains_world w1 ob t bank key Hw1 Hb Hk) as (w4 & E4 & _).
    exists w1, w2. split; [exact E1|].
    rewrite E3, E4, (bytea_fetch_result loads w1 ob t bank key Hw1 Hb Hk).
    rewrite first_of_keys, Hc1, Hof, Hat. cbn.
    repeat split; try reflexivity; try exact E2.
    rewrite Hc2, Hc1. apply removal_twice.
  - destruct (jsonb_flush_world w oj t bank None [(CBank, bank)] Hwj
                (read_jsonb_flush_bank t bank None Hi Hb eq_refl))
      as (w1 & E1 & Hc1 & _ & Hw1).
    destruct (jsonb_flush_world w1 oj t bank None [(CBank, bank)] Hw1
                (read_jsonb_flush_bank t bank None Hi Hb eq_refl))
      as (w2 & E2 & Hc2 & _).
    rewrite delete_by_bank in Hc1, Hc2.
    destruct (jsonb_list_world w1 oj t bank Hw1 Hb) as (w3 & E3 & _).
    destruct (jsonb_contains_world w1 oj t bank key Hw1 Hb Hk) as (w4 & E4 & _).
    exists w1, w2. split; [exact E1|].
    rewrite E3, E4, (jsonb_fetch_result w1 oj t bank key Hw1 Hb Hk).
    rewrite first_of_keys, Hc1, Hof, Hat. cbn.
    repeat split; try reflexivity; try exact E2.
    rewrite Hc2, Hc1. apply removal_twice.
Qed.

Lemma flush_bank_then_empty_witness :
  let w := world_of ∅ [a_row "minions" "web1" (LBytea "x");
                       a_row "jobs" "j1" (LBytea "y")] [] in
  exists w1 w2,
    pgbytea.flush "minions" None w = (Ok (VBool true), w1) /\
    fst (pgbytea.list_ "minions" w1) = Ok (VTuple []) /\
    fst (pgbytea.fetch text_loads "minions" "web1" w1) = Ok (VDict []) /\
    fst (pgbytea.contains "minions" "web1" w1) = Ok (VBool false) /\
    pgbytea.flush "minions" None w1 = (Ok (VBool true), w2) /\
    w_committed w2 = w_committed w1.
Proof.
  intros w.
  exact (proj1 (flush_bank_then_empty text_loads w default_options default_options
                  "salt_cache" "minions" "web1" (world_of_ready_bytea _)
                  (world_of_ready_jsonb _) eq_refl eq_refl)).
Defined.

(** X7: in a world where the connection is made and the statements run,
    after [flush] of a bank with a non-empty key, [fetch] of that pair
    returns the empty mapping and [contains] false, while the rows under
    every other pair are as before.  This holds in both plugins. *)
Theorem flush_key_then_missing loads (w : World) ob oj t bank a k bank' key' :
  ready pgbytea._get_options ob t w ->
  ready pgjsonb_encoded._get_options oj t w ->
  quote_free bank = true -> quote_free (String a k) = true ->
  (bank', key') <> (bank, String a k) ->
  (exists w1,
     pgbytea.flush bank (Some (String a k)) w = (Ok (VBool true), w1) /\
     fst (pgbytea.fetch loads bank (String a k) w1) = Ok (VDict []) /\
     fst (pgbytea.contains bank (String a k) w1) = Ok (VBool false) /\
     rows_at bank' key' (w_committed w1) = rows_at bank' key' (w_committed w))
  /\ (exists w1,
        pgjsonb_encoded.flush bank (Some (String a k)) w = (Ok (VBool true), w1) /\
        fst (pgjsonb_encoded.fetch bank (String a k) w1) = Ok (VDict []) /\
        fst (pgjsonb_encoded.contains bank (String a k) w1) = Ok (VBool false) /\
        rows_at bank' key' (w_committed w1) = rows_at bank' key' (w_committed w)).
Proof.
  intros Hwb Hwj Hb Hk Hne.
  pose proof Hwb as (_ & _ & Hi & _).
  assert (Hat : forall rows,
             rows_at bank (String a k)
               (List.filter (fun r => negb (same_key bank (String a k) r)) rows) = []).
  { intros rows. by apply filter_after_removal. }
  assert (Hother : forall rows,
             rows_at bank' key'
               (List.filter (fun r => negb (same_key bank (String a k) r)) rows)
             = rows_at bank' key' rows).
  { intros rows. unfold rows_at. induction rows as [|r rows IH]; [reflexivity|].
    simpl. destruct (same_key bank (String a k) r) eqn:E1; simpl.
    - destruct (same_key bank' key' r) eqn:E2; [|exact IH].
      apply same_key_iff in E1, E2. congruence.
    - by rewrite IH. }
  split.
  - destruct (bytea_flush_world w ob t bank (Some (String a k))
                [(CBank, bank); (CKey, String a k)] Hwb
                (read_bytea_flush_key t bank a k Hi Hb Hk))
      as (w1 & E1 & Hc1 & _ & Hw1).
    rewrite delete_by_key in Hc1.
    destruct (bytea_contains_world w1 ob t bank (String a k) Hw1 Hb Hk)
      as (w4 & E4 & _).
    exists w1. split; [exact E1|].
    rewrite E4, (bytea_fetch_result loads w1 ob t bank (String a k) Hw1 Hb Hk).
    rewrite Hc1, Hat, Hother. by repeat split.
  - destruct (jsonb_flush_world w oj t bank (Some (String a k))
                [(CBank, bank); (CKey, String a k)] Hwj
                (read_jsonb_flush_key t bank a k Hi Hb Hk))
      as (w1 & E1 & Hc1 & _ & Hw1).
    rewrite delete_by_key in Hc1.
    destruct (jsonb_contains_world w1 oj t bank (String a k) Hw1 Hb Hk)
      as (w4 & E4 & _).
    exists w1. split; [exact E1|].
    rewrite E4, (jsonb_fetch_result w1 oj t bank (String a k) Hw1 Hb Hk).
    rewrite Hc1, Hat, Hother. by repeat split.
Qed.

Lemma flush_key_then_missing_witness :
  let w := world_of ∅ [a_row "minions" "web1" (LBytea "x");
                       a_row "minions" "web2" (LBytea "y")] [] in
  exists w1,
    pgbytea.flush "minions" (Some "web1") w = (Ok (VBool true), w1) /\
    fst (pgbytea.fetch text_loads "minions" "web1" w1) = Ok (VDict []) /\
    fst (pgbytea.contains "minions" "web1" w1) = Ok (VBool false) /\
    rows_at "minions" "web2" (w_committed w1) = [a_row "minions" "web2" (LBytea "y")].
Proof.
  intros w.
  assert (Hne : ("minions", "web2") <> ("minions", "web1")) by discriminate.
  exact (proj1 (flush_key_then_missing text_loads w default_options default_options
                  "salt_cache" "minions" "w"%char "eb1" "minions" "web2"
                  (world_of_ready_bytea _) (world_of_ready_jsonb _) eq_refl eq_refl
                  Hne)).
Defined.

Lemma upsert_rows_cons (b k : string) d e now fresh (r : Row) (rows : list Row) :
  upsert_rows b k d e now fresh (r :: rows)
  = if same_key b k r then updated_row r d e now :: rows
    else r :: upsert_rows b k d e now fresh rows.
Proof. reflexivity. Qed.

Lemma upsert_elsewhere (b k b' k' : string) d e now fresh (rows : list Row) :
  (b', k') <> (b, k) ->
  rows_at b' k' (upsert_rows b k d e now fresh rows) = rows_at b' k' rows.
Proof.
  intros Hne. unfold rows_at.
  assert (Hnew : forall r, same_key b k r = true -> same_key b' k' r = false).
  { intros r E. destruct (same_key b' k' r) eqn:E'; [|reflexivity].
    apply same_key_iff in E, E'. congruence. }
  induction rows as [|r rows IH].
  - change (upsert_rows b k d e now fresh [])
      with [ {| r_bank := b; r_key := k; r_data := Some d;
                r_encoded := default false e; r_id := fresh; r_changed := now |} ].
    simpl. rewrite Hnew; [reflexivity|].
    unfold same_key. simpl. by rewrite !String.eqb_refl.
  - rewrite upsert_rows_cons. destruct (same_key b k r) eqn:E; simpl.
    + rewrite same_key_updated. by rewrite (Hnew r E).
    + by rewrite IH.
Qed.

Lemma stored_under_fits (bank key : string) :
  fits bank = true -> fits key = true -> stored_under bank key = Some (bank, key).
Proof.
  intros Hb Hk. unfold stored_under.
  by rewrite (varchar_fits bank Hb), (varchar_fits key Hk).
Qed.

Lemma stored_elsewhere (bank key b' k' : string) d e now fresh (rows : list Row) :
  stored_under bank key <> Some (b', k') ->
  rows_at b' k' (stored_rows bank key d e now fresh rows) = rows_at b' k' rows.
Proof.
  intros Hne. unfold stored_rows.
  destruct (stored_under bank key) as [[b0 k0]|]; [|reflexivity].
  destruct (lit_storable d); [|reflexivity].
  apply upsert_elsewhere. congruence.
Qed.

(** X8: in a world where the connection is made and the statements run,
    [store] to one pair leaves the rows under every other pair as they
    were: what [fetch] returns for another bank or key is the same after
    the store as before.  The pair of the store is the one its row is
    kept under: the bank and the key themselves when they have at most
    255 characters, and what the [varchar(255)] columns make of them
    otherwise.  This holds in both plugins. *)
Theorem store_leaves_other_pairs dumps loads (w : World) ob oj t
    bank key bank' key' v b lit :
  ready pgbytea._get_options ob t w ->
  ready pgjsonb_encoded._get_options oj t w ->
  quote_free bank = true -> quote_free key = true ->
  quote_free bank' = true -> quote_free key' = true ->
  stored_under bank key <> Some (bank', key') ->
  dumps v = Ok b ->
  json_adapt (fst (payload_of v)) = Ok (LJson lit) ->
  (exists w1,
     pgbytea.store dumps bank key v w = (Ok VNone, w1) /\
     rows_at bank' key' (w_committed w1) = rows_at bank' key' (w_committed w) /\
     fst (pgbytea.fetch loads bank' key' w1) = fst (pgbytea.fetch loads bank' key' w))
  /\ (exists w1,
        pgjsonb_encoded.store bank key v w = (Ok VNone, w1) /\
        rows_at bank' key' (w_committed w1) = rows_at bank' key' (w_committed w) /\
        fst (pgjsonb_encoded.fetch bank' key' w1)
        = fst (pgjsonb_encoded.fetch bank' key' w)).
Proof.
  intros Hwb Hwj Hb Hk Hb' Hk' Hne Hd Hj. split.
  - destruct (bytea_store_world dumps w ob t bank key v b Hwb Hb Hk Hd)
      as (w1 & E & Hc & _ & _ & Hw1).
    exists w1. split; [exact E|].
    assert (Hat : rows_at bank' key' (w_committed w1)
                  = rows_at bank' key' (w_committed w))
      by (rewrite Hc; by apply stored_elsewhere).
    split; [exact Hat|].
    rewrite (bytea_fetch_result loads w1 ob t bank' key' Hw1 Hb' Hk').
    rewrite (bytea_fetch_result loads w ob t bank' key' Hwb Hb' Hk').
    by rewrite Hat.
  - destruct (jsonb_store_world w oj t bank key v lit Hwj Hb Hk Hj)
      as (w1 & E & Hc & _ & _ & Hw1).
    exists w1. split; [exact E|].
    assert (Hat : rows_at bank' key' (w_committed w1)
                  = rows_at bank' key' (w_committed w))
      by (rewrite Hc; by apply stored_elsewhere).
    split; [exact Hat|].
    rewrite (jsonb_fetch_result w1 oj t bank' key' Hw1 Hb' Hk').
    rewrite (jsonb_fetch_result w oj t bank' key' Hwj Hb' Hk').
    by rewrite Hat.
Qed.

Lemma store_leaves_other_pairs_witness :
  let w := world_of ∅ [a_row "minions" "web1" (LBytea "x")] [] in
  exists w1,
    pgbytea.store text_dumps "minions" "web2" (VStr "new") w = (Ok VNone, w1) /\
    rows_at "minions" "web1" (w_committed w1) = [a_row "minions" "web1" (LBytea "x")] /\
    fst (pgbytea.fetch text_loads "minions" "web1" w1)
    = fst (pgbytea.fetch text_loads "minions" "web1" w).
Proof.
  intros w.
  assert (Hne : stored_under "minions" "web2" <> Some ("minions", "web1"))
    by (vm_compute; discriminate).
  exact (proj1 (store_leaves_other_pairs text_dumps text_loads w default_options
                  default_options "salt_cache" "minions" "web2" "minions" "web1"
                  (VStr "new") "new" (VStr "new")
                  (world_of_ready_bytea _) (world_of_ready_jsonb _)
                  eq_refl eq_refl eq_refl eq_refl Hne eq_refl eq_refl)).
Defined.

(** Why the pair of a [store] is the one the columns keep: a key of 255
    letters followed by a space is cut to the 255 letters by the
    [varchar(255)] column, so the [store] rewrites the row of that
    other, shorter key. *)
Lemma overlong_key_is_cut :
  let short := string_of_list_ascii (repeat "k"%char 255) in
  let long := string_of_list_ascii (repeat "k"%char 255 ++ [" "%char]) in
  let w := world_of ∅ [a_row "minions" short (LBytea "old")] [] in
  long <> short
  /\ stored_under "minions" long = Some ("minions", short)
  /\ r_data <$> rows_at "minions" short
                  (w_committed (snd (pgbytea.store text_dumps "minions" long
                                       (VStr "new") w)))
     = [Some (LBytea "new")].
Proof.
  intros short long w. split; [|split].
  - intros H. apply (f_equal String.length) in H. vm_compute in H. discriminate.
  - vm_compute. reflexivity.
  - vm_compute. reflexivity.
Qed.

Lemma rows_at_in_place (b k : string) (pre post : list Row) (r : Row) :
  Forall (fun x => same_key b k x = false) pre -> same_key b k r = true ->
  rows_at b k (pre ++ r :: post) = r :: rows_at b k post.
Proof.
  intros Hpre Hr. unfold rows_at.
  induction Hpre as [|x pre Hx _ IH]; simpl; [by rewrite Hr | by rewrite Hx].
Qed.

Lemma rows_at_in_range (b k : string) (rows : list Row) :
  (forall x, x ∈ rows -> int4 (r_changed x) = true) ->
  forallb (fun x => int4 (r_changed x)) (rows_at b k rows) = true.
Proof.
  intros H. apply forallb_forall. intros x Hx.
  apply filter_In in Hx as [Hx _]. by apply H, list_elem_of_In.
Qed.

(** X9: in a world where the connection is made and the statements run,
    for a bank and a key of at most 255 characters and, in the JSON
    plugin, a payload without a NUL character in its text, a [store] to
    a pair that has a row keeps the row's uuid, so [id] returns the same
    uuid after the store as before; with the table of the module's
    documentation, whose trigger compares the stored payload with the
    new one as the column's type compares them (bytea byte by byte,
    jsonb whatever the order of an object's members), [updated] moves to
    the time of the store when the payload differs from the stored one
    and stays where it was when the payload is the same, as long as the
    change times of the table and the time of the store are within the
    32-bit integer of the query's [::int] cast. *)
Theorem restore_keeps_identity dumps (w : World) ob oj t bank key v b lit
    (pre post : list Row) (r : Row) :
  ready pgbytea._get_options ob t w ->
  ready pgjsonb_encoded._get_options oj t w ->
  quote_free bank = true -> quote_free key = true ->
  fits bank = true -> fits key = true ->
  w_committed w = pre ++ r :: post ->
  Forall (fun x => same_key bank key x = false) pre ->
  same_key bank key r = true ->
  (forall x, x ∈ w_committed w -> (r_id x < 2 ^ 128)%N) ->
  (forall x, x ∈ w_committed w -> int4 (r_changed x) = true) ->
  int4 (w_clock w + 1) = true ->
  dumps v = Ok b ->
  json_adapt (fst (payload_of v)) = Ok (LJson lit) ->
  json_storable lit = true ->
  (exists w1,
     pgbytea.store dumps bank key v w = (Ok VNone, w1) /\
     fst (pgbytea.id_ bank key w) = Ok (VUUID (r_id r)) /\
     fst (pgbytea.id_ bank key w1) = Ok (VUUID (r_id r)) /\
     fst (pgbytea.updated bank key w1)
     = Ok (VInt (if data_distinct (r_data r) (LBytea b)
                 then w_clock w + 1 else r_changed r)))
  /\ (exists w1,
        pgjsonb_encoded.store bank key v w = (Ok VNone, w1) /\
        fst (pgjsonb_encoded.updated bank key w1)
        = Ok (VInt (if data_distinct (r_data r) (LJson lit)
                    then w_clock w + 1 else r_changed r))).
Proof.
  intros Hwb Hwj Hb Hk Hfb Hfk Hrows Hpre Hr Hid Hin Hnow Hd Hj Hst.
  assert (Hafter : forall d e x,
             x ∈ pre ++ updated_row r d e (w_clock w + 1) :: post ->
             int4 (r_changed x) = true).
  { intros d e x Hx. apply elem_of_app in Hx as [Hx|Hx].
    - apply Hin. rewrite Hrows. apply elem_of_app. by left.
    - apply elem_of_cons in Hx as [->|Hx].
      + cbn [updated_row r_changed]. destruct (data_distinct (r_data r) d);
          [exact Hnow|]. apply Hin. rewrite Hrows. apply elem_of_app. right. left.
      + apply Hin. rewrite Hrows. apply elem_of_app. right. by right. }
  split.
  - destruct (bytea_store_world dumps w ob t bank key v b Hwb Hb Hk Hd)
      as (w1 & E & Hc & _ & _ & Hw1).
    rewrite stored_rows_fits in Hc by first [assumption | reflexivity].
    rewrite Hrows, (upsert_in_place _ _ _ _ _ _ pre post r Hpre Hr) in Hc.
    assert (Hid1 : forall x, x ∈ w_committed w1 -> (r_id x < 2 ^ 128)%N).
    { intros x Hx. rewrite Hc in Hx. apply elem_of_app in Hx as [Hx|Hx].
      - apply Hid. rewrite Hrows. apply elem_of_app. by left.
      - apply elem_of_cons in Hx as [->|Hx].
        + apply (Hid r). rewrite Hrows. apply elem_of_app. right. left.
        + apply Hid. rewrite Hrows. apply elem_of_app. right. by right. }
    assert (Hin1 : forallb (fun x => int4 (r_changed x))
                     (rows_at bank key (w_committed w1)) = true)
      by (apply rows_at_in_range; rewrite Hc; apply Hafter).
    destruct (bytea_id_world w ob t bank key Hwb Hb Hk Hid) as (w2 & E2 & _).
    destruct (bytea_id_world w1 ob t bank key Hw1 Hb Hk Hid1) as (w3 & E3 & _).
    destruct (bytea_updated_world w1 ob t bank key Hw1 Hb Hk Hin1) as (w4 & E4 & _).
    exists w1. split; [exact E|].
    rewrite E2, E3, E4, Hc, Hrows.
    rewrite (rows_at_in_place bank key pre post r Hpre Hr).
    rewrite (rows_at_in_place bank key pre post _ Hpre
               (eq_trans (same_key_updated bank key r _ _ _) Hr)).
    by repeat split.
  - destruct (jsonb_store_world w oj t bank key v lit Hwj Hb Hk Hj)
      as (w1 & E & Hc & _ & _ & Hw1).
    rewrite stored_rows_fits in Hc by first [assumption | reflexivity].
    rewrite Hrows, (upsert_in_place _ _ _ _ _ _ pre post r Hpre Hr) in Hc.
    assert (Hin1 : forallb (fun x => int4 (r_changed x))
                     (rows_at bank key (w_committed w1)) = true)
      by (apply rows_at_in_range; rewrite Hc; apply Hafter).
    destruct (jsonb_updated_world w1 oj t bank key Hw1 Hb Hk Hin1) as (w4 & E4 & _).
    exists w1. split; [exact E|].
    rewrite E4, Hc.
    rewrite (rows_at_in_place bank key pre post _ Hpre
               (eq_trans (same_key_updated bank key r _ _ _) Hr)).
    reflexivity.
Qed.

Lemma restore_keeps_identity_witness :
  let r := {| r_bank := "minions"; r_key := "web1"; r_data := Some (LBytea "x");
              r_encoded := false; r_id := 255; r_changed := 1600000000 |} in
  let w := world_of ∅ [r] [] in
  (exists w1,
     pgbytea.store text_dumps "minions" "web1" (VStr "x") w = (Ok VNone, w1) /\
     fst (pgbytea.id_ "minions" "web1" w1) = Ok (VUUID 255) /\
     fst (pgbytea.updated "minions" "web1" w1) = Ok (VInt 1600000000))
  /\ (exists w1,
        pgbytea.store text_dumps "minions" "web1" (VStr "y") w = (Ok VNone, w1) /\
        fst (pgbytea.id_ "minions" "web1" w1) = Ok (VUUID 255) /\
        fst (pgbytea.updated "minions" "web1" w1) = Ok (VInt 1700000001)).
Proof.
  intros r w.
  assert (Hid : forall x, x ∈ w_committed w -> (r_id x < 2 ^ 128)%N).
  { intros x Hx. apply list_elem_of_singleton in Hx. subst x. reflexivity. }
  assert (Hin : forall x, x ∈ w_committed w -> int4 (r_changed x) = true).
  { intros x Hx. apply list_elem_of_singleton in Hx. subst x. reflexivity. }
  split.
  - destruct (restore_keeps_identity text_dumps w default_options default_options
                "salt_cache" "minions" "web1" (VStr "x") "x" (VStr "x") [] [] r
                (world_of_ready_bytea _) (world_of_ready_jsonb _) eq_refl eq_refl
                eq_refl eq_refl eq_refl (Forall_nil_2 _) eq_refl Hid Hin eq_refl
                eq_refl eq_refl eq_refl)
      as [(w1 & E & _ & Hi1 & Hu1) _].
    exists w1. by split.
  - destruct (restore_keeps_identity text_dumps w default_options default_options
                "salt_cache" "minions" "web1" (VStr "y") "y" (VStr "y") [] [] r
                (world_of_ready_bytea _) (world_of_ready_jsonb _) eq_refl eq_refl
                eq_refl eq_refl eq_refl (Forall_nil_2 _) eq_refl Hid Hin eq_refl
                eq_refl eq_refl eq_refl)
      as [(w1 & E & _ & Hi1 & Hu1) _].
    exists w1. by split.
Defined.

(** ** Whatever the server does *)

Lemma finally_close_session {A} (m : M A) (w : World) :
  w_session (snd (finally m close w)) = None.
Proof. unfold finally, close. by destruct (m w) as [r w1]. Qed.

Lemma bytea_serv_closes {A} (commit : bool) (body : PyVal -> M A) (w : World) :
  w_session w = None -> w_session (snd (pgbytea._get_serv commit body w)) = None.
Proof.
  intros Hs. unfold pgbytea._get_serv, mbind, M_bind, with_opts, attempt.
  destruct (pgbytea._get_options (w_opts w)) as [o|e]; [|exact Hs].
  rewrite run_connect.
  destruct (w_script w (w_calls w)) as [|e|r]; cbn beta iota;
    try (destruct (is_OperationalError e); exact Hs).
  - apply finally_close_session.
  - apply finally_close_session.
Qed.

Lemma jsonb_serv_closes {A} (commit : bool) (body : M A) (w : World) :
  w_session w = None -> w_session (snd (pgjsonb_encoded._get_serv commit body w)) = None.
Proof.
  intros Hs. unfold pgjsonb_encoded._get_serv, mbind, M_bind, with_opts, attempt.
  destruct (pgjsonb_encoded._get_options (w_opts w)) as [o|e]; [|exact Hs].
  rewrite run_connect.
  destruct (w_script w (w_calls w)) as [|e|r]; cbn beta iota;
    try (destruct (is_OperationalError e); exact Hs).
  - apply finally_close_session.
  - apply finally_close_session.
Qed.

Lemma then_ret_session {A B} (m : M A) (b : B) (w : World) :
  w_session (snd ((m ;; mret b) w)) = w_session (snd (m w)).
Proof. unfold mbind, M_bind, mret, M_ret. by destruct (m w) as [[a|e] w1]. Qed.

Lemma jsonb_table_closes {A} (f : PyVal -> M A) (w : World) :
  (forall t, w_session (snd (f t w)) = None) -> w_session w = None ->
  w_session (snd ((pgjsonb_encoded.get_table ≫= f) w)) = None.
Proof.
  intros Hf Hs.
  unfold pgjsonb_encoded.get_table, mbind, M_bind, with_opts, mret, M_ret.
  destruct (pgjsonb_encoded._get_options (w_opts w)); [apply Hf | exact Hs].
Qed.

(** X10: no operation of either plugin leaves a connection open.  For
    every input, every options mapping and every behaviour of the server
    (refused connection, failing or garbled statement, failing COMMIT or
    ROLLBACK), a call that starts without an open connection ends
    without one, whether it returns or raises. *)
Theorem no_connection_left_open dumps loads (w : World) bank key okey v :
  w_session w = None ->
  (w_session (snd (pgbytea.store dumps bank key v w)) = None
   /\ w_session (snd (pgbytea.fetch loads bank key w)) = None
   /\ w_session (snd (pgbytea.flush bank okey w)) = None
   /\ w_session (snd (pgbytea.list_ bank w)) = None
   /\ w_session (snd (pgbytea.contains bank key w)) = None
   /\ w_session (snd (pgbytea.updated bank key w)) = None
   /\ w_session (snd (pgbytea.id_ bank key w)) = None)
  /\ (w_session (snd (pgjsonb_encoded.store bank key v w)) = None
      /\ w_session (snd (pgjsonb_encoded.fetch bank key w)) = None
      /\ w_session (snd (pgjsonb_encoded.flush bank okey w)) = None
      /\ w_session (snd (pgjsonb_encoded.list_ bank w)) = None
      /\ w_session (snd (pgjsonb_encoded.contains bank key w)) = None
      /\ w_session (snd (pgjsonb_encoded.updated bank key w)) = None).
Proof.
  intros Hs. split.
  - split.
    { unfold pgbytea.store. unfold mbind at 1. unfold M_bind at 1, lift.
      destruct (dumps v) as [b|e]; [|exact Hs].
      rewrite then_ret_session. by apply bytea_serv_closes. }
    repeat split; by apply bytea_serv_closes.
  - split.
    { unfold pgjsonb_encoded.store.
      apply jsonb_table_closes; [|exact Hs]. intros table.
      rewrite then_ret_session. by apply jsonb_serv_closes. }
    repeat split;
      (apply jsonb_table_closes; [intros table; by apply jsonb_serv_closes | exact Hs]).
Qed.

Lemma no_connection_left_open_witness :
  let w := world_of ∅ [a_row "minions" "web1" (LBytea "x")]
             [Normal; Fails (Psycopg PgOperationalError "server closed the connection");
              Fails (Psycopg PgInterfaceError "connection already closed")] in
  w_session (snd (pgbytea.fetch text_loads "minions" "web1" w)) = None
  /\ w_session (snd (pgjsonb_encoded.store "minions" "web1" (VStr "x") w)) = None.
Proof.
  intros w.
  destruct (no_connection_left_open text_dumps text_loads w "minions" "web1" None
              (VStr "x") eq_refl) as [(_ & Hf & _) (Hst & _)].
  by split.
Defined.

Section Frames.

Context {A B : Type}.
Variable rows : list Row.

Lemma frames_ret (a : A) : frames rows (mret a : M A).
Proof. intros w H. exact H. Qed.

Lemma frames_raise (e : Exn) : frames rows (@raise A e).
Proof. intros w H. exact H. Qed.

Lemma frames_lift (r : Result A) : frames rows (lift r).
Proof. intros w H. exact H. Qed.

Lemma frames_bind (m : M A) (f : A -> M B) :
  frames rows m -> (forall a, frames rows (f a)) -> frames rows (m ≫= f).
Proof.
  intros Hm Hf w H. unfold mbind, M_bind. specialize (Hm w H).
  destruct (m w) as [[a|e] w1]; simpl in *; [by apply Hf | exact Hm].
Qed.

Lemma frames_attempt (m : M A) : frames rows m -> frames rows (attempt m).
Proof.
  intros Hm w H. unfold attempt. specialize (Hm w H).
  destruct (m w) as [r w1]. exact Hm.
Qed.

Lemma frames_finally (m : M A) (fin : M unit) :
  frames rows m -> frames rows fin -> frames rows (finally m fin).
Proof.
  intros Hm Hf w H. unfold finally. specialize (Hm w H).
  destruct (m w) as [r w1]. simpl in Hm. specialize (Hf w1 Hm).
  destruct (fin w1) as [[u|e] w2]; exact Hf.
Qed.

Lemma frames_with_opts (f : gmap string PyVal -> Result A) :
  frames rows (with_opts f).
Proof. intros w H. exact H. Qed.

End Frames.

Lemma frames_log_debug rows (a : LogArg) : frames rows (log_debug a).
Proof. intros w H. exact H. Qed.

Lemma frames_log_error rows (fmt : string) (a : LogArg) :
  frames rows (log_error fmt a).
Proof. intros w H. exact H. Qed.

Lemma frames_connect rows (o : Options) : frames rows (connect o).
Proof.
  intros w [Hc Hs]. rewrite run_connect.
  destruct (w_script w (w_calls w)); split; cbn; try done;
    intros tbl [= <-]; done.
Qed.

Lemma frames_execute rows (q : Query) :
  reads_only q = true -> frames rows (execute q).
Proof.
  intros Hq w [Hc Hs]. unfold execute, next_reply. cbn.
  destruct (w_session w) as [tbl|] eqn:Es; [|split; cbn; [done | by rewrite Es]].
  assert (Hsent : untouched rows (sent q w)) by (split; cbn; [done | by rewrite Es]).
  specialize (Hs tbl eq_refl). subst tbl.
  destruct (w_script w (w_calls w)); [|exact Hsent|exact Hsent].
  unfold reads_only in Hq.
  destruct (read_sql q) as [[| |t b k d e|p t c|t c]|]; try discriminate; cbn.
  - split; cbn; [reflexivity | by rewrite Es; intros ? [= <-]].
  - split; cbn; [done | by intros ? [= <-]].
  - destruct (String.eqb t (w_relation w)); [|exact Hsent].
    destruct (select_rows p c rows); [|exact Hsent].
    split; cbn; [done | by rewrite Es; intros ? [= <-]].
  - exact Hsent.
Qed.

Lemma frames_fetchall rows : frames rows fetchall.
Proof. intros w H. unfold fetchall. by destruct (w_result w). Qed.

Lemma frames_close rows : frames rows close.
Proof. intros w [Hc Hs]. split; cbn; [done | discriminate]. Qed.

(** Plugin code leaves the rows alone construct by construct; [query]
    shows that the statement at hand is no INSERT and no DELETE. *)
Ltac frames_step query :=
  lazymatch goal with
  | |- frames _ (mbind _ _) => apply frames_bind; [|intros ?]
  | |- frames _ (mret _) => apply frames_ret
  | |- frames _ (raise _) => apply frames_raise
  | |- frames _ (lift _) => apply frames_lift
  | |- frames _ (attempt _) => apply frames_attempt
  | |- frames _ (finally _ _) => apply frames_finally
  | |- frames _ (with_opts _) => apply frames_with_opts
  | |- frames _ (log_debug _) => apply frames_log_debug
  | |- frames _ (log_error _ _) => apply frames_log_error
  | |- frames _ (connect _) => apply frames_connect
  | |- frames _ (execute (qs "COMMIT")) => apply frames_execute; reflexivity
  | |- frames _ (execute (qs "ROLLBACK")) => apply frames_execute; reflexivity
  | |- frames _ (execute _) =>
      apply frames_execute; unfold reads_only; query; reflexivity
  | |- frames _ fetchall => apply frames_fetchall
  | |- frames _ close => apply frames_close
  | |- frames _ (if ?b then _ else _) => destruct b
  | |- frames _ (match ?x with _ => _ end) => destruct x
  | |- frames _ (log_miss _ _ _ _ _) => unfold log_miss
  end.

Lemma bytea_serv_frames {A} rows (commit : bool) (body : PyVal -> M A)
    (w : World) o :
  pgbytea._get_options (w_opts w) = Ok o ->
  frames rows (body (o_table o)) ->
  untouched rows w -> untouched rows (snd (pgbytea._get_serv commit body w)).
Proof.
  intros Ho Hbody H. unfold pgbytea._get_serv.
  lazymatch goal with
  | |- untouched _ (snd ((with_opts _ ≫= ?k) w)) =>
      assert (Hk : frames rows (k o))
        by (cbv beta; repeat first [ exact Hbody | frames_step idtac ])
  end.
  unfold mbind at 1. unfold M_bind at 1, with_opts. rewrite Ho. exact (Hk w H).
Qed.

Lemma jsonb_serv_frames {A} rows (commit : bool) (body : M A) (w : World) o :
  pgjsonb_encoded._get_options (w_opts w) = Ok o ->
  frames rows body ->
  untouched rows w -> untouched rows (snd (pgjsonb_encoded._get_serv commit body w)).
Proof.
  intros Ho Hbody H. unfold pgjsonb_encoded._get_serv.
  lazymatch goal with
  | |- untouched _ (snd ((with_opts _ ≫= ?k) w)) =>
      assert (Hk : frames rows (k o))
        by (cbv beta; repeat first [ exact Hbody | frames_step idtac ])
  end.
  unfold mbind at 1. unfold M_bind at 1, with_opts. rewrite Ho. exact (Hk w H).
Qed.

Lemma closed_untouched (w : World) : w_session w = None -> untouched (w_committed w) w.
Proof. intros Hs. split; [reflexivity|]. rewrite Hs. discriminate. Qed.

(** X11: the read operations never change the table.  For bank and key
    without a single quote and a table name that is an identifier,
    [fetch], [list], [contains], [updated] and [id] leave the committed
    rows exactly as they were under every behaviour of the server, also
    when a statement fails or the cursor holds an arbitrary result, and
    although each of them runs in a scope that ends with COMMIT. *)
Theorem reads_never_write loads (w : World) ob oj t bank key :
  pgbytea._get_options (w_opts w) = Ok ob ->
  pgjsonb_encoded._get_options (w_opts w) = Ok oj ->
  o_table ob = VStr t -> o_table oj = VStr t -> is_ident t = true ->
  quote_free bank = true -> quote_free key = true ->
  w_session w = None ->
  (w_committed (snd (pgbytea.fetch loads bank key w)) = w_committed w
   /\ w_committed (snd (pgbytea.list_ bank w)) = w_committed w
   /\ w_committed (snd (pgbytea.contains bank key w)) = w_committed w
   /\ w_committed (snd (pgbytea.updated bank key w)) = w_committed w
   /\ w_committed (snd (pgbytea.id_ bank key w)) = w_committed w)
  /\ (w_committed (snd (pgjsonb_encoded.fetch bank key w)) = w_committed w
      /\ w_committed (snd (pgjsonb_encoded.list_ bank w)) = w_committed w
      /\ w_committed (snd (pgjsonb_encoded.contains bank key w)) = w_committed w
      /\ w_committed (snd (pgjsonb_encoded.updated bank key w)) = w_committed w).
Proof.
  intros Hob Hoj Htb Htj Hi Hb Hk Hs.
  pose proof (closed_untouched w Hs) as Hw.
  split.
  - repeat split;
      (unfold pgbytea.fetch, pgbytea.list_, pgbytea.contains, pgbytea.updated,
         pgbytea.id_;
       refine (proj1 (bytea_serv_frames (w_committed w) true _ w ob Hob _ Hw));
       rewrite Htb; cbv beta zeta;
       repeat frames_step
         ltac:(first [ rewrite (read_bytea_fetch t bank key Hi Hb Hk)
                     | rewrite (read_bytea_list t bank Hi Hb)
                     | rewrite (read_bytea_contains t bank key Hi Hb Hk)
                     | rewrite (read_bytea_updated t bank key Hi Hb Hk)
                     | rewrite (read_bytea_id t bank key Hi Hb Hk) ])).
  - repeat split;
      (unfold pgjsonb_encoded.fetch, pgjsonb_encoded.list_,
         pgjsonb_encoded.contains, pgjsonb_encoded.updated;
       rewrite (jsonb_after_table _ w oj Hoj);
       refine (proj1 (jsonb_serv_frames (w_committed w) true _ w oj Hoj _ Hw));
       rewrite Htj; cbv beta zeta;
       repeat frames_step
         ltac:(first [ rewrite (read_jsonb_fetch t bank key Hi Hb Hk)
                     | rewrite (read_jsonb_list t bank Hi Hb)
                     | rewrite (read_jsonb_contains t bank key Hi Hb Hk)
                     | rewrite (read_jsonb_updated t bank key Hi Hb Hk) ])).
Qed.

Lemma reads_never_write_witness :
  let rows := [a_row "minions" "web1" (LBytea "x")] in
  let w := world_of ∅ rows
             [Normal; Answers (Some [[VInt 1; VInt 2]; []]); Fails (Psycopg PgError "lost")] in
  w_committed (snd (pgbytea.fetch text_loads "minions" "web1" w)) = rows
  /\ w_committed (snd (pgjsonb_encoded.contains "minions" "web1" w)) = rows.
Proof.
  intros rows w.
  destruct (reads_never_write text_loads w default_options default_options
              "salt_cache" "minions" "web1" eq_refl eq_refl eq_refl eq_refl eq_refl
              eq_refl eq_refl eq_refl) as [(Hf & _) (_ & _ & Hc & _)].
  by split.
Defined.

(** X12: a COMMIT that fails is not absorbed.  When the connection is
    made and the statement of [store] or [flush] runs, but the COMMIT
    that ends the scope raises, the error reaches the caller of [store]
    and of [flush] (which then returns neither None nor false), and the
    table stays as it was.  This holds in both plugins. *)
Theorem commit_failure_raises dumps (w : World) ob oj t bank key v b lit e :
  pgbytea._get_options (w_opts w) = Ok ob ->
  pgjsonb_encoded._get_options (w_opts w) = Ok oj ->
  o_table ob = VStr t -> o_table oj = VStr t -> is_ident t = true ->
  w_relation w = t ->
  quote_free bank = true -> quote_free key = true ->
  w_script w (w_calls w) = Normal ->
  w_script w (S (w_calls w)) = Normal ->
  w_script w (S (S (w_calls w))) = Fails e ->
  dumps v = Ok b ->
  json_adapt (fst (payload_of v)) = Ok (LJson lit) ->
  (exists w', pgbytea.store dumps bank key v w = (Raise e, w') /\
     w_committed w' = w_committed w /\ w_session w' = None)
  /\ (exists w', pgjsonb_encoded.store bank key v w = (Raise e, w') /\
        w_committed w' = w_committed w /\ w_session w' = None)
  /\ (exists w', pgbytea.flush bank None w = (Raise e, w') /\
        w_committed w' = w_committed w /\ w_session w' = None)
  /\ (exists w', pgjsonb_encoded.flush bank None w = (Raise e, w') /\
        w_committed w' = w_committed w /\ w_session w' = None).
Proof.
  intros Hob Hoj Htb Htj Hi Hr Hb Hk H0 H1 H2 Hd Hj.
  destruct (payload_of v) as [p enc] eqn:Hp. cbn [fst snd] in *.
  repeat split.
  - destruct (varchar 255 bank) as [b'|] eqn:Hvb;
      [destruct (varchar 255 key) as [k'|] eqn:Hvk|];
      (eexists; split;
       [ unfold pgbytea.store, pgbytea._get_serv;
         run ltac:(first [ rewrite Hd | rewrite Htb
                         | apply (read_bytea_store t bank key b Hi Hb Hk)
                         | eapply run_execute_fails; [world_fact I | world_fact I] ]) I
       | by split ]).
  - destruct (varchar 255 bank) as [b'|] eqn:Hvb;
      [destruct (varchar 255 key) as [k'|] eqn:Hvk;
       [destruct (lit_storable (LJson lit)) eqn:Hst|]|];
      (eexists; split;
       [ unfold pgjsonb_encoded.store, pgjsonb_encoded._get_serv;
         run ltac:(first [ rewrite Htj | rewrite Hj
                         | rewrite encode_payload_run, Hp
                         | apply (read_jsonb_store t bank key lit enc Hi Hb Hk)
                         | eapply run_execute_fails; [world_fact I | world_fact I] ]) I
       | by split ]).
  - eexists. split.
    + unfold pgbytea.flush, pgbytea._get_serv.
      run ltac:(first [ rewrite Htb
                      | apply (read_bytea_flush_bank t bank None Hi Hb eq_refl)
                      | eapply run_execute_fails; [world_fact I | world_fact I] ]) I.
    + by split.
  - eexists. split.
    + unfold pgjsonb_encoded.flush, pgjsonb_encoded._get_serv.
      run ltac:(first [ rewrite Htj
                      | apply (read_jsonb_flush_bank t bank None Hi Hb eq_refl)
                      | eapply run_execute_fails; [world_fact I | world_fact I] ]) I.
    + by split.
Qed.

Lemma commit_failure_raises_witness :
  let e := Psycopg PgOperationalError "could not write to file" in
  let w := world_of ∅ [a_row "minions" "web1" (LBytea "old")] [Normal; Normal; Fails e] in
  (exists w', pgbytea.store text_dumps "minions" "web1" (VStr "new") w = (Raise e, w') /\
     w_committed w' = [a_row "minions" "web1" (LBytea "old")])
  /\ (exists w', pgbytea.flush "minions" None w = (Raise e, w') /\
        w_committed w' = [a_row "minions" "web1" (LBytea "old")]).
Proof.
  intros e w.
  destruct (commit_failure_raises text_dumps w default_options default_options
              "salt_cache" "minions" "web1" (VStr "new") "new" (VStr "new") e
              eq_refl eq_refl eq_refl eq_refl eq_refl eq_refl eq_refl eq_refl
              eq_refl eq_refl eq_refl eq_refl eq_refl)
    as ((w1 & E1 & C1 & _) & _ & (w3 & E3 & C3 & _) & _).
  split; [exists w1 | exists w3]; by split.
Defined.

Lemma bytea_serv_refused {A} (commit : bool) (body : PyVal -> M A)
    (w : World) o e :
  pgbytea._get_options (w_opts w) = Ok o ->
  w_script w (w_calls w) = Fails e ->
  is_OperationalError e = false ->
  pgbytea._get_serv commit body w
  = (Raise e, count_call (add_event (EConnect o) w)).
Proof.
  intros Ho H0 He.
  unfold pgbytea._get_serv, mbind, M_bind, with_opts, attempt.
  rewrite Ho. cbn beta iota. rewrite run_connect, H0. cbn beta iota.
  rewrite He. reflexivity.
Qed.

Lemma jsonb_serv_refused {A} (commit : bool) (body : M A) (w : World) o e :
  pgjsonb_encoded._get_options (w_opts w) = Ok o ->
  w_script w (w_calls w) = Fails e ->
  is_OperationalError e = false ->
  pgjsonb_encoded._get_serv commit body w
  = (Raise e, count_call (add_event (EConnect o) w)).
Proof.
  intros Ho H0 He.
  unfold pgjsonb_encoded._get_serv, mbind, M_bind, with_opts, attempt.
  rewrite Ho. cbn beta iota. rewrite run_connect, H0. cbn beta iota.
  rewrite He. reflexivity.
Qed.

(** X13: only an [OperationalError] of the connection attempt is turned
    into [SaltMasterError].  When [psycopg2.connect] raises anything
    else, every operation of both plugins raises that error as it is,
    having made no other driver call. *)
Theorem connect_error_passes_unwrapped dumps loads (w : World) ob oj e
    bank key okey v b :
  pgbytea._get_options (w_opts w) = Ok ob ->
  pgjsonb_encoded._get_options (w_opts w) = Ok oj ->
  w_script w (w_calls w) = Fails e ->
  is_OperationalError e = false ->
  dumps v = Ok b ->
  (pgbytea.store dumps bank key v w
   = (Raise e, count_call (add_event (EConnect ob) w))
   /\ pgbytea.fetch loads bank key w
      = (Raise e, count_call (add_event (EConnect ob) w))
   /\ pgbytea.flush bank okey w = (Raise e, count_call (add_event (EConnect ob) w))
   /\ pgbytea.list_ bank w = (Raise e, count_call (add_event (EConnect ob) w))
   /\ pgbytea.contains bank key w
      = (Raise e, count_call (add_event (EConnect ob) w))
   /\ pgbytea.updated bank key w = (Raise e, count_call (add_event (EConnect ob) w))
   /\ pgbytea.id_ bank key w = (Raise e, count_call (add_event (EConnect ob) w)))
  /\ (pgjsonb_encoded.store bank key v w
      = (Raise e, count_call (add_event (EConnect oj) w))
      /\ pgjsonb_encoded.fetch bank key w
         = (Raise e, count_call (add_event (EConnect oj) w))
      /\ pgjsonb_encoded.flush bank okey w
         = (Raise e, count_call (add_event (EConnect oj) w))
      /\ pgjsonb_encoded.list_ bank w
         = (Raise e, count_call (add_event (EConnect oj) w))
      /\ pgjsonb_encoded.contains bank key w
         = (Raise e, count_call (add_event (EConnect oj) w))
      /\ pgjsonb_encoded.updated bank key w
         = (Raise e, count_call (add_event (EConnect oj) w))).
Proof.
  intros Hob Hoj H0 He Hd. split.
  - split.
    { unfold pgbytea.store, mbind, M_bind, lift. rewrite Hd. cbn beta iota.
      by rewrite (bytea_serv_refused true _ w ob e Hob H0 He). }
    unfold pgbytea.fetch, pgbytea.flush, pgbytea.list_, pgbytea.contains,
      pgbytea.updated, pgbytea.id_.
    rewrite !(bytea_serv_refused true _ w ob e Hob H0 He).
    repeat split; reflexivity.
  - split.
    { unfold pgjsonb_encoded.store.
      rewrite (jsonb_after_table _ w oj Hoj).
      unfold mbind at 1. unfold M_bind at 1.
      by rewrite (jsonb_serv_refused true _ w oj e Hoj H0 He). }
    unfold pgjsonb_encoded.fetch, pgjsonb_encoded.flush, pgjsonb_encoded.list_,
      pgjsonb_encoded.contains, pgjsonb_encoded.updated.
    rewrite !(jsonb_after_table _ w oj Hoj).
    rewrite !(jsonb_serv_refused true _ w oj e Hoj H0 He).
    repeat split; reflexivity.
Qed.

Lemma connect_error_passes_unwrapped_witness :
  let e := Psycopg PgInterfaceError "invalid connection option" in
  let w := world_of ∅ [] [Fails e] in
  fst (pgbytea.fetch text_loads "minions" "web1" w) = Raise e
  /\ fst (pgjsonb_encoded.store "minions" "web1" (VStr "x") w) = Raise e.
Proof.
  intros e w.
  destruct (connect_error_passes_unwrapped text_dumps text_loads w default_options
              default_options e "minions" "web1" None (VStr "x") "x"
              eq_refl eq_refl eq_refl eq_refl eq_refl)
    as [(_ & Hf & _) (Hs & _)].
  rewrite Hf, Hs. by split.
Defined.

(** X14: the two plugins differ on a [TypeError] raised by
    [cursor.execute] in [store]: the binary plugin logs it with the
    table, bank, key and payload and returns None, the JSON plugin has no
    handler for it and raises it to the caller; neither changes the
    table. *)
Theorem store_type_error dumps (w : World) ob oj bank key v b lit msg :
  pgbytea._get_options (w_opts w) = Ok ob ->
  pgjsonb_encoded._get_options (w_opts w) = Ok oj ->
  w_script w (w_calls w) = Normal ->
  w_script w (S (w_calls w)) = Fails (TypeError msg) ->
  w_script w (S (S (w_calls w))) = Normal ->
  dumps v = Ok b ->
  json_adapt (fst (payload_of v)) = Ok lit ->
  (exists w',
     pgbytea.store dumps bank key v w = (Ok VNone, w') /\
     w_log w'
     = w_log w
       ++ debug_record (pgbytea.store_query (o_table ob) bank key (LBytea b))
          :: store_diagnostics (TypeError msg) (o_table ob) bank key (LBytea b) /\
     w_committed w' = w_committed w)
  /\ (exists w',
        pgjsonb_encoded.store bank key v w = (Raise (TypeError msg), w') /\
        w_committed w' = w_committed w).
Proof.
  intros Hob Hoj H0 H1 H2 Hd Hj.
  destruct (payload_of v) as [p enc] eqn:Hp. cbn [fst snd] in *.
  split.
  - eexists. split.
    + unfold pgbytea.store, pgbytea._get_serv.
      run ltac:(first [ rewrite Hd
                      | eapply run_execute_fails; [world_fact I | world_fact I] ]) I.
    + split; [cbn; rewrite <- !app_assoc; reflexivity | reflexivity].
  - eexists. split.
    + unfold pgjsonb_encoded.store, pgjsonb_encoded._get_serv.
      run ltac:(first [ rewrite Hj | rewrite encode_payload_run, Hp
                      | eapply run_execute_fails; [world_fact I | world_fact I] ]) I.
    + reflexivity.
Qed.

Lemma store_type_error_witness :
  let e := TypeError "not all arguments converted during string formatting" in
  let w := world_of ∅ [] [Normal; Fails e; Normal] in
  fst (pgbytea.store text_dumps "minions" "web1" (VStr "x") w) = Ok VNone
  /\ fst (pgjsonb_encoded.store "minions" "web1" (VStr "x") w) = Raise e.
Proof.
  intros e w.
  destruct (store_type_error text_dumps w default_options default_options
              "minions" "web1" (VStr "x") "x" (LJson (VStr "x"))
              "not all arguments converted during string formatting"
              eq_refl eq_refl eq_refl eq_refl eq_refl eq_refl eq_refl)
    as [(w1 & E1 & _) (w2 & E2 & _)].
  rewrite E1, E2. by split.
Defined.

(** X15: a value the codec rejects.  The binary plugin serializes before
    it opens the scope: when [salt.payload.dumps] raises, [store] raises
    that error and nothing else has happened, no connection and no log
    record.  The JSON plugin renders the value inside the scope: when
    the value is not JSON serializable, [store] raises the [TypeError]
    after connecting, sends no statement, neither COMMIT nor ROLLBACK,
    and closes the connection. *)
Theorem rejected_value_store dumps (w : World) oj bank key v e :
  dumps v = Raise e ->
  pgjsonb_encoded._get_options (w_opts w) = Ok oj ->
  w_script w (w_calls w) = Normal ->
  json_ok (fst (payload_of v)) = false ->
  pgbytea.store dumps bank key v w = (Raise e, w)
  /\ exists w',
       pgjsonb_encoded.store bank key v w
       = (Raise (TypeError "Object is not JSON serializable"), w') /\
       w_trace w' = w_trace w ++ [EConnect oj; EClose] /\
       w_committed w' = w_committed w /\
       w_log w' = w_log w.
Proof.
  intros Hd Hoj H0 Hj. split.
  - unfold pgbytea.store, mbind, M_bind, lift. by rewrite Hd.
  - assert (Ha : json_adapt (fst (payload_of v))
                 = Raise (TypeError "Object is not JSON serializable"))
      by (unfold json_adapt; by rewrite Hj).
    destruct (payload_of v) as [p enc] eqn:Hp. cbn [fst snd] in *.
    eexists. split.
    + unfold pgjsonb_encoded.store, pgjsonb_encoded._get_serv.
      run ltac:(first [ rewrite Ha | rewrite encode_payload_run, Hp ]) I.
    + repeat split. cbn. by rewrite <- app_assoc.
Qed.

Lemma rejected_value_store_witness :
  let w := world_of ∅ [] [] in
  let v := VList [VBytes "x"] in
  pgbytea.store text_dumps "minions" "web1" v w
  = (Raise (CodecError "not serializable"), w)
  /\ exists w',
       pgjsonb_encoded.store "minions" "web1" v w
       = (Raise (TypeError "Object is not JSON serializable"), w') /\
       w_trace w' = [EConnect default_options; EClose].
Proof.
  intros w v.
  destruct (rejected_value_store text_dumps w default_options "minions" "web1"
              v (CodecError "not serializable") eq_refl eq_refl eq_refl eq_refl)
    as (Hb & w' & E & Ht & _).
  split; [exact Hb|]. exists w'. by split.
Defined.



(** X17: a miss is logged as an error.  In a world where the connection
    is made and the statement runs, [fetch] of a pair without a row
    returns the empty mapping after writing, besides the two debug
    records, five records at error level: the [IndexError] and the
    table, bank, key and the empty result.  This holds in both
    plugins. *)
Theorem fetch_miss_logged loads (w : World) ob oj t bank key :
  ready pgbytea._get_options ob t w ->
  ready pgjsonb_encoded._get_options oj t w ->
  quote_free bank = true -> quote_free key = true ->
  rows_at bank key (w_committed w) = [] ->
  (exists w',
     pgbytea.fetch loads bank key w = (Ok (VDict []), w') /\
     w_log w'
     = w_log w
       ++ miss_records (pgbytea.fetch_query (VStr t) bank key) (VStr t) bank key)
  /\ (exists w',
        pgjsonb_encoded.fetch bank key w = (Ok (VDict []), w') /\
        w_log w'
        = w_log w
          ++ miss_records (pgjsonb_encoded.fetch_query (VStr t) bank key)
               (VStr t) bank key).
Proof.
  intros Hwb Hwj Hb Hk Hf. split.
  - destruct (bytea_fetch_miss_world loads w ob t bank key Hwb Hb Hk Hf)
      as (w' & E & _ & _ & Hl & _).
    exists w'. by split.
  - destruct (jsonb_fetch_miss_world w oj t bank key Hwj Hb Hk Hf)
      as (w' & E & _ & _ & Hl & _).
    exists w'. by split.
Qed.

Lemma fetch_miss_logged_witness :
  let w := world_of ∅ [] [] in
  exists w',
    pgbytea.fetch text_loads "minions" "web1" w = (Ok (VDict []), w') /\
    List.filter (fun l => match l_level l with ERROR => true | DEBUG => false end)
      (w_log w')
    = [ error_record (IndexError "list index out of range");
        {| l_level := ERROR; l_fmt := "table: %s"; l_arg := AVal (VStr "salt_cache") |};
        {| l_level := ERROR; l_fmt := "bank: %s"; l_arg := AText "minions" |};
        {| l_level := ERROR; l_fmt := "psql_key: %s"; l_arg := AText "web1" |};
        {| l_level := ERROR; l_fmt := "data: %s"; l_arg := ARows (Some []) |} ].
Proof.
  intros w.
  destruct (fetch_miss_logged text_loads w default_options default_options
              "salt_cache" "minions" "web1" (world_of_ready_bytea _)
              (world_of_ready_jsonb _) eq_refl eq_refl eq_refl)
    as [(w' & E & Hl) _].
  exists w'. split; [exact E|]. rewrite Hl. reflexivity.
Defined.

(** X18: in a world where the connection is made and the statements run,
    each operation makes exactly four driver calls: it connects, sends
    its one statement, sends COMMIT (the read operations too), and
    closes.  Shown for [store] (also when the server refuses the values
    of the INSERT, which [store] absorbs), [flush] of a bank, [list] and
    [contains] of both plugins, for [id], for [updated] of both plugins
    when the change times of the rows under the bank and key are within
    the 32-bit integer of the query's [::int] cast, and for [fetch] on a
    miss and on a row the decoder accepts. *)
Theorem operation_round_trip dumps loads (w : World) ob oj t bank key v b lit :
  ready pgbytea._get_options ob t w ->
  ready pgjsonb_encoded._get_options oj t w ->
  quote_free bank = true -> quote_free key = true ->
  (forall x, x ∈ w_committed w -> (r_id x < 2 ^ 128)%N) ->
  forallb (fun x => int4 (r_changed x)) (rows_at bank key (w_committed w)) = true ->
  dumps v = Ok b ->
  json_adapt (fst (payload_of v)) = Ok (LJson lit) ->
  (w_trace (snd (pgbytea.store dumps bank key v w))
   = w_trace w ++ round_trip ob (pgbytea.store_query (VStr t) bank key (LBytea b))
   /\ w_trace (snd (pgbytea.flush bank None w))
      = w_trace w ++ round_trip ob (pgbytea.flush_query (VStr t) bank None)
   /\ w_trace (snd (pgbytea.list_ bank w))
      = w_trace w ++ round_trip ob (pgbytea.list_query (VStr t) bank)
   /\ w_trace (snd (pgbytea.contains bank key w))
      = w_trace w ++ round_trip ob (pgbytea.contains_query (VStr t) bank key)
   /\ w_trace (snd (pgbytea.updated bank key w))
      = w_trace w ++ round_trip ob (pgbytea.updated_query (VStr t) bank key)
   /\ w_trace (snd (pgbytea.id_ bank key w))
      = w_trace w ++ round_trip ob (pgbytea.id_query (VStr t) bank key)
   /\ ((rows_at bank key (w_committed w) = []
        \/ exists r rest x, rows_at bank key (w_committed w) = r :: rest
                            /\ loads (py_of_data (r_data r)) = Ok x) ->
       w_trace (snd (pgbytea.fetch loads bank key w))
       = w_trace w ++ round_trip ob (pgbytea.fetch_query (VStr t) bank key)))
  /\ (w_trace (snd (pgjsonb_encoded.store bank key v w))
      = w_trace w
        ++ round_trip oj (pgjsonb_encoded.store_query (VStr t) bank key (LJson lit)
                            (snd (payload_of v)))
      /\ w_trace (snd (pgjsonb_encoded.flush bank None w))
         = w_trace w ++ round_trip oj (pgjsonb_encoded.flush_query (VStr t) bank None)
      /\ w_trace (snd (pgjsonb_encoded.list_ bank w))
         = w_trace w ++ round_trip oj (pgjsonb_encoded.list_query (VStr t) bank)
      /\ w_trace (snd (pgjsonb_encoded.contains bank key w))
         = w_trace w ++ round_trip oj (pgjsonb_encoded.contains_query (VStr t) bank key)
      /\ w_trace (snd (pgjsonb_encoded.updated bank key w))
         = w_trace w ++ round_trip oj (pgjsonb_encoded.updated_query (VStr t) bank key)
      /\ ((rows_at bank key (w_committed w) = []
           \/ exists r rest x, rows_at bank key (w_committed w) = r :: rest
                /\ (if r_encoded r then b64decode (py_of_data (r_data r))
                    else Ok (py_of_data (r_data r))) = Ok x) ->
          w_trace (snd (pgjsonb_encoded.fetch bank key w))
          = w_trace w ++ round_trip oj (pgjsonb_encoded.fetch_query (VStr t) bank key))).
Proof.
  intros Hwb Hwj Hb Hk Hid Hin Hd Hj.
  pose proof Hwb as (_ & _ & Hi & _).
  split.
  - destruct (bytea_store_world dumps w ob t bank key v b Hwb Hb Hk Hd)
      as (w1 & E1 & _ & T1 & _).
    destruct (bytea_flush_world w ob t bank None [(CBank, bank)] Hwb
                (read_bytea_flush_bank t bank None Hi Hb eq_refl))
      as (w2 & E2 & _ & T2 & _).
    destruct (bytea_list_world w ob t bank Hwb Hb) as (w3 & E3 & _ & T3 & _).
    destruct (bytea_contains_world w ob t bank key Hwb Hb Hk) as (w4 & E4 & _ & T4 & _).
    destruct (bytea_updated_world w ob t bank key Hwb Hb Hk Hin) as (w5 & E5 & _ & T5 & _).
    destruct (bytea_id_world w ob t bank key Hwb Hb Hk Hid) as (w6 & E6 & _ & T6 & _).
    rewrite E1, E2, E3, E4, E5, E6. cbn [snd].
    repeat (split; [assumption|]).
    intros [Hf | (r & rest & x & Hf & Hl)].
    + destruct (bytea_fetch_miss_world loads w ob t bank key Hwb Hb Hk Hf)
        as (w7 & E7 & _ & T7 & _).
      by rewrite E7.
    + destruct (bytea_fetch_hit_world loads w ob t bank key r rest x Hwb Hb Hk Hf Hl)
        as (w7 & E7 & _ & T7 & _).
      by rewrite E7.
  - destruct (jsonb_store_world w oj t bank key v lit Hwj Hb Hk Hj)
      as (w1 & E1 & _ & T1 & _).
    destruct (jsonb_flush_world w oj t bank None [(CBank, bank)] Hwj
                (read_jsonb_flush_bank t bank None Hi Hb eq_refl))
      as (w2 & E2 & _ & T2 & _).
    destruct (jsonb_list_world w oj t bank Hwj Hb) as (w3 & E3 & _ & T3 & _).
    destruct (jsonb_contains_world w oj t bank key Hwj Hb Hk) as (w4 & E4 & _ & T4 & _).
    destruct (jsonb_updated_world w oj t bank key Hwj Hb Hk Hin) as (w5 & E5 & _ & T5 & _).
    rewrite E1, E2, E3, E4, E5. cbn [snd].
    repeat (split; [assumption|]).
    intros [Hf | (r & rest & x & Hf & Hl)].
    + destruct (jsonb_fetch_miss_world w oj t bank key Hwj Hb Hk Hf)
        as (w7 & E7 & _ & T7 & _).
      by rewrite E7.
    + destruct (jsonb_fetch_hit_world w oj t bank key r rest x Hwj Hb Hk Hf Hl)
        as (w7 & E7 & _ & T7 & _).
      by rewrite E7.
Qed.

Lemma operation_round_trip_witness :
  let w := world_of ∅ [a_row "minions" "web1" (LBytea "x")] [] in
  w_trace (snd (pgbytea.contains "minions" "web1" w))
  = [EConnect default_options;
     EExecute (pgbytea.contains_query (VStr "salt_cache") "minions" "web1");
     EExecute (qs "COMMIT"); EClose]
  /\ w_trace (snd (pgbytea.fetch text_loads "minions" "web1" w))
     = [EConnect default_options;
        EExecute (pgbytea.fetch_query (VStr "salt_cache") "minions" "web1");
        EExecute (qs "COMMIT"); EClose].
Proof.
  intros w.
  assert (Hid : forall x, x ∈ w_committed w -> (r_id x < 2 ^ 128)%N).
  { intros x Hx. apply list_elem_of_singleton in Hx. subst x. reflexivity. }
  destruct (operation_round_trip text_dumps text_loads w default_options
              default_options "salt_cache" "minions" "web1" (VStr "x") "x" (VStr "x")
              (world_of_ready_bytea _) (world_of_ready_jsonb _) eq_refl eq_refl
              Hid eq_refl eq_refl eq_refl)
    as [(_ & _ & _ & Hc & _ & _ & Hf) _].
  split; [exact Hc|].
  apply Hf. right. exists (a_row "minions" "web1" (LBytea "x")), [], (VStr "x").
  by split.
Defined.

(** ** Unusual answers of the server *)

Ltac answered :=
  unfold pgbytea.fetch, pgbytea.updated, pgbytea.id_, pgbytea.contains,
    pgbytea._get_serv, pgjsonb_encoded.fetch, pgjsonb_encoded.updated,
    pgjsonb_encoded.contains, pgjsonb_encoded._get_serv;
  run ltac:(eapply run_execute_answers; [world_fact I | world_fact I]) I.

(** The outcome of an operation, from a run of it that [tac] finds. *)
Ltac outcome tac :=
  lazymatch goal with
  | |- fst (?m ?w) = ?r =>
      let E := fresh "E" in
      assert (E : exists w', m w = (r, w')) by (eexists; tac);
      destruct E as (? & E); by rewrite E
  end.

(** X19: results the cursor may hold that have no first row.  When the
    cursor holds None or the empty list after the statement, [fetch]
    returns the empty mapping, [updated] 0 and [id] the nil uuid, in
    both plugins; [contains] has no such guard and raises: a [TypeError]
    on None, an [IndexError] on the empty list.  This holds for every
    bank and key. *)
Theorem no_first_row loads (w : World) ob oj bank key r :
  pgbytea._get_options (w_opts w) = Ok ob ->
  pgjsonb_encoded._get_options (w_opts w) = Ok oj ->
  w_script w (w_calls w) = Normal ->
  w_script w (S (w_calls w)) = Answers r ->
  w_script w (S (S (w_calls w))) = Normal ->
  r = None \/ r = Some [] ->
  (fst (pgbytea.fetch loads bank key w) = Ok (VDict [])
   /\ fst (pgbytea.updated bank key w) = Ok (VInt 0)
   /\ fst (pgbytea.id_ bank key w) = Ok (VUUID 0)
   /\ fst (pgbytea.contains bank key w)
      = Raise (match r with
               | None => TypeError "'NoneType' object is not subscriptable"
               | Some _ => IndexError "list index out of range"
               end))
  /\ (fst (pgjsonb_encoded.fetch bank key w) = Ok (VDict [])
      /\ fst (pgjsonb_encoded.updated bank key w) = Ok (VInt 0)
      /\ fst (pgjsonb_encoded.contains bank key w)
         = Raise (match r with
                  | None => TypeError "'NoneType' object is not subscriptable"
                  | Some _ => IndexError "list index out of range"
                  end)).
Proof.
  intros Hob Hoj H0 H1 H2 [-> | ->];
    (split; repeat split; outcome answered).
Qed.

Lemma no_first_row_witness :
  let w := world_of ∅ [] [Normal; Answers (Some []); Normal] in
  fst (pgbytea.fetch text_loads "minions" "web1" w) = Ok (VDict [])
  /\ fst (pgbytea.contains "minions" "web1" w)
     = Raise (IndexError "list index out of range").
Proof.
  intros w.
  destruct (no_first_row text_loads w default_options default_options
              "minions" "web1" (Some []) eq_refl eq_refl eq_refl eq_refl eq_refl
              (or_intror eq_refl)) as [(Hf & _ & _ & Hc) _].
  by split.
Defined.

(** X20: an error while rolling back replaces the error that caused the
    rollback.  When the statement of a read operation fails with a
    database error and the ROLLBACK that [_get_serv] then sends fails
    too, the caller gets the error of the ROLLBACK, not the statement's;
    the connection is closed all the same.  This holds in both
    plugins. *)
Theorem rollback_error_masks loads (w : World) ob oj bank key e1 e2 :
  pgbytea._get_options (w_opts w) = Ok ob ->
  pgjsonb_encoded._get_options (w_opts w) = Ok oj ->
  w_script w (w_calls w) = Normal ->
  w_script w (S (w_calls w)) = Fails e1 ->
  w_script w (S (S (w_calls w))) = Fails e2 ->
  is_DatabaseError e1 = true ->
  (exists w', pgbytea.fetch loads bank key w = (Raise e2, w') /\
     w_session w' = None)
  /\ (exists w', pgbytea.list_ bank w = (Raise e2, w') /\ w_session w' = None)
  /\ (exists w', pgjsonb_encoded.fetch bank key w = (Raise e2, w') /\
        w_session w' = None)
  /\ (exists w', pgjsonb_encoded.list_ bank w = (Raise e2, w') /\
        w_session w' = None).
Proof.
  intros Hob Hoj H0 H1 H2 He.
  repeat split;
    (eexists; split;
     [ unfold pgbytea.fetch, pgbytea.list_, pgbytea._get_serv,
         pgjsonb_encoded.fetch, pgjsonb_encoded.list_, pgjsonb_encoded._get_serv;
       run ltac:(eapply run_execute_fails; [world_fact I | world_fact I]) I
     | reflexivity ]).
Qed.

Lemma rollback_error_masks_witness :
  let e1 := Psycopg PgProgrammingError "permission denied" in
  let e2 := Psycopg PgOperationalError "server closed the connection" in
  let w := world_of ∅ [] [Normal; Fails e1; Fails e2] in
  fst (pgbytea.fetch text_loads "minions" "web1" w) = Raise e2
  /\ fst (pgjsonb_encoded.list_ "minions" w) = Raise e2.
Proof.
  intros e1 e2 w.
  destruct (rollback_error_masks text_loads w default_options default_options
              "minions" "web1" e1 e2 eq_refl eq_refl eq_refl eq_refl eq_refl eq_refl)
    as ((w1 & E1 & _) & _ & _ & (w4 & E4 & _)).
  rewrite E1, E4. by split.
Defined.

(** ** The resolver and the options of others *)

Lemma opt_or_insert_ne (k k' : string) (v dflt : PyVal) (d : gmap string PyVal) :
  k <> k' -> opt_or (<[k := v]> d) k' dflt = opt_or d k' dflt.
Proof. intros Hne. unfold opt_or. by rewrite lookup_insert_ne. Qed.

(** X21: each resolver reads its own eight options and nothing else.
    Setting or changing any other option of the host, among them every
    option of the other plugin, changes neither the descriptor nor the
    error the resolver returns. *)
Theorem resolver_reads_own_options (opts : gmap string PyVal) (k : string)
    (v : PyVal) :
  (k ∉ own_options "cache.pgbytea." ->
   pgbytea._get_options (<[k := v]> opts) = pgbytea._get_options opts)
  /\ (k ∉ own_options "cache.pgjsonb_encoded." ->
      pgjsonb_encoded._get_options (<[k := v]> opts)
      = pgjsonb_encoded._get_options opts).
Proof.
  split; intros Hk.
  - assert (Hne : forall own, In own (own_options "cache.pgbytea.") -> k <> own).
    { intros own Hin ->. by apply Hk, list_elem_of_In. }
    rewrite !bytea_options. unfold resolved.
    rewrite !(opt_or_insert_ne k) by (apply Hne; simpl; tauto). reflexivity.
  - assert (Hne : forall own, In own (own_options "cache.pgjsonb_encoded.") -> k <> own).
    { intros own Hin ->. by apply Hk, list_elem_of_In. }
    rewrite !jsonb_options. unfold resolved.
    rewrite !(opt_or_insert_ne k) by (apply Hne; simpl; tauto). reflexivity.
Qed.

Lemma resolver_reads_own_options_witness :
  pgbytea._get_options (<["cache.pgjsonb_encoded.port" := VStr "abc"]> ∅)
  = pgbytea._get_options ∅
  /\ pgjsonb_encoded._get_options (<["cache.pgbytea.table_name" := VStr "t"]> ∅)
     = pgjsonb_encoded._get_options ∅.
Proof.
  split.
  - apply (proj1 (resolver_reads_own_options ∅ "cache.pgjsonb_encoded.port"
                    (VStr "abc"))).
    intros H. apply list_elem_of_In in H. simpl in H.
    repeat (destruct H as [H|H]; [discriminate|]). destruct H.
  - apply (proj2 (resolver_reads_own_options ∅ "cache.pgbytea.table_name"
                    (VStr "t"))).
    intros H. apply list_elem_of_In in H. simpl in H.
    repeat (destruct H as [H|H]; [discriminate|]). destruct H.
Defined.

(** ** The loop of the CIFS walk *)

Section WalkFacts.

Variable isdir : string -> bool.
Variable path_join : string -> string -> string.

Lemma sweep_upto (cwd : string) (n : nat) (dirs files : list string) :
  (n <= length files)%nat ->
  cifs_roots.sweep isdir path_join cwd n dirs files
  = Ok (dirs ++ rev (List.filter (fun f => isdir (path_join cwd f)) (take n files)),
        List.filter (fun f => negb (isdir (path_join cwd f))) (take n files)
        ++ drop n files).
Proof.
  revert dirs files. induction n as [|i IH]; intros dirs files Hn.
  - cbn [cifs_roots.sweep]. by rewrite take_0, drop_0, app_nil_r.
  - destruct (lookup_lt_is_Some_2 files i ltac:(lia)) as [name Hname].
    cbn [cifs_roots.sweep]. rewrite Hname.
    rewrite (take_S_r files i name Hname), !List.filter_app. cbn [List.filter].
    destruct (isdir (path_join cwd name)) eqn:Ed; cbn [negb].
    + rewrite IH by (rewrite length_delete by eauto; lia).
      rewrite delete_take_drop.
      rewrite take_app_length' by (rewrite length_take; lia).
      rewrite drop_app_length' by (rewrite length_take; lia).
      rewrite rev_app_distr. cbn [rev app]. rewrite !app_nil_r.
      by rewrite <- app_assoc.
    + rewrite IH by lia. rewrite app_nil_r, <- app_assoc.
      by rewrite (drop_S files name i Hname).
Qed.

End WalkFacts.

Lemma filter_both_ways {A} (p : A -> bool) (l : list A) :
  List.filter p l ++ List.filter (fun x => negb (p x)) l ≡ₚ l.
Proof.
  induction l as [|x l IH]; [reflexivity|]. simpl.
  destruct (p x); simpl.
  - by rewrite IH.
  - rewrite <- Permutation_middle. by rewrite IH.
Qed.

(** X23: the loop of [_os_walk] over one directory's entries never
    indexes out of range, whatever the entries and whatever
    [os.path.isdir] answers.  It leaves in [files] exactly the entries
    that are not directories, in their order, and appends to [dirs] the
    entries that are directories, last one first; no entry is lost and
    none is duplicated. *)
Theorem sweep_entry_splits (isdir : string -> bool)
    (path_join : string -> string -> string) (cwd : string)
    (dirs files : list string) :
  exists dirs' files',
    cifs_roots.sweep_entry isdir path_join cwd dirs files = Ok (dirs', files')
    /\ files' = List.filter (fun f => negb (isdir (path_join cwd f))) files
    /\ dirs' = dirs ++ rev (List.filter (fun f => isdir (path_join cwd f)) files)
    /\ dirs' ++ files' ≡ₚ dirs ++ files.
Proof.
  eexists _, _. split.
  - unfold cifs_roots.sweep_entry. rewrite sweep_upto by lia.
    by rewrite firstn_all, drop_all, app_nil_r.
  - split; [reflexivity|]. split; [reflexivity|].
    rewrite <- app_assoc. apply Permutation_app_head.
    rewrite <- Permutation_rev. apply filter_both_ways.
Qed.

(** ** A pair without a row, and the same value again *)

Lemma rows_at_none (b k : string) (rows : list Row) :
  rows_at b k rows = [] -> Forall (fun x => same_key b k x = false) rows.
Proof.
  unfold rows_at. induction rows as [|r rows IH]; simpl; intros H; [constructor|].
  destruct (same_key b k r) eqn:E; [discriminate|]. constructor; [exact E | by apply IH].
Qed.

Lemma removal_of_none (b k : string) (rows : list Row) :
  rows_at b k rows = [] ->
  List.filter (fun r => negb (same_key b k r)) rows = rows.
Proof.
  intros H. apply rows_at_none in H.
  induction H as [|r rows Hr _ IH]; simpl; [reflexivity|]. by rewrite Hr, IH.
Qed.

(** X24: when the connection is established and the statement runs, for
    a bank and a key of at most 255 characters and, in the JSON plugin,
    a payload without a NUL character in its text (which [jsonb]
    refuses), a [store] to a pair that has no row adds exactly one row,
    after the rows that were there and leaving them as they were: the
    new row has the bank, the key and the payload (in the JSON plugin
    also the encoded flag), a fresh uuid and the time of the
    statement. *)
Theorem store_adds_one_row dumps (w : World) ob oj t bank key v b lit :
  ready pgbytea._get_options ob t w ->
  ready pgjsonb_encoded._get_options oj t w ->
  quote_free bank = true -> quote_free key = true ->
  fits bank = true -> fits key = true ->
  rows_at bank key (w_committed w) = [] ->
  dumps v = Ok b ->
  json_adapt (fst (payload_of v)) = Ok (LJson lit) ->
  json_storable lit = true ->
  (exists w1,
     pgbytea.store dumps bank key v w = (Ok VNone, w1) /\
     w_committed w1
     = w_committed w
       ++ [ {| r_bank := bank; r_key := key; r_data := Some (LBytea b);
               r_encoded := false; r_id := w_next_id w;
               r_changed := w_clock w + 1 |} ])
  /\ (exists w1,
        pgjsonb_encoded.store bank key v w = (Ok VNone, w1) /\
        w_committed w1
        = w_committed w
          ++ [ {| r_bank := bank; r_key := key; r_data := Some (LJson lit);
                  r_encoded := snd (payload_of v); r_id := w_next_id w;
                  r_changed := w_clock w + 1 |} ]).
Proof.
  intros Hwb Hwj Hb Hk Hfb Hfk Hf Hd Hj Hst. apply rows_at_none in Hf. split.
  - destruct (bytea_store_world dumps w ob t bank key v b Hwb Hb Hk Hd)
      as (w1 & E & Hc & _).
    rewrite stored_rows_fits in Hc by first [assumption | reflexivity].
    exists w1. split; [exact E|]. rewrite Hc. by apply upsert_fresh.
  - destruct (jsonb_store_world w oj t bank key v lit Hwj Hb Hk Hj)
      as (w1 & E & Hc & _).
    rewrite stored_rows_fits in Hc by first [assumption | reflexivity].
    exists w1. split; [exact E|]. rewrite Hc. by apply upsert_fresh.
Qed.

Lemma store_adds_one_row_witness :
  let w := world_of ∅ [a_row "minions" "web1" (LBytea "x")] [] in
  exists w1,
    pgbytea.store text_dumps "minions" "web2" (VStr "y") w = (Ok VNone, w1) /\
    w_committed w1
    = [ a_row "minions" "web1" (LBytea "x");
        {| r_bank := "minions"; r_key := "web2"; r_data := Some (LBytea "y");
           r_encoded := false; r_id := 1; r_changed := 1700000001 |} ].
Proof.
  intros w.
  exact (proj1 (store_adds_one_row text_dumps w default_options default_options
                  "salt_cache" "minions" "web2" (VStr "y") "y" (VStr "y")
                  (world_of_ready_bytea _) (world_of_ready_jsonb _) eq_refl eq_refl
                  eq_refl eq_refl eq_refl eq_refl eq_refl eq_refl)).
Defined.

(** X25: when the connection is established and the statement runs,
    [flush] of a bank with a non-empty key under which there is no row
    deletes nothing and still returns true, in both plugins. *)
Theorem flush_absent_key (w : World) ob oj t bank a k :
  ready pgbytea._get_options ob t w ->
  ready pgjsonb_encoded._get_options oj t w ->
  quote_free bank = true -> quote_free (String a k) = true ->
  rows_at bank (String a k) (w_committed w) = [] ->
  (exists w1,
     pgbytea.flush bank (Some (String a k)) w = (Ok (VBool true), w1) /\
     w_committed w1 = w_committed w)
  /\ (exists w1,
        pgjsonb_encoded.flush bank (Some (String a k)) w = (Ok (VBool true), w1) /\
        w_committed w1 = w_committed w).
Proof.
  intros Hwb Hwj Hb Hk Hf. pose proof Hwb as (_ & _ & Hi & _). split.
  - destruct (bytea_flush_world w ob t bank (Some (String a k))
                [(CBank, bank); (CKey, String a k)] Hwb
                (read_bytea_flush_key t bank a k Hi Hb Hk)) as (w1 & E & Hc & _).
    exists w1. split; [exact E|]. rewrite Hc, delete_by_key. by apply removal_of_none.
  - destruct (jsonb_flush_world w oj t bank (Some (String a k))
                [(CBank, bank); (CKey, String a k)] Hwj
                (read_jsonb_flush_key t bank a k Hi Hb Hk)) as (w1 & E & Hc & _).
    exists w1. split; [exact E|]. rewrite Hc, delete_by_key. by apply removal_of_none.
Qed.

Lemma flush_absent_key_witness :
  let w := world_of ∅ [a_row "minions" "web1" (LBytea "x")] [] in
  exists w1,
    pgjsonb_encoded.flush "minions" (Some "web9") w = (Ok (VBool true), w1) /\
    w_committed w1 = [a_row "minions" "web1" (LBytea "x")].
Proof.
  intros w.
  exact (proj2 (flush_absent_key w default_options default_options "salt_cache"
                  "minions" "w"%char "eb9" (world_of_ready_bytea _)
                  (world_of_ready_jsonb _) eq_refl eq_refl eq_refl)).
Defined.

Lemma assoc_last_app {V} (k : string) (pre d : list (string * V)) :
  assoc_last k (pre ++ d)
  = match assoc_last k d with Some y => Some y | None => assoc_last k pre end.
Proof.
  induction pre as [|[k' x] pre IH]; simpl; [by destruct (assoc_last k d)|].
  rewrite IH. by destruct (assoc_last k d).
Qed.

Lemma all2_by_refl (eq : PyVal -> PyVal -> bool) (l : list PyVal) :
  Forall (fun x => eq x x = true) l -> all2_by eq l l = true.
Proof. induction 1 as [|x l Hx _ IH]; simpl; [reflexivity | by rewrite Hx, IH]. Qed.

Lemma within_by_refl (eq : PyVal -> PyVal -> bool) (d : list (string * PyVal)) :
  Forall (fun kv => eq (snd kv) (snd kv) = true) d ->
  forall pre, within_by eq d (pre ++ d) = true.
Proof.
  induction 1 as [|[k x] d Hx _ IH]; intros pre; simpl; [reflexivity|].
  simpl in Hx.
  replace (pre ++ (k, x) :: d) with ((pre ++ [(k, x)]) ++ d)
    by (by rewrite <- app_assoc).
  rewrite IH, andb_true_r.
  destruct (assoc_last k d) eqn:E; [reflexivity|].
  rewrite assoc_last_app, E, assoc_last_app. simpl.
  by rewrite String.eqb_refl.
Qed.

Lemma has_name_all (d : list (string * PyVal)) : forallb (has_name d) d = true.
Proof.
  apply forallb_forall. intros [k x] Hin. unfold has_name. simpl.
  induction d as [|[k' y] d IH]; [destruct Hin|]. simpl.
  destruct (assoc_last k d) eqn:E; [reflexivity|].
  destruct Hin as [[= -> ->]|Hin]; [by rewrite String.eqb_refl|].
  by specialize (IH Hin).
Qed.

Lemma jsonb_eqb_refl : forall v : PyVal, jsonb_eqb v v = true.
Proof.
  fix IH 1. intros [|b|z|s|s|n|l|l|d]; cbn [jsonb_eqb].
  - reflexivity.
  - by destruct b.
  - apply Z.eqb_refl.
  - apply String.eqb_refl.
  - apply String.eqb_refl.
  - apply N.eqb_refl.
  - apply all2_by_refl. induction l as [|x l IHl]; constructor; [apply IH | exact IHl].
  - apply all2_by_refl. induction l as [|x l IHl]; constructor; [apply IH | exact IHl].
  - rewrite has_name_all, andb_true_r.
    refine (within_by_refl jsonb_eqb d _ []).
    induction d as [|[k x] d IHd]; constructor; [apply IH | exact IHd].
Qed.

Lemma SqlLit_eqb_refl (d : SqlLit) : SqlLit_eqb d d = true.
Proof. destruct d; cbn; [apply String.eqb_refl | apply jsonb_eqb_refl]. Qed.

Lemma upsert_again (b k : string) d e now now' fresh fresh' (rows : list Row) :
  upsert_rows b k d e now' fresh' (upsert_rows b k d e now fresh rows)
  = upsert_rows b k d e now fresh rows.
Proof.
  assert (Hnew : forall r, same_key b k r = true ->
            updated_row (updated_row r d e now) d e now' = updated_row r d e now).
  { intros r Hr. unfold updated_row. cbn. rewrite SqlLit_eqb_refl. cbn.
    by destruct e. }
  induction rows as [|r rows IH].
  - change (upsert_rows b k d e now fresh [])
      with [ {| r_bank := b; r_key := k; r_data := Some d;
                r_encoded := default false e; r_id := fresh; r_changed := now |} ].
    rewrite upsert_rows_cons.
    unfold same_key at 1. cbn [r_bank r_key]. rewrite !String.eqb_refl. cbn [andb].
    unfold updated_row. cbn. rewrite SqlLit_eqb_refl. cbn. by destruct e.
  - rewrite upsert_rows_cons. destruct (same_key b k r) eqn:E.
    + rewrite upsert_rows_cons, same_key_updated, E. by rewrite Hnew.
    + rewrite upsert_rows_cons, E. by rewrite IH.
Qed.

Lemma stored_again (bank key : string) d e now now' fresh fresh' (rows : list Row) :
  stored_rows bank key d e now' fresh' (stored_rows bank key d e now fresh rows)
  = stored_rows bank key d e now fresh rows.
Proof.
  unfold stored_rows. destruct (stored_under bank key) as [[b k]|]; [|reflexivity].
  destruct (lit_storable d); [apply upsert_again | reflexivity].
Qed.

(** X26: storing the same value again changes nothing.  When the
    connection is established and the statements run, a second [store]
    of the same value under the same bank and key leaves every row as
    the first store left it, its change time included (with the trigger
    of the module documentation).  This holds in both plugins. *)
Theorem store_same_again dumps (w : World) ob oj t bank key v b lit :
  ready pgbytea._get_options ob t w ->
  ready pgjsonb_encoded._get_options oj t w ->
  quote_free bank = true -> quote_free key = true ->
  dumps v = Ok b ->
  json_adapt (fst (payload_of v)) = Ok (LJson lit) ->
  (exists w1 w2,
     pgbytea.store dumps bank key v w = (Ok VNone, w1) /\
     pgbytea.store dumps bank key v w1 = (Ok VNone, w2) /\
     w_committed w2 = w_committed w1)
  /\ (exists w1 w2,
        pgjsonb_encoded.store bank key v w = (Ok VNone, w1) /\
        pgjsonb_encoded.store bank key v w1 = (Ok VNone, w2) /\
        w_committed w2 = w_committed w1).
Proof.
  intros Hwb Hwj Hb Hk Hd Hj. split.
  - destruct (bytea_store_world dumps w ob t bank key v b Hwb Hb Hk Hd)
      as (w1 & E1 & Hc1 & _ & _ & Hw1).
    destruct (bytea_store_world dumps w1 ob t bank key v b Hw1 Hb Hk Hd)
      as (w2 & E2 & Hc2 & _).
    exists w1, w2. split; [exact E1|]. split; [exact E2|].
    rewrite Hc2, Hc1. apply stored_again.
  - destruct (jsonb_store_world w oj t bank key v lit Hwj Hb Hk Hj)
      as (w1 & E1 & Hc1 & _ & _ & Hw1).
    destruct (jsonb_store_world w1 oj t bank key v lit Hw1 Hb Hk Hj)
      as (w2 & E2 & Hc2 & _).
    exists w1, w2. split; [exact E1|]. split; [exact E2|].
    rewrite Hc2, Hc1. apply stored_again.
Qed.

Lemma store_same_again_witness :
  let w := world_of ∅ [] [] in
  exists w1 w2,
    pgjsonb_encoded.store "minions" "web1" (VBytes ff_fe_00) w = (Ok VNone, w1) /\
    pgjsonb_encoded.store "minions" "web1" (VBytes ff_fe_00) w1 = (Ok VNone, w2) /\
    w_committed w2 = w_committed w1.
Proof.
  intros w.
  exact (proj2 (store_same_again (fun _ => Ok "unused") w default_options
                  default_options
                  "salt_cache" "minions" "web1" (VBytes ff_fe_00) "unused"
                  (VStr (b64encode ff_fe_00))
                  (world_of_ready_bytea _) (world_of_ready_jsonb _) eq_refl eq_refl
                  eq_refl eq_refl)).
Defined.

(** * Errors, the scope's last statement, and upserts *)

(** What the caller knows when the server's replies are given one by
    one: a call that fails, or that is answered with a result. *)
Ltac replied :=
  first [ eapply run_execute_fails; [world_fact I | world_fact I]
        | eapply run_execute_answers; [world_fact I | world_fact I] ].

Lemma bytea_store_failed dumps (w : World) o bank key v b e :
  pgbytea._get_options (w_opts w) = Ok o ->
  w_script w (w_calls w) = Normal ->
  w_script w (S (w_calls w)) = Fails e ->
  is_psycopg_Error e = true ->
  dumps v = Ok b ->
  exists w',
    pgbytea.store dumps bank key v w
    = (after_reply (w_script w (S (S (w_calls w)))) (Ok VNone), w') /\
    w_log w'
    = w_log w
      ++ debug_record (pgbytea.store_query (o_table o) bank key (LBytea b))
         :: store_diagnostics e (o_table o) bank key (LBytea b) /\
    w_committed w' = w_committed w.
Proof.
  intros Ho H0 H1 He Hd.
  destruct e as [c msg| | | | | | | |]; try discriminate.
  destruct (w_script w (S (S (w_calls w)))) as [|e3|r3] eqn:H2;
    destruct c; (eexists; split;
    [ unfold pgbytea.store, pgbytea._get_serv, after_reply;
      run ltac:(first [ rewrite Hd | replied ]) I
    | split; [cbn; rewrite <- !app_assoc; reflexivity | reflexivity] ]).
Qed.

Lemma jsonb_store_failed (w : World) o bank key v lit e :
  pgjsonb_encoded._get_options (w_opts w) = Ok o ->
  w_script w (w_calls w) = Normal ->
  w_script w (S (w_calls w)) = Fails e ->
  is_psycopg_Error e = true ->
  json_adapt (fst (payload_of v)) = Ok lit ->
  exists w',
    pgjsonb_encoded.store bank key v w
    = (after_reply (w_script w (S (S (w_calls w)))) (Ok VNone), w') /\
    w_log w'
    = w_log w
      ++ debug_record (pgjsonb_encoded.store_query (o_table o) bank key lit
                         (snd (payload_of v)))
         :: store_diagnostics e (o_table o) bank key lit /\
    w_committed w' = w_committed w.
Proof.
  intros Ho H0 H1 He Hj.
  destruct (payload_of v) as [p enc] eqn:Hp. cbn [fst snd] in *.
  destruct e as [c msg| | | | | | | |]; try discriminate.
  destruct (w_script w (S (S (w_calls w)))) as [|e3|r3] eqn:H2;
    destruct c; (eexists; split;
    [ unfold pgjsonb_encoded.store, pgjsonb_encoded._get_serv, after_reply;
      run ltac:(first [ rewrite Hj | rewrite encode_payload_run, Hp | replied ]) I
    | split; [cbn; rewrite <- !app_assoc; reflexivity | reflexivity] ]).
Qed.

Lemma bytea_flush_after_failure (w : World) o bank key e :
  pgbytea._get_options (w_opts w) = Ok o ->
  w_script w (w_calls w) = Normal ->
  w_script w (S (w_calls w)) = Fails e ->
  is_psycopg_Error e = true ->
  exists w',
    pgbytea.flush bank key w
    = (after_reply (w_script w (S (S (w_calls w)))) (Ok (VBool false)), w') /\
    w_committed w' = w_committed w.
Proof.
  intros Ho H0 H1 He.
  destruct (w_script w (S (S (w_calls w)))) as [|e3|r3] eqn:H2;
    (eexists; split;
     [ unfold pgbytea.flush, pgbytea._get_serv, after_reply; run replied I
     | reflexivity ]).
Qed.

Lemma jsonb_flush_after_failure (w : World) o bank key e :
  pgjsonb_encoded._get_options (w_opts w) = Ok o ->
  w_script w (w_calls w) = Normal ->
  w_script w (S (w_calls w)) = Fails e ->
  is_psycopg_Error e = true ->
  exists w',
    pgjsonb_encoded.flush bank key w
    = (after_reply (w_script w (S (S (w_calls w)))) (Ok (VBool false)), w') /\
    w_committed w' = w_committed w.
Proof.
  intros Ho H0 H1 He.
  destruct (w_script w (S (S (w_calls w)))) as [|e3|r3] eqn:H2;
    (eexists; split;
     [ unfold pgjsonb_encoded.flush, pgjsonb_encoded._get_serv, after_reply;
       run replied I
     | reflexivity ]).
Qed.






(** C6 (amended): for every bank, key and value, when the statement
    [store] executes fails with a driver error (constraint violation,
    data error, or any other [psycopg2.Error]), [store] in both plugins
    logs the error with the table, bank, key and payload and leaves the
    table unchanged.  What the caller gets depends on the COMMIT that
    ends the scope: [store] returns None when the COMMIT runs, and
    raises the COMMIT's error when the COMMIT raises. *)
Theorem store_swallows dumps (w : World) ob oj bank key v b lit e :
  pgbytea._get_options (w_opts w) = Ok ob ->
  pgjsonb_encoded._get_options (w_opts w) = Ok oj ->
  w_script w (w_calls w) = Normal ->
  w_script w (S (w_calls w)) = Fails e ->
  is_psycopg_Error e = true ->
  dumps v = Ok b ->
  json_adapt (fst (payload_of v)) = Ok lit ->
  (exists w',
     pgbytea.store dumps bank key v w
     = (after_reply (w_script w (S (S (w_calls w)))) (Ok VNone), w') /\
     w_log w'
     = w_log w
       ++ debug_record (pgbytea.store_query (o_table ob) bank key (LBytea b))
          :: store_diagnostics e (o_table ob) bank key (LBytea b) /\
     w_committed w' = w_committed w)
  /\ (exists w',
       pgjsonb_encoded.store bank key v w
       = (after_reply (w_script w (S (S (w_calls w)))) (Ok VNone), w') /\
       w_log w'
       = w_log w
         ++ debug_record (pgjsonb_encoded.store_query (o_table oj) bank key lit
                            (snd (payload_of v)))
            :: store_diagnostics e (o_table oj) bank key lit /\
       w_committed w' = w_committed w).
Proof.
  intros Hb Hj H0 H1 He Hd Ha. split.
  - by apply bytea_store_failed.
  - by apply jsonb_store_failed.
Qed.

Lemma store_swallows_witness :
  let e := Psycopg PgIntegrityError "violates check constraint" in
  let lost := Psycopg PgInterfaceError "connection already closed" in
  let w := world_of ∅ [] [Normal; Fails e; Normal] in
  let wc := world_of ∅ [] [Normal; Fails e; Fails lost] in
  (exists w',
     pgbytea.store text_dumps "minions" "web1" (VStr "x") w = (Ok VNone, w') /\
     w_committed w' = [])
  /\ (exists w',
       pgjsonb_encoded.store "minions" "web1" (VStr "x") wc = (Raise lost, w') /\
       w_committed w' = []).
Proof.
  intros e lost w wc.
  destruct (store_swallows text_dumps w default_options default_options
              "minions" "web1" (VStr "x") "x" (LJson (VStr "x")) e
              eq_refl eq_refl eq_refl eq_refl eq_refl eq_refl eq_refl)
    as [(w1 & E1 & _ & C1) _].
  destruct (store_swallows text_dumps wc default_options default_options
              "minions" "web1" (VStr "x") "x" (LJson (VStr "x")) e
              eq_refl eq_refl eq_refl eq_refl eq_refl eq_refl eq_refl)
    as [_ (w2 & E2 & _ & C2)].
  split; [exists w1 | exists w2]; by split.
Defined.

(** C6 as stated fails: the server drops the connection while it runs
    the INSERT, so the COMMIT that ends the scope fails too; [store] has
    logged the first error and raises the second. *)
Lemma store_commit_error_raised :
  fst (pgbytea.store text_dumps "minions" "web1" (VStr "x")
         (world_of ∅ []
            [Normal;
             Fails (Psycopg PgOperationalError "server closed the connection");
             Fails (Psycopg PgInterfaceError "connection already closed")]))
  = Raise (Psycopg PgInterfaceError "connection already closed").
Proof. vm_compute. reflexivity. Qed.




(** C7 (amended): for a bank without a single quote, when the connection
    is made and the statements run: [flush] with no key deletes every
    row of the bank and no row of another bank; [flush] with a non-empty
    key without a single quote deletes the rows with that bank and key,
    at most one under the primary key; both return true.  When the
    delete statement raises a driver error the table is unchanged, and
    [flush] returns false when the COMMIT that follows runs and raises
    the COMMIT's error when the COMMIT raises.  (What [flush] does with
    the empty string as key is not part of this statement.) *)
Theorem flush_spec (w wf : World) ob oj t bank ofb ofj e :
  ready pgbytea._get_options ob t w ->
  ready pgjsonb_encoded._get_options oj t w ->
  quote_free bank = true ->
  pgbytea._get_options (w_opts wf) = Ok ofb ->
  pgjsonb_encoded._get_options (w_opts wf) = Ok ofj ->
  w_script wf (w_calls wf) = Normal ->
  w_script wf (S (w_calls wf)) = Fails e ->
  is_psycopg_Error e = true ->
  ((exists w', pgbytea.flush bank None w = (Ok (VBool true), w') /\
      w_committed w'
      = List.filter (fun r => negb (String.eqb (r_bank r) bank)) (w_committed w))
   /\ (exists w', pgjsonb_encoded.flush bank None w = (Ok (VBool true), w') /\
      w_committed w'
      = List.filter (fun r => negb (String.eqb (r_bank r) bank)) (w_committed w)))
  /\ (forall a k, quote_free (String a k) = true ->
       (exists w', pgbytea.flush bank (Some (String a k)) w = (Ok (VBool true), w') /\
          w_committed w'
          = List.filter (fun r => negb (same_key bank (String a k) r)) (w_committed w)
          /\ (unique_keys (w_committed w) ->
              (length (w_committed w) <= S (length (w_committed w')))%nat))
       /\ (exists w', pgjsonb_encoded.flush bank (Some (String a k)) w
                      = (Ok (VBool true), w') /\
          w_committed w'
          = List.filter (fun r => negb (same_key bank (String a k) r)) (w_committed w)
          /\ (unique_keys (w_committed w) ->
              (length (w_committed w) <= S (length (w_committed w')))%nat)))
  /\ (forall key, key <> Some "" ->
       (exists w',
          pgbytea.flush bank key wf
          = (after_reply (w_script wf (S (S (w_calls wf)))) (Ok (VBool false)), w') /\
          w_committed w' = w_committed wf)
       /\ (exists w',
          pgjsonb_encoded.flush bank key wf
          = (after_reply (w_script wf (S (S (w_calls wf)))) (Ok (VBool false)), w') /\
          w_committed w' = w_committed wf)).
Proof.
  intros Hwb Hwj Hb Hfb Hfj H0 H1 He.
  pose proof Hwb as (_ & _ & Hi & _). repeat split.
  - destruct (bytea_flush_run w ob t bank None [(CBank, bank)] Hwb
                (read_bytea_flush_bank t bank None Hi Hb eq_refl)) as (w' & E & Hr & _).
    exists w'. by rewrite <- delete_by_bank.
  - destruct (jsonb_flush_run w oj t bank None [(CBank, bank)] Hwj
                (read_jsonb_flush_bank t bank None Hi Hb eq_refl)) as (w' & E & Hr & _).
    exists w'. by rewrite <- delete_by_bank.
  - destruct (bytea_flush_run w ob t bank (Some (String a k))
                [(CBank, bank); (CKey, String a k)] Hwb
                (read_bytea_flush_key t bank a k Hi Hb H)) as (w' & E & Hr & _).
    exists w'. rewrite delete_by_key in Hr. split; [done|]. split; [done|].
    intros Hu. rewrite Hr. by apply delete_key_at_most_one.
  - destruct (jsonb_flush_run w oj t bank (Some (String a k))
                [(CBank, bank); (CKey, String a k)] Hwj
                (read_jsonb_flush_key t bank a k Hi Hb H)) as (w' & E & Hr & _).
    exists w'. rewrite delete_by_key in Hr. split; [done|]. split; [done|].
    intros Hu. rewrite Hr. by apply delete_key_at_most_one.
  - exact (bytea_flush_after_failure wf ofb bank key e Hfb H0 H1 He).
  - exact (jsonb_flush_after_failure wf ofj bank key e Hfj H0 H1 He).
Qed.

Lemma flush_spec_witness :
  let rows := [a_row "minions" "web1" (LBytea "x"); a_row "minions" "web2" (LBytea "y");
               a_row "jobs" "web1" (LBytea "z")] in
  let lost := Psycopg PgOperationalError "lost" in
  let w := world_of ∅ rows [] in
  let wf := world_of ∅ rows [Normal; Fails lost; Normal] in
  let wc := world_of ∅ rows [Normal; Fails lost; Fails lost] in
  (exists w', pgbytea.flush "minions" None w = (Ok (VBool true), w') /\
     w_committed w' = [a_row "jobs" "web1" (LBytea "z")])
  /\ (exists w', pgbytea.flush "minions" (Some "web1") w = (Ok (VBool true), w') /\
     w_committed w' = [a_row "minions" "web2" (LBytea "y");
                       a_row "jobs" "web1" (LBytea "z")])
  /\ (exists w', pgbytea.flush "minions" None wf = (Ok (VBool false), w') /\
     w_committed w' = rows)
  /\ (exists w', pgjsonb_encoded.flush "minions" (Some "web1") wc = (Raise lost, w') /\
     w_committed w' = rows).
Proof.
  intros rows lost w wf wc.
  destruct (flush_spec w wf default_options default_options "salt_cache" "minions"
              default_options default_options lost
              (world_of_ready_bytea _) (world_of_ready_jsonb _) eq_refl
              eq_refl eq_refl eq_refl eq_refl eq_refl)
    as (Hbank & Hkey & Hfail).
  destruct (flush_spec w wc default_options default_options "salt_cache" "minions"
              default_options default_options lost
              (world_of_ready_bytea _) (world_of_ready_jsonb _) eq_refl
              eq_refl eq_refl eq_refl eq_refl eq_refl)
    as (_ & _ & Hfail').
  split; [|split; [|split]].
  - destruct Hbank as [(w' & E & Hr) _]. exists w'. by split.
  - destruct (Hkey "w"%char "eb1" eq_refl) as [(w' & E & Hr & _) _].
    exists w'. by split.
  - destruct (Hfail None ltac:(discriminate)) as [(w' & E & Hr) _]. exists w'. by split.
  - destruct (Hfail' (Some "web1") ltac:(discriminate)) as [_ (w' & E & Hr)].
    exists w'. by split.
Defined.

(** C7 as stated fails.  A bank with a single quote in its name: the
    DELETE is malformed, [flush] returns false and the rows of the bank
    stay.  And a DELETE that raises on a connection that is lost:
    [flush] does not return false, it raises the error of the COMMIT. *)
Lemma flush_quote_keeps_bank :
  (let w := world_of ∅ [a_row "a'b" "k" (LBytea "x")] [] in
   fst (pgbytea.flush "a'b" None w) = Ok (VBool false)
   /\ w_committed (snd (pgbytea.flush "a'b" None w)) = [a_row "a'b" "k" (LBytea "x")])
  /\ fst (pgbytea.flush "minions" None
            (world_of ∅ []
               [Normal;
                Fails (Psycopg PgOperationalError "server closed the connection");
                Fails (Psycopg PgInterfaceError "connection already closed")]))
     = Raise (Psycopg PgInterfaceError "connection already closed").
Proof. split; [split|]; vm_compute; reflexivity. Qed.

(** ** Sequences of [store] calls *)

Lemma upsert_keeps_present (b k b' k' : string) d e now fresh (rows : list Row) :
  rows_at b' k' rows <> [] ->
  rows_at b' k' (upsert_rows b k d e now fresh rows) <> [].
Proof.
  intros Hp. destruct (decide ((b', k') = (b, k))) as [[= -> ->]|Hne].
  - unfold rows_at.
    destruct (upsert_then_select b k d e now fresh rows) as (r & rest & -> & _).
    discriminate.
  - by rewrite upsert_elsewhere.
Qed.

Lemma upsert_present (b k : string) d e now fresh (rows : list Row) :
  rows_at b k (upsert_rows b k d e now fresh rows) <> [].
Proof.
  unfold rows_at.
  destruct (upsert_then_select b k d e now fresh rows) as (r & rest & -> & _).
  discriminate.
Qed.

Lemma rows_at_one (b k : string) (rows : list Row) :
  unique_keys rows -> rows_at b k rows <> [] -> length (rows_at b k rows) = 1%nat.
Proof.
  intros Hu Hp. destruct (rows_at_unique b k rows Hu) as [E|[r E]]; [done|].
  by rewrite E.
Qed.

Section StoreSequences.

Variable store : string -> string -> PyVal -> M PyVal.
Variable able : string * string * PyVal -> Prop.
Variable good : World -> Prop.

Hypothesis store_upserts :
  forall w bank key v,
    good w -> able (bank, key, v) ->
    good (snd (store bank key v w))
    /\ exists d e now fresh,
         w_committed (snd (store bank key v w))
         = upsert_rows bank key d e now fresh (w_committed w).

Lemma store_all_present (calls : list (string * string * PyVal)) :
  forall w, good w -> Forall able calls ->
    (forall b k, rows_at b k (w_committed w) <> [] ->
                 rows_at b k (w_committed (store_all store calls w)) <> [])
    /\ Forall (fun c => rows_of_call c (w_committed (store_all store calls w)) <> [])
         calls.
Proof.
  induction calls as [|[[bank key] v] calls IH]; intros w Hg Ha; simpl.
  - split; [done | constructor].
  - apply Forall_cons in Ha as [Hc Ha].
    destruct (store_upserts w bank key v Hg Hc) as (Hg' & d & e & now & fresh & E).
    destruct (IH _ Hg' Ha) as [Hkeep Hall].
    split.
    + intros b k Hp. apply Hkeep. rewrite E. by apply upsert_keeps_present.
    + constructor; [|exact Hall].
      simpl. apply Hkeep. rewrite E. apply upsert_present.
Qed.

Lemma store_all_unique (calls : list (string * string * PyVal)) :
  forall w, good w -> Forall able calls -> unique_keys (w_committed w) ->
    unique_keys (w_committed (store_all store calls w)).
Proof.
  induction calls as [|[[bank key] v] calls IH]; intros w Hg Ha Hu; simpl; [done|].
  apply Forall_cons in Ha as [Hc Ha].
  destruct (store_upserts w bank key v Hg Hc) as (Hg' & d & e & now & fresh & E).
  apply IH; [done | done |]. rewrite E. by apply upsert_unique.
Qed.

Lemma store_all_one_row (calls : list (string * string * PyVal)) (w : World) :
  good w -> Forall able calls -> unique_keys (w_committed w) ->
  unique_keys (w_committed (store_all store calls w))
  /\ Forall (fun c =>
               length (rows_of_call c (w_committed (store_all store calls w))) = 1%nat)
       calls.
Proof.
  intros Hg Ha Hu.
  pose proof (store_all_unique calls w Hg Ha Hu) as Hu'.
  split; [exact Hu'|].
  destruct (store_all_present calls w Hg Ha) as [_ Hall].
  eapply Forall_impl; [exact Hall|].
  intros [[bank key] v] Hp. simpl in *. by apply rows_at_one.
Qed.

End StoreSequences.

(** C4 (amended): for bank and key without a single quote and of at most
    255 characters and, in the JSON plugin, a payload without a NUL
    character in its text, when the connection is made and the
    statements run, [store] to a pair that has a row rewrites that row
    where it stands: same bank, key and id, the new payload (and, in the
    JSON plugin, the new encoded flag), every other row untouched and
    none added.  And a sequence of such [store] calls, begun on a table
    with at most one row per (bank, key), leaves at most one row per
    (bank, key) and exactly one row under each pair that was stored. *)
Theorem store_upsert dumps (w w0 : World) ob oj t bank key v b lit
    (pre post : list Row) (r : Row) (calls : list (string * string * PyVal)) :
  ready pgbytea._get_options ob t w ->
  ready pgjsonb_encoded._get_options oj t w ->
  quote_free bank = true -> quote_free key = true ->
  fits bank = true -> fits key = true ->
  w_committed w = pre ++ r :: post ->
  Forall (fun x => same_key bank key x = false) pre ->
  same_key bank key r = true ->
  dumps v = Ok b ->
  json_adapt (fst (payload_of v)) = Ok (LJson lit) ->
  json_storable lit = true ->
  ready pgbytea._get_options ob t w0 ->
  ready pgjsonb_encoded._get_options oj t w0 ->
  unique_keys (w_committed w0) ->
  Forall (fun c => well_keyed c = true) calls ->
  (exists w',
     pgbytea.store dumps bank key v w = (Ok VNone, w') /\
     w_committed w'
     = pre ++ updated_row r (LBytea b) None (w_clock w + 1) :: post)
  /\ (exists w',
       pgjsonb_encoded.store bank key v w = (Ok VNone, w') /\
       w_committed w'
       = pre ++ updated_row r (LJson lit) (Some (snd (payload_of v)))
                  (w_clock w + 1) :: post)
  /\ (Forall (fun c => exists x, dumps (snd c) = Ok x) calls ->
      let rows := w_committed (store_all (pgbytea.store dumps) calls w0) in
      unique_keys rows
      /\ Forall (fun c => length (rows_of_call c rows) = 1%nat) calls)
  /\ (Forall (fun c => exists x, json_adapt (fst (payload_of (snd c))) = Ok (LJson x)
                                 /\ json_storable x = true) calls ->
      let rows := w_committed (store_all pgjsonb_encoded.store calls w0) in
      unique_keys rows
      /\ Forall (fun c => length (rows_of_call c rows) = 1%nat) calls).
Proof.
  intros Hwb Hwj Hb Hk Hfb Hfk Hrows Hpre Hr Hd Hj Hst Hw0b Hw0j Hu Hkeyed.
  split; [|split; [|split]].
  - destruct (bytea_store_run dumps w ob t bank key v b Hwb Hb Hk Hfb Hfk Hd)
      as (w' & E & Hc & _).
    exists w'. split; [exact E|].
    rewrite Hc, Hrows. by apply upsert_in_place.
  - destruct (jsonb_store_run w oj t bank key v lit Hwj Hb Hk Hfb Hfk Hj Hst)
      as (w' & E & Hc & _).
    exists w'. split; [exact E|].
    rewrite Hc, Hrows. by apply upsert_in_place.
  - intros Hable rows. subst rows.
    apply (store_all_one_row (pgbytea.store dumps)
             (fun c => well_keyed c = true /\ exists x, dumps (snd c) = Ok x)
             (ready pgbytea._get_options ob t)).
    + intros w1 bank1 key1 v1 Hw1 [Hwk [x Hx]]. simpl in Hwk, Hx.
      apply andb_true_iff in Hwk as [Hwk Hf2]. apply andb_true_iff in Hwk as [Hwk Hf1].
      apply andb_true_iff in Hwk as [Hq1 Hq2].
      destruct (bytea_store_run dumps w1 ob t bank1 key1 v1 x Hw1 Hq1 Hq2 Hf1 Hf2 Hx)
        as (w' & E & Hc & Hw').
      rewrite E. simpl. split; [exact Hw'|]. by eexists _, _, _, _.
    + exact Hw0b.
    + apply Forall_and. by split.
    + exact Hu.
  - intros Hable rows. subst rows.
    apply (store_all_one_row pgjsonb_encoded.store
             (fun c => well_keyed c = true
                       /\ exists x, json_adapt (fst (payload_of (snd c))) = Ok (LJson x)
                                    /\ json_storable x = true)
             (ready pgjsonb_encoded._get_options oj t)).
    + intros w1 bank1 key1 v1 Hw1 [Hwk [x [Hx Hs]]]. simpl in Hwk, Hx.
      apply andb_true_iff in Hwk as [Hwk Hf2]. apply andb_true_iff in Hwk as [Hwk Hf1].
      apply andb_true_iff in Hwk as [Hq1 Hq2].
      destruct (jsonb_store_run w1 oj t bank1 key1 v1 x Hw1 Hq1 Hq2 Hf1 Hf2 Hx Hs)
        as (w' & E & Hc & Hw').
      rewrite E. simpl. split; [exact Hw'|]. by eexists _, _, _, _.
    + exact Hw0j.
    + apply Forall_and. by split.
    + exact Hu.
Qed.

Lemma store_upsert_witness :
  let old := a_row "minions" "web1" (LBytea "old") in
  let other := a_row "minions" "web2" (LBytea "kept") in
  let w := world_of ∅ [other; old] [] in
  let calls := [("minions", "web1", VStr "a"); ("jobs", "j1", VStr "c");
                ("minions", "web1", VStr "b")] in
  (exists w',
     pgbytea.store text_dumps "minions" "web1" (VStr "new") w = (Ok VNone, w') /\
     w_committed w'
     = [other;
        {| r_bank := "minions"; r_key := "web1"; r_data := Some (LBytea "new");
           r_encoded := false; r_id := 0; r_changed := 1700000001 |}])
  /\ unique_keys (w_committed (store_all (pgbytea.store text_dumps) calls w))
  /\ length (rows_at "minions" "web1"
               (w_committed (store_all (pgbytea.store text_dumps) calls w))) = 1%nat.
Proof.
  intros old other w calls.
  assert (Hpre : Forall (fun x => same_key "minions" "web1" x = false) [other])
    by (constructor; [reflexivity | constructor]).
  assert (Hu : unique_keys (w_committed w)).
  { unfold unique_keys. cbn. apply NoDup_cons. split; [|apply NoDup_singleton].
    intros H. apply list_elem_of_singleton in H. discriminate. }
  assert (Hkeyed : Forall (fun c => well_keyed c = true) calls)
    by (repeat constructor).
  assert (Hable : Forall (fun c => exists x, text_dumps (snd c) = Ok x) calls)
    by (repeat constructor; by eexists).
  destruct (store_upsert text_dumps w w default_options default_options "salt_cache"
              "minions" "web1" (VStr "new") "new" (VStr "new") [other] [] old calls
              (world_of_ready_bytea _) (world_of_ready_jsonb _) eq_refl eq_refl
              eq_refl eq_refl eq_refl Hpre eq_refl eq_refl eq_refl eq_refl
              (world_of_ready_bytea _) (world_of_ready_jsonb _) Hu Hkeyed)
    as ((w' & E & Hc) & _ & Hall & _).
  split; [|split].
  - exists w'. split; [exact E|]. rewrite Hc. reflexivity.
  - exact (proj1 (Hall Hable)).
  - destruct (Hall Hable) as [_ Hone]. apply Forall_cons in Hone as [Hone _].
    exact Hone.
Defined.

(** C4 as stated fails.  A row under the bank [a'b] is not updated by a
    [store] to that bank and key: the statement is malformed and the
    error is swallowed.  And in the JSON plugin a row is not updated by
    a [store] of a text with a NUL character: [jsonb] refuses the value
    and the error is swallowed. *)
Lemma store_quote_not_updated :
  (let w := world_of ∅ [a_row "a'b" "k" (LBytea "old")] [] in
   pgbytea.store text_dumps "a'b" "k" (VStr "new") w
   = (Ok VNone, snd (pgbytea.store text_dumps "a'b" "k" (VStr "new") w))
   /\ w_committed (snd (pgbytea.store text_dumps "a'b" "k" (VStr "new") w))
      = [a_row "a'b" "k" (LBytea "old")])
  /\ (let nul := String "a" (String "000" "b") in
      let w := world_of ∅ [a_row "minions" "web1" (LJson (VStr "old"))] [] in
      fst (pgjsonb_encoded.store "minions" "web1" (VStr nul) w) = Ok VNone
      /\ w_committed (snd (pgjsonb_encoded.store "minions" "web1" (VStr nul) w))
         = [a_row "minions" "web1" (LJson (VStr "old"))]).
Proof. split; (split; vm_compute; reflexivity). Qed.
